(** * PromptArchitect Pro: usage meter, history store and response normalizer

    Shallow embedding of [src/App.tsx] (the client-side bookkeeping around
    the remote generation call) together with the fragment of the JavaScript
    built-ins it calls ([String.prototype.trim], [String], [JSON.stringify],
    [Array.prototype.sort], [Map]).

    Conventions.
    - A JavaScript string is its sequence of UTF-16 code units ([list N]).
    - A JavaScript number is modelled by [Z]: the counters and timestamps the
      program produces ([dailyCount + 1], [Date.now()]) are integers.
      Fractional numbers are outside the model, although the code accepts
      them where it accepts a number (a stored usage count of 2.5 passes
      [typeof parsed.count === "number"]).
    - [undefined] is [None] at type [option json].
    - A call that may raise returns an [outcome]. *)

From Stdlib Require Import List ZArith NArith Bool Lia String Ascii.
From Stdlib Require Import Permutation Sorted.
From Stdlib Require Decimal DecimalPos DecimalZ.
Import ListNotations.

Set Warnings "-register-all".
Local Open Scope Z_scope.

(* ------------------------------------------------------------------ *)
(** ** JavaScript values                                               *)
(* ------------------------------------------------------------------ *)

Module JS.

(** UTF-16 code units. *)
Definition jstring := list N.

(** A source literal (ASCII) as a JavaScript string. *)
Definition lit (s : string) : jstring :=
  List.map N_of_ascii (list_ascii_of_string s).

Fixpoint str_eqb (a b : jstring) : bool :=
  match a, b with
  | [], [] => true
  | x :: a', y :: b' => N.eqb x y && str_eqb a' b'
  | _, _ => false
  end.

(** ECMAScript [WhiteSpace] and [LineTerminator] code points, the ones
    [String.prototype.trim] strips. *)
Definition is_whitespace (c : N) : bool :=
  let c := Z.of_N c in
  ((9 <=? c) && (c <=? 13))
  || (c =? 32) || (c =? 160) || (c =? 5760)
  || ((8192 <=? c) && (c <=? 8202))
  || (c =? 8232) || (c =? 8233) || (c =? 8239) || (c =? 8287)
  || (c =? 12288) || (c =? 65279).

Fixpoint trimStart (s : jstring) : jstring :=
  match s with
  | [] => []
  | c :: s' => if is_whitespace c then trimStart s' else s
  end.

Definition trimEnd (s : jstring) : jstring := rev (trimStart (rev s)).

Definition trim (s : jstring) : jstring := trimEnd (trimStart s).

(** An empty string is the only falsy string. *)
Definition nonempty (s : jstring) : bool :=
  match s with [] => false | _ :: _ => true end.

(** Values that [JSON.parse] can produce. An object is the list of its own
    properties, keys distinct, in the order [[OwnPropertyKeys]] enumerates
    them (the order [JSON.stringify] and object spread walk). *)
Inductive json : Type :=
| JNull
| JBool (b : bool)
| JNum (n : Z)
| JStr (s : jstring)
| JArr (items : list json)
| JObj (props : list (jstring * json)).

(** [ToBoolean]. *)
Definition truthy (v : json) : bool :=
  match v with
  | JNull => false
  | JBool b => b
  | JNum n => negb (n =? 0)
  | JStr s => nonempty s
  | JArr _ | JObj _ => true
  end.

(** [ToBoolean] of a value that may be [undefined]. *)
Definition truthy_opt (v : option json) : bool :=
  match v with None => false | Some j => truthy j end.

Fixpoint own (props : list (jstring * json)) (k : jstring) : option json :=
  match props with
  | [] => None
  | (k', v) :: rest => if str_eqb k' k then Some v else own rest k
  end.

(** Property read [v.k] / [v?.[k]] on a non-nullish base, for the keys the
    program probes. None of those keys is inherited from [Object.prototype],
    nor a built-in property of arrays, strings, numbers or booleans, so only
    an object's own property can answer. *)
Definition prop (v : json) (k : jstring) : option json :=
  match v with
  | JObj props => own props k
  | _ => None
  end.

(** [v === s] for a string [s]. *)
Definition is_string (v : option json) (s : jstring) : bool :=
  match v with
  | Some (JStr x) => str_eqb x s
  | _ => false
  end.

(** [a ?? b]. *)
Definition nullish_or (a b : option json) : option json :=
  match a with
  | None | Some JNull => b
  | Some _ => a
  end.

(** [a || b] on values. *)
Definition or_else (a : option json) (b : json) : json :=
  match a with
  | Some j => if truthy j then j else b
  | None => b
  end.

(** *** Exceptions *)

Inductive exn : Type :=
| TypeError (message : jstring).

Inductive outcome (A : Type) : Type :=
| Returns (a : A)
| Throws (e : exn).
Arguments Returns {A} a.
Arguments Throws {A} e.

Definition bind {A B} (m : outcome A) (f : A -> outcome B) : outcome B :=
  match m with
  | Returns a => f a
  | Throws e => Throws e
  end.

Notation "x <- m ;; k" := (bind m (fun x => k))
  (at level 61, m at next level, right associativity).

Fixpoint mapM {A B} (f : A -> outcome B) (l : list A) : outcome (list B) :=
  match l with
  | [] => Returns []
  | x :: l' => y <- f x ;; ys <- mapM f l' ;; Returns (y :: ys)
  end.

(** *** Number to string *)

Fixpoint digits (d : Decimal.uint) : jstring :=
  match d with
  | Decimal.Nil => []
  | Decimal.D0 d => 48%N :: digits d
  | Decimal.D1 d => 49%N :: digits d
  | Decimal.D2 d => 50%N :: digits d
  | Decimal.D3 d => 51%N :: digits d
  | Decimal.D4 d => 52%N :: digits d
  | Decimal.D5 d => 53%N :: digits d
  | Decimal.D6 d => 54%N :: digits d
  | Decimal.D7 d => 55%N :: digits d
  | Decimal.D8 d => 56%N :: digits d
  | Decimal.D9 d => 57%N :: digits d
  end.

(** [Number::toString] on an integer below 10^21 in absolute value; from
    there on JavaScript prints the exponent form, which is not modelled. *)
Definition number_to_string (n : Z) : jstring :=
  match Z.to_int n with
  | Decimal.Pos d => digits d
  | Decimal.Neg d => 45%N :: digits d
  end.

Fixpoint join (sep : jstring) (parts : list jstring) : jstring :=
  match parts with
  | [] => []
  | [p] => p
  | p :: rest => p ++ sep ++ join sep rest
  end.

(** *** [String(v)]

    [ToString] of an object goes through [OrdinaryToPrimitive] with hint
    string: it calls the object's [toString] when that is callable, then
    its [valueOf]. For a plain object both come from [Object.prototype] and
    the answer is ["[object Object]"]. A parsed object whose own properties
    include the key [toString] shadows the inherited method with a value
    that is not callable; the inherited [valueOf] (or a shadowing own one)
    yields no primitive either, and the conversion raises a [TypeError].
    An array converts through [Array.prototype.join], which renders [null]
    as the empty string and converts every other element recursively. *)

(** The error of a failed [OrdinaryToPrimitive], with V8's message. *)
Definition cannot_convert : exn :=
  TypeError (lit "Cannot convert object to primitive value").

Fixpoint to_String (v : json) : outcome jstring :=
  match v with
  | JNull => Returns (lit "null")
  | JBool true => Returns (lit "true")
  | JBool false => Returns (lit "false")
  | JNum n => Returns (number_to_string n)
  | JStr s => Returns s
  | JArr items =>
      parts <- mapM (fun e => match e with
                              | JNull => Returns []
                              | _ => to_String e
                              end) items ;;
      Returns (join (lit ",") parts)
  | JObj props =>
      match own props (lit "toString") with
      | Some _ => Throws cannot_convert
      | None => Returns (lit "[object Object]")
      end
  end.

(** *** [JSON.stringify(v, null, 2)] *)

Definition hex_digit (n : N) : N :=
  if (n <? 10)%N then (48 + n)%N else (87 + n)%N.

(** [UnicodeEscape]: a backslash, [u] and four lowercase hex digits. *)
Definition unicode_escape (c : N) : jstring :=
  [92; 117;
   hex_digit (N.modulo (N.div c 4096) 16); hex_digit (N.modulo (N.div c 256) 16);
   hex_digit (N.modulo (N.div c 16) 16); hex_digit (N.modulo c 16)]%N.

Definition is_lead_surrogate (c : N) : bool := ((55296 <=? c) && (c <=? 56319))%N.
Definition is_trail_surrogate (c : N) : bool := ((56320 <=? c) && (c <=? 57343))%N.

(** Body of [QuoteJSONString]: the two-character escapes, [UnicodeEscape]
    for the other control characters and for unpaired surrogates, every
    other code point as it is. *)
Fixpoint quote_body (s : jstring) : jstring :=
  match s with
  | [] => []
  | c :: rest =>
      if (c =? 8)%N then [92; 98]%N ++ quote_body rest
      else if (c =? 9)%N then [92; 116]%N ++ quote_body rest
      else if (c =? 10)%N then [92; 110]%N ++ quote_body rest
      else if (c =? 12)%N then [92; 102]%N ++ quote_body rest
      else if (c =? 13)%N then [92; 114]%N ++ quote_body rest
      else if (c =? 34)%N then [92; 34]%N ++ quote_body rest
      else if (c =? 92)%N then [92; 92]%N ++ quote_body rest
      else if (c <? 32)%N then unicode_escape c ++ quote_body rest
      else if is_lead_surrogate c then
        match rest with
        | d :: rest' =>
            if is_trail_surrogate d then c :: d :: quote_body rest'
            else unicode_escape c ++ quote_body rest
        | [] => unicode_escape c
        end
      else if is_trail_surrogate c then unicode_escape c ++ quote_body rest
      else c :: quote_body rest
  end.

Definition quote (s : jstring) : jstring := [34%N] ++ quote_body s ++ [34%N].

Definition gap : jstring := lit "  ".
Definition newline : jstring := [10%N].

(** [SerializeJSONProperty] with a two-space gap; [indent] is the current
    indentation. A parsed value has no callable [toJSON], so none is
    consulted. *)
Fixpoint stringify (indent : jstring) (v : json) : jstring :=
  match v with
  | JNull => lit "null"
  | JBool true => lit "true"
  | JBool false => lit "false"
  | JNum n => number_to_string n
  | JStr s => quote s
  | JArr [] => lit "[]"
  | JArr items =>
      let inner := indent ++ gap in
      lit "[" ++ newline ++ inner
      ++ join (lit "," ++ newline ++ inner) (List.map (stringify inner) items)
      ++ newline ++ indent ++ lit "]"
  | JObj [] => lit "{}"
  | JObj props =>
      let inner := indent ++ gap in
      lit "{" ++ newline ++ inner
      ++ join (lit "," ++ newline ++ inner)
           (List.map (fun kv => let '(k, x) := kv in
                                quote k ++ lit ": " ++ stringify inner x) props)
      ++ newline ++ indent ++ lit "}"
  end.

Definition JSON_stringify_2 (v : json) : jstring := stringify [] v.

(** *** [Array.prototype.sort(comparefn)]

    The sort is stable: elements that compare equal keep their relative
    order. For a consistent comparator the result is the stable insertion
    sort. *)
Section Sort.
Variable A : Type.
Variable comparefn : A -> A -> Z.

Fixpoint sort_insert (x : A) (l : list A) : list A :=
  match l with
  | [] => [x]
  | y :: l' =>
      if comparefn x y <=? 0 then x :: y :: l' else y :: sort_insert x l'
  end.

Fixpoint sort (l : list A) : list A :=
  match l with
  | [] => []
  | x :: l' => sort_insert x (sort l')
  end.
End Sort.
Arguments sort_insert {A} comparefn x l.
Arguments sort {A} comparefn l.

(** *** [Map] keyed by strings

    Entries are kept in insertion order; [set] on a present key replaces the
    value and keeps the entry where it is. *)
Section StringMap.
Variable V : Type.

Fixpoint map_set (m : list (jstring * V)) (k : jstring) (v : V)
  : list (jstring * V) :=
  match m with
  | [] => [(k, v)]
  | (k', v') :: m' =>
      if str_eqb k' k then (k', v) :: m' else (k', v') :: map_set m' k v
  end.

Definition map_values (m : list (jstring * V)) : list V := List.map snd m.
End StringMap.
Arguments map_set {V} m k v.
Arguments map_values {V} m.

End JS.

(* ------------------------------------------------------------------ *)
(** ** The application ([src/App.tsx])                                 *)
(* ------------------------------------------------------------------ *)

Module App.
Import JS.

Inductive Plan : Type := free | pro.

Inductive PresetId : Type :=
| business | education | viralContent | youtubeFaceless | productAds
| quickFixPlan | nonprofit | aiTopics | digitalProduct.

Module HistoryItem.
Record t : Type := Build {
  id : jstring;
  createdAt : Z;
  preset : option PresetId;
  input : jstring;
  output : jstring;
  followUps : list jstring;
  saved : bool
}.
End HistoryItem.

Definition FREE_DAILY_LIMIT : Z := 3.
Definition FREE_HISTORY_LIMIT : nat := 10.

(** *** The calendar day *)

(** What [new Date()] reports in local time: [getFullYear()], [getMonth()]
    (0 to 11) and [getDate()]. *)
Record LocalDate : Type := {
  getFullYear : Z;
  getMonth : Z;
  getDate : Z
}.

(** [s.padStart(2, "0")]. *)
Definition padStart2 (s : jstring) : jstring :=
  List.repeat 48%N (2 - List.length s) ++ s.

Definition todayKey (d : LocalDate) : jstring :=
  let yyyy := number_to_string (getFullYear d) in
  let mm := padStart2 (number_to_string (getMonth d + 1)) in
  let dd := padStart2 (number_to_string (getDate d)) in
  yyyy ++ lit "-" ++ mm ++ lit "-" ++ dd.

(** *** Local storage *)

(** What a key of [localStorage] holds, seen through [getItem] followed by
    [JSON.parse]: nothing ([getItem] answers [null], or the empty string),
    text that [JSON.parse] rejects, or a parsed value. *)
Inductive persisted : Type :=
| Missing
| Malformed
| Value (parsed : json).

Record Storage : Type := {
  pap_usage : persisted;
  pap_history : persisted
}.

(** [today] is what [todayKey()] answers. The early [return 0] on a falsy
    [raw] is the case [Missing], the [catch] the case [Malformed]. *)
Definition readUsage (stored : persisted) (today : jstring) : Z :=
  match stored with
  | Missing => 0
  | Malformed => 0
  | Value parsed =>
      let date := prop parsed (lit "date") in
      match prop parsed (lit "count") with
      | Some (JNum count) =>
          if negb (truthy_opt date) then 0
          else if negb (is_string date today) then 0
          else Z.max 0 count
      | _ => 0
      end
  end.

(** [parsed.filter(Boolean)]: the elements that pass are kept as they are,
    cast to [HistoryItem] without a check. *)
Definition readHistory (stored : persisted) : list json :=
  match stored with
  | Missing => []
  | Malformed => []
  | Value (JArr parsed) => List.filter truthy parsed
  | Value _ => []
  end.

Definition presetName (p : PresetId) : jstring :=
  match p with
  | business => lit "business"
  | education => lit "education"
  | viralContent => lit "viralContent"
  | youtubeFaceless => lit "youtubeFaceless"
  | productAds => lit "productAds"
  | quickFixPlan => lit "quickFixPlan"
  | nonprofit => lit "nonprofit"
  | aiTopics => lit "aiTopics"
  | digitalProduct => lit "digitalProduct"
  end.

(** A history entry as [JSON.stringify] writes it. *)
Definition itemJson (h : HistoryItem.t) : json :=
  JObj [ (lit "id", JStr (HistoryItem.id h));
         (lit "createdAt", JNum (HistoryItem.createdAt h));
         (lit "preset", match HistoryItem.preset h with
                        | Some p => JStr (presetName p)
                        | None => JNull
                        end);
         (lit "input", JStr (HistoryItem.input h));
         (lit "output", JStr (HistoryItem.output h));
         (lit "followUps", JArr (List.map JStr (HistoryItem.followUps h)));
         (lit "saved", JBool (HistoryItem.saved h)) ].

Definition usageJson (today : jstring) (count : Z) : json :=
  JObj [ (lit "date", JStr today); (lit "count", JNum count) ].

(** *** The response normalizer *)

(** The local [pick]: the first key whose value is a string with a
    non-empty trim, trimmed; the empty string when there is none. *)
Fixpoint pick (data : json) (keys : list jstring) : jstring :=
  match keys with
  | [] => []
  | k :: keys' =>
      match prop data k with
      | Some (JStr v) => if nonempty (trim v) then trim v else pick data keys'
      | _ => pick data keys'
      end
  end.

(** One of the three list-or-scalar sections: nothing when the value is
    falsy, else the header followed by a bullet per element of an array, or
    by the value as a string. *)
Definition section (header : jstring) (v : option json)
  : outcome (list jstring) :=
  match v with
  | None => Returns []
  | Some x =>
      if negb (truthy x) then Returns []
      else
        match x with
        | JArr items =>
            bullets <- mapM (fun c => s <- to_String c ;;
                                      Returns (lit "- " ++ s)) items ;;
            Returns (header :: bullets)
        | _ => s <- to_String x ;; Returns [header; s]
        end
  end.

(** The part of [toCopyReadyPrompt] after the flat [prompt] test. *)
Definition structuredPrompt (data : json) : outcome jstring :=
  let role := pick data [lit "AI Role"; lit "role"; lit "ai_role"] in
  let context := pick data [lit "Context"; lit "context"] in
  let task := pick data [lit "Task"; lit "task"] in
  let constraints :=
    nullish_or (prop data (lit "Constraints"))
               (prop data (lit "constraints")) in
  let outputFormat :=
    nullish_or (nullish_or (prop data (lit "Output Format"))
                           (prop data (lit "output_format")))
               (prop data (lit "outputFormat")) in
  let followUps :=
    nullish_or (nullish_or (prop data (lit "Follow-up Questions"))
                           (prop data (lit "follow_up_questions")))
               (prop data (lit "followUps")) in
  let lines0 :=
    (if nonempty role then [lit "AI Role:" ++ newline ++ role] else [])
    ++ (if nonempty context
        then [newline ++ lit "Context:" ++ newline ++ context] else [])
    ++ (if nonempty task
        then [newline ++ lit "Task:" ++ newline ++ task] else []) in
  lines1 <- section (newline ++ lit "Constraints:") constraints ;;
  lines2 <- section (newline ++ lit "Output Format:") outputFormat ;;
  lines3 <- section (newline ++ lit "Follow-up Questions (max 2):")
                    followUps ;;
  let text := trim (join newline (lines0 ++ lines1 ++ lines2 ++ lines3)) in
  Returns (if nonempty text then text else JSON_stringify_2 data).

Definition toCopyReadyPrompt (data : json) : outcome jstring :=
  if negb (truthy data) then Returns (lit "No prompt generated.")
  else
    match prop data (lit "prompt") with
    | Some (JStr p) =>
        if nonempty (trim p) then Returns (trim p) else structuredPrompt data
    | _ => structuredPrompt data
    end.

(** *** Component state *)

Module State.
Record t : Type := Build {
  plan : Plan;
  dailyCount : Z;
  idea : jstring;
  preset : option PresetId;
  result : option json;
  loading : bool;
  error : json;
  showUpgrade : bool;
  history : list HistoryItem.t;
  activeHistoryId : option jstring
}.
End State.

(** Effects a handler performs on the outside world. *)
Inductive Effect : Type :=
| Fetch (url : jstring) (body : json)
| SetItem (key : jstring) (value : json).

(** The component state of the last render, the storage and the effects
    performed so far (most recent first). *)
Record World : Type := {
  ui : State.t;
  storage : Storage;
  effects : list Effect
}.

(** What [fetch] followed by [res.json()] gives: a rejected promise, or a
    response with its status and its body, [None] when the body does not
    parse. *)
Inductive Reply : Type :=
| Rejected (message : option json)
| Response (status : Z) (body : option json).

(** What the environment answers during one handler call. *)
Record Env : Type := {
  clock : LocalDate;
  now : Z;
  uid : jstring;
  fetch : json -> Reply;
  setItem_succeeds : bool
}.

Definition initialState : State.t :=
  State.Build free 0 [] None None false (JStr []) false [] None.

(** **** Setters *)

Definition setPlan (v : Plan) (w : World) : World :=
  let s := ui w in
  {| ui := State.Build v (State.dailyCount s) (State.idea s) (State.preset s)
             (State.result s) (State.loading s) (State.error s)
             (State.showUpgrade s) (State.history s) (State.activeHistoryId s);
     storage := storage w; effects := effects w |}.

Definition setDailyCount (v : Z) (w : World) : World :=
  let s := ui w in
  {| ui := State.Build (State.plan s) v (State.idea s) (State.preset s)
             (State.result s) (State.loading s) (State.error s)
             (State.showUpgrade s) (State.history s) (State.activeHistoryId s);
     storage := storage w; effects := effects w |}.

Definition setResult (v : option json) (w : World) : World :=
  let s := ui w in
  {| ui := State.Build (State.plan s) (State.dailyCount s) (State.idea s)
             (State.preset s) v (State.loading s) (State.error s)
             (State.showUpgrade s) (State.history s) (State.activeHistoryId s);
     storage := storage w; effects := effects w |}.

Definition setLoading (v : bool) (w : World) : World :=
  let s := ui w in
  {| ui := State.Build (State.plan s) (State.dailyCount s) (State.idea s)
             (State.preset s) (State.result s) v (State.error s)
             (State.showUpgrade s) (State.history s) (State.activeHistoryId s);
     storage := storage w; effects := effects w |}.

Definition setError (v : json) (w : World) : World :=
  let s := ui w in
  {| ui := State.Build (State.plan s) (State.dailyCount s) (State.idea s)
             (State.preset s) (State.result s) (State.loading s) v
             (State.showUpgrade s) (State.history s) (State.activeHistoryId s);
     storage := storage w; effects := effects w |}.

Definition setShowUpgrade (v : bool) (w : World) : World :=
  let s := ui w in
  {| ui := State.Build (State.plan s) (State.dailyCount s) (State.idea s)
             (State.preset s) (State.result s) (State.loading s)
             (State.error s) v (State.history s) (State.activeHistoryId s);
     storage := storage w; effects := effects w |}.

Definition setHistory (v : list HistoryItem.t) (w : World) : World :=
  let s := ui w in
  {| ui := State.Build (State.plan s) (State.dailyCount s) (State.idea s)
             (State.preset s) (State.result s) (State.loading s)
             (State.error s) (State.showUpgrade s) v (State.activeHistoryId s);
     storage := storage w; effects := effects w |}.

Definition setActiveHistoryId (v : option jstring) (w : World) : World :=
  let s := ui w in
  {| ui := State.Build (State.plan s) (State.dailyCount s) (State.idea s)
             (State.preset s) (State.result s) (State.loading s)
             (State.error s) (State.showUpgrade s) (State.history s) v;
     storage := storage w; effects := effects w |}.

(** **** Storage writes

    [localStorage.setItem] inside [try]/[catch]: the attempt is an effect
    whether or not the store accepts it; a failure is ignored. *)

Definition writeUsage (env : Env) (count : Z) (w : World) : World :=
  let value := usageJson (todayKey (clock env)) count in
  {| ui := ui w;
     storage := if setItem_succeeds env
                then {| pap_usage := Value value;
                        pap_history := pap_history (storage w) |}
                else storage w;
     effects := SetItem (lit "pap_usage") value :: effects w |}.

Definition writeHistory (env : Env) (items : list HistoryItem.t) (w : World)
  : World :=
  let value := JArr (List.map itemJson items) in
  {| ui := ui w;
     storage := if setItem_succeeds env
                then {| pap_usage := pap_usage (storage w);
                        pap_history := Value value |}
                else storage w;
     effects := SetItem (lit "pap_history") value :: effects w |}.

(** **** Usage meter *)

(** A number or [Infinity]. *)
Inductive Remaining : Type :=
| Infinity
| Finite (n : Z).

Definition remaining (plan : Plan) (dailyCount : Z) : Remaining :=
  match plan with
  | pro => Infinity
  | free => Finite (Z.max 0 (FREE_DAILY_LIMIT - dailyCount))
  end.

Definition canGenerate (plan : Plan) (dailyCount : Z) : bool :=
  match plan with
  | pro => true
  | free => dailyCount <? FREE_DAILY_LIMIT
  end.

(** The handlers below are closures of one render: [c] is the state they
    captured, [w] the world they act on. *)

Definition bumpUsage (env : Env) (c : State.t) (w : World) : World :=
  match State.plan c with
  | pro => w
  | free =>
      let next := State.dailyCount c + 1 in
      writeUsage env next (setDailyCount next w)
  end.

Definition followUpsFromResult (r : json) : list jstring :=
  let v :=
    nullish_or (nullish_or (prop r (lit "follow_up_questions"))
                           (prop r (lit "Follow-up Questions")))
               (prop r (lit "followUps")) in
  match v with
  | Some (JArr items) =>
      List.flat_map (fun q => match q with JStr s => [s] | _ => [] end) items
  | _ => []
  end.

(** **** History store *)

(** [(a, b) => b.createdAt - a.createdAt]. *)
Definition newestFirst (a b : HistoryItem.t) : Z :=
  HistoryItem.createdAt b - HistoryItem.createdAt a.

Definition enforceHistoryLimit (plan : Plan) (items : list HistoryItem.t)
  : list HistoryItem.t :=
  match plan with
  | pro => items
  | free =>
      let saved := List.filter (fun x => HistoryItem.saved x) items in
      let nonSaved := List.filter (fun x => negb (HistoryItem.saved x)) items in
      let trimmedNonSaved := List.firstn FREE_HISTORY_LIMIT nonSaved in
      let merged := saved ++ trimmedNonSaved in
      let byId :=
        List.fold_left (fun m item => map_set m (HistoryItem.id item) item)
                       merged [] in
      sort newestFirst (map_values byId)
  end.

Definition saveToHistory (env : Env) (c : State.t)
    (input output : jstring) (fups : list jstring) (w : World) : World :=
  let item :=
    HistoryItem.Build (uid env) (now env) (State.preset c)
                      input output fups false in
  let next :=
    enforceHistoryLimit (State.plan c)
      (sort newestFirst (item :: State.history c)) in
  setActiveHistoryId (Some (HistoryItem.id item))
    (writeHistory env next (setHistory next w)).

Definition flipSaved (id : jstring) (h : HistoryItem.t) : HistoryItem.t :=
  if str_eqb (HistoryItem.id h) id
  then HistoryItem.Build (HistoryItem.id h) (HistoryItem.createdAt h)
         (HistoryItem.preset h) (HistoryItem.input h) (HistoryItem.output h)
         (HistoryItem.followUps h) (negb (HistoryItem.saved h))
  else h.

Definition toggleSaved (env : Env) (id : jstring) (w : World) : World :=
  let c := ui w in
  let next := List.map (flipSaved id) (State.history c) in
  let enforced :=
    enforceHistoryLimit (State.plan c) (sort newestFirst next) in
  writeHistory env enforced (setHistory enforced w).

Definition same_id (a : option jstring) (id : jstring) : bool :=
  match a with
  | Some x => str_eqb x id
  | None => false
  end.

Definition deleteHistoryItem (env : Env) (id : jstring) (w : World) : World :=
  let c := ui w in
  let next :=
    List.filter (fun h => negb (str_eqb (HistoryItem.id h) id))
                (State.history c) in
  let w := writeHistory env next (setHistory next w) in
  if same_id (State.activeHistoryId c) id
  then setActiveHistoryId None w else w.

Definition clearAllHistory (env : Env) (w : World) : World :=
  let c := ui w in
  let keepSaved := List.filter (fun h => HistoryItem.saved h) (State.history c) in
  let enforced :=
    enforceHistoryLimit (State.plan c) (sort newestFirst keepSaved) in
  setActiveHistoryId None (writeHistory env enforced (setHistory enforced w)).

(** The click handler of the plan button. The history updater closes over
    [enforceHistoryLimit] of the render that drew the button, hence over
    the plan of that render. *)
Definition togglePlan (env : Env) (w : World) : World :=
  let c := ui w in
  let w := setPlan (match State.plan c with free => pro | pro => free end) w in
  let w := setShowUpgrade false w in
  let w := setError (JStr []) w in
  let enforced := enforceHistoryLimit (State.plan c) (State.history (ui w)) in
  setHistory enforced (writeHistory env enforced w).

(** **** The mount effect

    [setDailyCount(readUsage()); setHistory(readHistory())]. The elements
    [readHistory] returns are cast to [HistoryItem] unchecked; the step is
    defined where they are entries as [writeHistory] stores them. On any
    other stored array the effect still runs and stores the elements as
    read: that case is [Ui.mountedHistory] and [Ui.renderHistoryRows]. *)
Inductive mounts (env : Env) (w : World) : World -> Prop :=
| mounts_intro : forall items,
    readHistory (pap_history (storage w)) = List.map itemJson items ->
    mounts env w
      (setHistory items
         (setDailyCount
            (readUsage (pap_usage (storage w)) (todayKey (clock env))) w)).

(** **** Generation *)

(** [res.ok]. *)
Definition ok (status : Z) : bool := (200 <=? status) && (status <=? 299).

Fixpoint indexed (i : Z) (items : list json) : list (jstring * json) :=
  match items with
  | [] => []
  | x :: rest => (number_to_string i, x) :: indexed (i + 1) rest
  end.

(** Own enumerable properties copied by [{ ...v }]. *)
Definition spread (v : json) : list (jstring * json) :=
  match v with
  | JObj props => props
  | JArr items => indexed 0 items
  | JStr s => indexed 0 (List.map (fun c => JStr [c]) s)
  | JNull | JBool _ | JNum _ => []
  end.

Definition perform (e : Effect) (w : World) : World :=
  {| ui := ui w; storage := storage w; effects := e :: effects w |}.

Definition exn_message (e : exn) : option json :=
  match e with TypeError message => Some (JStr message) end.

Definition handleArchitect (env : Env) (w : World) : World :=
  let c := ui w in
  let w := setResult None (setError (JStr []) w) in
  let trimmed := trim (State.idea c) in
  if negb (nonempty trimmed) then
    setError (JStr (lit "Type something first.")) w
  else if negb (canGenerate (State.plan c) (State.dailyCount c)) then
    setError
      (JStr (lit "Daily limit reached. Free plan allows "
             ++ number_to_string FREE_DAILY_LIMIT
             ++ lit " prompts/day. Upgrade for unlimited."))
      (setShowUpgrade true w)
  else
    let w := setLoading true w in
    let request := JObj [(lit "userInput", JStr trimmed)] in
    let w := perform (Fetch (lit "/api/transformPrompt") request) w in
    let w :=
      match fetch env request with
      | Rejected message =>
          setError (or_else message (JStr (lit "Something went wrong."))) w
      | Response status body =>
          let data := match body with Some j => j | None => JNull end in
          if negb (ok status) then
            setError
              (or_else (prop data (lit "error"))
                 (JStr (lit "Request failed (" ++ number_to_string status
                        ++ lit ")"))) w
          else
            let w := bumpUsage env c w in
            match toCopyReadyPrompt data with
            | Throws e =>
                setError
                  (or_else (exn_message e)
                     (JStr (lit "Something went wrong."))) w
            | Returns promptText =>
                let fups := followUpsFromResult data in
                (* the object literal: a later key overwrites in place *)
                let shown :=
                  map_set
                    (map_set (if truthy data then spread data else [])
                             (lit "prompt") (JStr promptText))
                    (lit "follow_up_questions") (JArr (List.map JStr fups)) in
                saveToHistory env c trimmed promptText fups
                  (setResult (Some (JObj shown)) w)
            end
      end in
    setLoading false w.

End App.

(* ------------------------------------------------------------------ *)
(** ** Sample inputs                                                   *)
(* ------------------------------------------------------------------ *)

Module Samples.
Import JS App.

(** [{}] *)
Definition emptyObject : json := JObj [].

(** [{prompt: "x"}] *)
Definition flatPayload : json := JObj [(lit "prompt", JStr (lit "x"))].

(** [{"AI Role": "r", task: "t"}] *)
Definition rolePayload : json :=
  JObj [(lit "AI Role", JStr (lit "r")); (lit "task", JStr (lit "t"))].

(** [[1, 2, 3]] *)
Definition numbersPayload : json := JArr [JNum 1; JNum 2; JNum 3].

(** [{constraints: {toString: 1}}] *)
Definition shadowingPayload : json :=
  JObj [(lit "constraints", JObj [(lit "toString", JNum 1)])].

(** [{role: "r", task: "t", followUpQuestions: ["Q1?"]}], the shape the
    handler in [api/transformPrompt.ts] asks the model for. *)
Definition multiFieldPayload : json :=
  JObj [(lit "role", JStr (lit "r")); (lit "task", JStr (lit "t"));
        (lit "followUpQuestions", JArr [JStr (lit "Q1?")])].

(** [{prompt: "  Role: X  ", role: "r", constraints: {toString: 1}}] *)
Definition bothShapesPayload : json :=
  JObj [(lit "prompt", JStr (lit "  Role: X  "));
        (lit "role", JStr (lit "r"));
        (lit "constraints", JObj [(lit "toString", JNum 1)])].

(** [{error: "quota exceeded"}] *)
Definition quotaError : json :=
  JObj [(lit "error", JStr (lit "quota exceeded"))].

Definition jan1 : LocalDate :=
  {| getFullYear := 2024; getMonth := 0; getDate := 1 |}.
Definition jan2 : LocalDate :=
  {| getFullYear := 2024; getMonth := 0; getDate := 2 |}.

(** [{date: "2024-01-01", count: 3}] *)
Definition usageJan1 : json := usageJson (todayKey jan1) 3.

Definition entry (n : Z) : HistoryItem.t :=
  HistoryItem.Build (lit "e" ++ number_to_string n) (1000 + n) None
                    (lit "in") (lit "out") [] false.

(** Fifteen unsaved entries [e15 ... e1], newest first. *)
Definition fifteen : list HistoryItem.t :=
  List.map entry [15; 14; 13; 12; 11; 10; 9; 8; 7; 6; 5; 4; 3; 2; 1].

(** The entry [saveToHistory] builds under [envWith]. *)
Definition appended : HistoryItem.t :=
  HistoryItem.Build (lit "2000_abc") 2000 None (lit "in") (lit "out") [] false.

Definition stateWith (p : Plan) (count : Z) (text : jstring)
    (h : list HistoryItem.t) : State.t :=
  State.Build p count text None None false (JStr []) false h None.

Definition worldWith (p : Plan) (count : Z) (text : jstring)
    (h : list HistoryItem.t) : World :=
  {| ui := stateWith p count text h;
     storage := {| pap_usage := Missing; pap_history := Missing |};
     effects := [] |}.

Definition envWith (d : LocalDate) (reply : Reply) : Env :=
  {| clock := d; now := 2000; uid := lit "2000_abc";
     fetch := fun _ => reply; setItem_succeeds := true |}.

End Samples.

(* ------------------------------------------------------------------ *)
(** ** Vocabulary of the statements                                    *)
(* ------------------------------------------------------------------ *)

Import JS App.

(** Induction on [json] that reaches the elements of arrays and the values
    of object properties. *)
Section JsonInduction.
Variable P : json -> Prop.
Hypothesis HNull : P JNull.
Hypothesis HBool : forall b, P (JBool b).
Hypothesis HNum : forall n, P (JNum n).
Hypothesis HStr : forall s, P (JStr s).
Hypothesis HArr : forall items, Forall P items -> P (JArr items).
Hypothesis HObj :
  forall props, Forall (fun kv => P (snd kv)) props -> P (JObj props).

Fixpoint json_nested_ind (v : json) : P v :=
  match v with
  | JNull => HNull
  | JBool b => HBool b
  | JNum n => HNum n
  | JStr s => HStr s
  | JArr items =>
      HArr items ((fix each (l : list json) : Forall P l :=
               match l with
               | [] => Forall_nil _
               | x :: l' => Forall_cons _ (json_nested_ind x) (each l')
               end) items)
  | JObj props =>
      HObj props ((fix each (l : list (jstring * json))
               : Forall (fun kv => P (snd kv)) l :=
               match l with
               | [] => Forall_nil _
               | kv :: l' =>
                   Forall_cons _ (json_nested_ind (snd kv)) (each l')
               end) props)
  end.
End JsonInduction.

(** No object inside [v] has an own property named [toString]. *)
Fixpoint plain (v : json) : bool :=
  match v with
  | JArr items => forallb plain items
  | JObj props =>
      match own props (lit "toString") with
      | Some _ => false
      | None => forallb (fun kv => let '(_, x) := kv in plain x) props
      end
  | _ => true
  end.

(** The message of the quota gate, [FREE_DAILY_LIMIT] filled in. *)
Definition limitMessage : jstring :=
  lit "Daily limit reached. Free plan allows 3 prompts/day. Upgrade for unlimited.".

(** The two halves of the retention partition, and the ids of a list. *)
Definition savedOf (l : list HistoryItem.t) : list HistoryItem.t :=
  filter (fun x => HistoryItem.saved x) l.

Definition nonSavedOf (l : list HistoryItem.t) : list HistoryItem.t :=
  filter (fun x => negb (HistoryItem.saved x)) l.

Definition ids (l : list HistoryItem.t) : list jstring :=
  List.map HistoryItem.id l.

(** [a] is at least as recent as [b]. *)
Definition notOlder (a b : HistoryItem.t) : Prop :=
  HistoryItem.createdAt b <= HistoryItem.createdAt a.

Definition newestFirstOrder (l : list HistoryItem.t) : Prop :=
  StronglySorted notOlder l.

(** An entry as [byId] holds it. *)
Definition keyed (x : HistoryItem.t) : jstring * HistoryItem.t :=
  (HistoryItem.id x, x).

(** [after] keeps exactly ten unsaved entries, the ten most recent unsaved
    entries of [before]: they are the first ten of [before]'s unsaved
    entries ordered newest first, and none is older than an unsaved entry
    that was dropped. *)
Definition keepsTenNewest (before after : list HistoryItem.t) : Prop :=
  List.length (nonSavedOf after) = 10%nat
  /\ nonSavedOf after = firstn 10 (sort newestFirst (nonSavedOf before))
  /\ incl (nonSavedOf after) (nonSavedOf before)
  /\ forall x y, In x (nonSavedOf after) -> In y (nonSavedOf before) ->
                 ~ In y (nonSavedOf after) -> notOlder x y.

(** What every history operation leaves behind: distinct ids, newest
    first. *)
Definition wellKept (l : list HistoryItem.t) : Prop :=
  NoDup (ids l) /\ newestFirstOrder l.

(** Pairwise different strings, as a test. *)
Fixpoint distinct (l : list jstring) : bool :=
  match l with
  | [] => true
  | x :: l' => negb (existsb (str_eqb x) l') && distinct l'
  end.

(* ------------------------------------------------------------------ *)
(** ** The other handlers and views of [src/App.tsx]                   *)
(* ------------------------------------------------------------------ *)

Module Ui.
Import JS App.

Module Preset.
Record t : Type := Build {
  id : PresetId;
  label : jstring;
  text : jstring;
  proOnly : option bool
}.
End Preset.

(** The table built by [useMemo], in its order. *)
Definition presets : list Preset.t :=
  [
  {| Preset.id := viralContent;
     Preset.label := lit "Viral Content";
     Preset.text :=
       lit "Generate 10 viral short-form content ideas for my niche. F"
       ++ lit "or each: hook (first 2 seconds), script outline, captions,"
       ++ lit " CTA, filming notes, posting time, and why it will perform"
       ++ lit ".";
     Preset.proOnly := None |};
  {| Preset.id := youtubeFaceless;
     Preset.label := lit "YouTube Faceless";
     Preset.text :=
       lit "Create a faceless YouTube video plan: 10 title ideas, 10 t"
       ++ lit "humbnail text ideas, 8"
       ++ [8211%N]
       ++ lit "12 minute script structure, voiceover style, B-roll/stock "
       ++ lit "footage plan, on-screen text, and SEO tags/description.";
     Preset.proOnly := None |};
  {| Preset.id := productAds;
     Preset.label := lit "Product Ads";
     Preset.text :=
       lit "Write high-converting product ads for TikTok/IG/FB. Provid"
       ++ lit "e: 5 hooks, 3 ad angles, 2 short scripts (15"
       ++ [8211%N]
       ++ lit "30s), 1 long script (45"
       ++ [8211%N]
       ++ lit "60s), headline options, CTAs, objections + rebuttals, and "
       ++ lit "a simple testing plan.";
     Preset.proOnly := None |};
  {| Preset.id := quickFixPlan;
     Preset.label := lit "Quick Fix Plan";
     Preset.text :=
       lit "Turn my situation into a clear, step-by-step action plan t"
       ++ lit "hat actually works. Include: what"
       ++ [8217%N]
       ++ lit "s causing the issue, the fastest fixes, the best long-term"
       ++ lit " fix, exact steps (day 1 to day 7), tools/templates, what "
       ++ lit "to avoid, and a checklist I can follow.";
     Preset.proOnly := None |};
  {| Preset.id := business;
     Preset.label := lit "Business Strategy";
     Preset.text :=
       lit "Create a clear, structured business strategy with actionab"
       ++ lit "le steps. Include: positioning, offers, pricing, content/m"
       ++ lit "arketing channels, weekly execution plan, KPIs, risks, and"
       ++ lit " a 30-day rollout plan.";
     Preset.proOnly := None |};
  {| Preset.id := nonprofit;
     Preset.label := lit "Nonprofit Growth";
     Preset.text :=
       lit "Build a nonprofit growth plan. Include: mission clarity, t"
       ++ lit "arget beneficiaries, programs, fundraising ideas, donor pi"
       ++ lit "tch, sponsorship deck outline, grant-ready summary, social"
       ++ lit " media plan, volunteer roles, governance basics, impact me"
       ++ lit "trics, and a 90-day execution roadmap.";
     Preset.proOnly := None |};
  {| Preset.id := education;
     Preset.label := lit "Education / Curriculum";
     Preset.text :=
       lit "Design an age-appropriate educational curriculum with lear"
       ++ lit "ning objectives, lesson breakdowns, activities, assessment"
       ++ lit "s, differentiation, and resources needed. Include a weekly"
       ++ lit " plan and measurable outcomes.";
     Preset.proOnly := None |};
  {| Preset.id := aiTopics;
     Preset.label := lit "AI Topic Generator";
     Preset.text :=
       lit "Generate trending and evergreen AI-related topics explaine"
       ++ lit "d simply. Include: who it"
       ++ [8217%N]
       ++ lit "s for, why it matters, examples, and content angles for sh"
       ++ lit "ort-form + long-form. Give 10 topics with hooks.";
     Preset.proOnly := None |};
  {| Preset.id := digitalProduct;
     Preset.label := lit "Digital Product";
     Preset.text :=
       lit "Design a profitable digital product including the target a"
       ++ lit "udience, problem solved, product format, pricing strategy,"
       ++ lit " content outline, funnel, and launch plan. Include a simpl"
       ++ lit "e sales page structure and 10 marketing angles.";
     Preset.proOnly := Some true |}
  ].

(** [!!p.proOnly]: an absent flag is falsy. *)
Definition isProOnly (p : Preset.t) : bool :=
  match Preset.proOnly p with
  | Some b => b
  | None => false
  end.

Definition isPro (p : Plan) : bool :=
  match p with pro => true | free => false end.

(** The [locked] flag the preset buttons are drawn with. *)
Definition locked (plan : Plan) (p : Preset.t) : bool :=
  isProOnly p && negb (isPro plan).

Definition setIdea (v : jstring) (w : World) : World :=
  let s := ui w in
  {| ui := State.Build (State.plan s) (State.dailyCount s) v (State.preset s)
             (State.result s) (State.loading s) (State.error s)
             (State.showUpgrade s) (State.history s) (State.activeHistoryId s);
     storage := storage w; effects := effects w |}.

Definition setPreset (v : option PresetId) (w : World) : World :=
  let s := ui w in
  {| ui := State.Build (State.plan s) (State.dailyCount s) (State.idea s) v
             (State.result s) (State.loading s) (State.error s)
             (State.showUpgrade s) (State.history s) (State.activeHistoryId s);
     storage := storage w; effects := effects w |}.

(** Moving the focus to the textarea is left out: it touches neither the
    state nor the storage. *)
Definition applyPreset (p : Preset.t) (w : World) : World :=
  let c := ui w in
  let w := setError (JStr []) w in
  if isProOnly p && negb (isPro (State.plan c)) then
    setError (JStr (lit "That preset is Pro-only. Upgrade to unlock it."))
             (setShowUpgrade true w)
  else
    setIdea (Preset.text p) (setPreset (Some (Preset.id p)) w).

Definition loadHistoryItem (item : HistoryItem.t) (w : World) : World :=
  let w := setIdea (HistoryItem.input item) w in
  let w := setPreset (HistoryItem.preset item) w in
  let w :=
    setResult
      (Some (JObj [ (lit "prompt", JStr (HistoryItem.output item));
                    (lit "follow_up_questions",
                     JArr (List.map JStr (HistoryItem.followUps item))) ]))
      w in
  let w := setActiveHistoryId (Some (HistoryItem.id item)) w in
  setError (JStr []) w.

(** The text appended after the question, and the separator put before it
    when the idea is not blank. *)
Definition followUpBlock (q : jstring) : jstring :=
  lit "Follow-up question:" ++ newline ++ q ++ newline ++ newline
  ++ lit "My answer:" ++ newline.

Definition handleFollowUpClick (q : jstring) (w : World) : World :=
  let prev := State.idea (ui w) in
  let base := trim prev in
  let block := newline ++ newline ++ lit "---" ++ newline ++ followUpBlock q in
  setIdea (if nonempty base then base ++ block else followUpBlock q) w.

(** The button next to "Generate output". *)
Definition clearForm (w : World) : World :=
  setActiveHistoryId None
    (setShowUpgrade false
       (setError (JStr [])
          (setResult None (setPreset None (setIdea [] w))))).

(** The "Clear" button of the history card. *)
Definition clearHistoryClick (env : Env) (w : World) : World :=
  let c := ui w in
  let w := if negb (isPro (State.plan c)) then setShowUpgrade true w else w in
  clearAllHistory env w.

(** The "Upgrade (Demo)" button of the banner. *)
Definition upgradeClick (w : World) : World := setPlan pro w.

(** [disabled] of the generate button. *)
Definition generateDisabled (s : State.t) : bool :=
  State.loading s
  || (negb (isPro (State.plan s))
      && match remaining (State.plan s) (State.dailyCount s) with
         | Finite n => n =? 0
         | Infinity => false
         end).

(** [result], [null] when there is none. *)
Definition resultValue (s : State.t) : json :=
  match State.result s with
  | Some r => r
  | None => JNull
  end.

(** [const followUps = followUpsFromResult(result)]. *)
Definition followUps (s : State.t) : list jstring :=
  followUpsFromResult (resultValue s).

(** What the output card hands to [PromptOutput], when the card is drawn
    at all: [result.prompt || "No output generated."]. *)
Definition shownOutput (s : State.t) : option json :=
  if truthy (resultValue s)
  then Some (or_else (prop (resultValue s) (lit "prompt"))
                     (JStr (lit "No output generated.")))
  else None.

(** **** The history list *)

Inductive Tab : Type := tabAll | tabSaved.

Fixpoint startsWith (s q : jstring) : bool :=
  match q, s with
  | [], _ => true
  | _ :: _, [] => false
  | c :: q', d :: s' => N.eqb c d && startsWith s' q'
  end.

(** [s.includes(q)]. *)
Fixpoint includes (s q : jstring) : bool :=
  startsWith s q
  || match s with
     | [] => false
     | _ :: s' => includes s' q
     end.

(** [toLowerCase] follows the Unicode case tables; the view is stated for
    whatever function implements it. *)
Section FilteredHistory.
Variable toLowerCase : jstring -> jstring.

Definition filteredHistory (history : list HistoryItem.t) (historyTab : Tab)
    (query : jstring) : list HistoryItem.t :=
  let base :=
    match historyTab with
    | tabSaved => List.filter (fun h => HistoryItem.saved h) history
    | tabAll => history
    end in
  let q := toLowerCase (trim query) in
  if negb (nonempty q) then base
  else
    List.filter
      (fun h =>
         let hay :=
           toLowerCase (HistoryItem.input h ++ newline ++ HistoryItem.output h) in
         includes hay q)
      base.
End FilteredHistory.

(** [exportData]: the entries, field by field. *)
Definition exportData (history : list HistoryItem.t) : list json :=
  List.map
    (fun h =>
       JObj [ (lit "id", JStr (HistoryItem.id h));
              (lit "createdAt", JNum (HistoryItem.createdAt h));
              (lit "preset", match HistoryItem.preset h with
                             | Some p => JStr (presetName p)
                             | None => JNull
                             end);
              (lit "saved", JBool (HistoryItem.saved h));
              (lit "input", JStr (HistoryItem.input h));
              (lit "output", JStr (HistoryItem.output h));
              (lit "followUps",
               JArr (List.map JStr (HistoryItem.followUps h))) ])
    history.

(** **** The history list, as mounted and rendered *)

(** What [setHistory(readHistory())] stores at mount: the elements as
    read, whatever they are. *)
Definition mountedHistory (s : Storage) : list json :=
  readHistory (pap_history s).

(** The errors of a property read on [undefined] and on [null], with V8's
    message. *)
Definition cannot_read_length_of_undefined : exn :=
  TypeError (lit "Cannot read properties of undefined (reading 'length')").

Definition cannot_read_length_of_null : exn :=
  TypeError (lit "Cannot read properties of null (reading 'length')").

(** [v.length]: the length of a string or an array, an object's own
    [length], [undefined] on a number or a boolean; a [TypeError] when [v]
    is [undefined] or [null]. *)
Definition lengthOf (v : option json) : outcome (option json) :=
  match v with
  | None => Throws cannot_read_length_of_undefined
  | Some JNull => Throws cannot_read_length_of_null
  | Some (JStr s) => Returns (Some (JNum (Z.of_nat (List.length s))))
  | Some (JArr items) => Returns (Some (JNum (Z.of_nat (List.length items))))
  | Some (JObj props) => Returns (own props (lit "length"))
  | Some (JBool _) | Some (JNum _) => Returns None
  end.

(** The test of a row's preview line, [h.input.length > 120], up to the
    length it reads. The expressions the row evaluates before it
    ([h.id], [h.preset], [new Date(h.createdAt)]) do not throw on a
    truthy [h]. *)
Definition rowInputLength (h : json) : outcome (option json) :=
  lengthOf (prop h (lit "input")).

(** [filteredHistory.map(...)] with no query: the rows are evaluated in
    order and the first throw aborts the render. *)
Definition renderHistoryRows (items : list json)
  : outcome (list (option json)) :=
  mapM rowInputLength items.

End Ui.

(* ------------------------------------------------------------------ *)
(** ** The server handler ([api/transformPrompt.ts])                   *)
(* ------------------------------------------------------------------ *)

Module Api.
Import JS App.

Record Request : Type := {
  method : jstring;
  body : option json
}.

(** What [ai.models.generateContent] gives: it throws, or it answers with
    [response.text], which may be [undefined]. *)
Inductive Generated : Type :=
| Threw (message : option json)
| Answered (text : option jstring).

(** What [JSON.parse(text)] gives. *)
Inductive Decoded : Type :=
| SyntaxError (message : jstring)
| Decoded_value (v : json).

(** The process environment and the two calls that leave the handler. The
    system instruction and the response schema are constants of every
    call and are not passed. *)
Record Server : Type := {
  GEMINI_API_KEY : option jstring;
  GEMINI_MODEL : option jstring;
  generateContent : jstring -> jstring -> Generated;
  JSON_parse : jstring -> Decoded
}.

(** [res.status(code).json(payload)]. *)
Record Sent : Type := {
  status : Z;
  payload : json
}.

Definition errorBody (message : json) : json :=
  JObj [(lit "error", message)].

Definition serverError (message : option json) : Sent :=
  {| status := 500;
     payload := errorBody (or_else message (JStr (lit "Server error"))) |}.

Definition handler (srv : Server) (req : Request) : Sent :=
  if negb (str_eqb (method req) (lit "POST")) then
    {| status := 405; payload := errorBody (JStr (lit "Use POST")) |}
  else
    let b := match body req with
             | Some j => if truthy j then j else JObj []
             | None => JObj []
             end in
    match prop b (lit "userInput") with
    | Some (JStr userInput) =>
        if negb (nonempty userInput) then
          {| status := 400;
             payload := errorBody (JStr (lit "Missing userInput")) |}
        else
          match GEMINI_API_KEY srv with
          | Some (_ :: _) =>
              let model :=
                match GEMINI_MODEL srv with
                | Some (c :: m) => c :: m
                | _ => lit "gemini-1.5-flash"
                end in
              match generateContent srv model userInput with
              | Threw message => serverError message
              | Answered (Some (c :: text)) =>
                  match JSON_parse srv (c :: text) with
                  | Decoded_value v => {| status := 200; payload := v |}
                  | SyntaxError message => serverError (Some (JStr message))
                  end
              | Answered _ =>
                  {| status := 500;
                     payload :=
                       errorBody (JStr (lit "No response text from Gemini")) |}
              end
          | _ =>
              {| status := 500;
                 payload :=
                   errorBody (JStr (lit "GEMINI_API_KEY not set on server")) |}
          end
    | _ =>
        {| status := 400;
           payload := errorBody (JStr (lit "Missing userInput")) |}
    end.

(** The exchange as the client sees it: the request it posts reaches the
    handler as the parsed body, the answer comes back with its status and
    its JSON body. *)
Definition serve (srv : Server) (request : json) : Reply :=
  let sent :=
    handler srv {| method := lit "POST"; body := Some request |} in
  Response (status sent) (Some (payload sent)).

End Api.

(* ------------------------------------------------------------------ *)
(** ** Further vocabulary and samples                                  *)
(* ------------------------------------------------------------------ *)

(** A date as [Date] reports it: month 0 to 11, day of the month 1 to 31. *)
Definition validDate (d : LocalDate) : Prop :=
  0 <= getMonth d <= 11 /\ 1 <= getDate d <= 31.

(** The stored history is the history of the state, as [writeHistory]
    writes it. *)
Definition inSync (w : World) : Prop :=
  pap_history (storage w)
  = Value (JArr (List.map itemJson (State.history (ui w)))).

(** The keys of [byId] are the ids of its values, all different. *)
Definition keyedById (m : list (jstring * HistoryItem.t)) : Prop :=
  List.map fst m = ids (map_values m) /\ NoDup (List.map fst m).

(** A string is tidy when it neither starts nor ends with white space. *)
Definition tidy (s : jstring) : Prop :=
  match s with
  | [] => True
  | c :: _ => is_whitespace c = false /\ is_whitespace (last s 0%N) = false
  end.

(** Two-digit rendering of the numbers below [n] is one-to-one and two
    characters long, as a test. *)
Definition twoDigitsOk (n : nat) : bool :=
  forallb
    (fun a =>
       Nat.eqb (List.length (padStart2 (number_to_string (Z.of_nat a)))) 2
       && forallb
            (fun b =>
               implb (str_eqb (padStart2 (number_to_string (Z.of_nat a)))
                              (padStart2 (number_to_string (Z.of_nat b))))
                     (Nat.eqb a b))
            (seq 0 n))
    (seq 0 n).

Module MoreSamples.
Import JS App.

(** An environment whose [fetch] reaches the server handler. *)
Definition envServed (d : LocalDate) (srv : Api.Server) : Env :=
  {| clock := d; now := 2000; uid := lit "2000_abc";
     fetch := Api.serve srv; setItem_succeeds := true |}.

(** A server with its key set whose model answers [v]. *)
Definition serverAnswering (v : json) : Api.Server :=
  {| Api.GEMINI_API_KEY := Some (lit "key");
     Api.GEMINI_MODEL := None;
     Api.generateContent := fun _ _ => Api.Answered (Some (lit "{}"));
     Api.JSON_parse := fun _ => Api.Decoded_value v |}.

(** A server without a key. *)
Definition serverWithoutKey : Api.Server :=
  {| Api.GEMINI_API_KEY := None;
     Api.GEMINI_MODEL := None;
     Api.generateContent := fun _ _ => Api.Answered None;
     Api.JSON_parse := fun _ => Api.SyntaxError (lit "Unexpected end") |}.

(** [{prompt: "Role: X\nTask: Y", follow_up_questions: ["Q1?", "Q2?"]}] *)
Definition flatAnswer : json :=
  JObj [ (lit "prompt",
          JStr (lit "Role: X" ++ newline ++ lit "Task: Y"));
         (lit "follow_up_questions",
          JArr [JStr (lit "Q1?"); JStr (lit "Q2?")]) ].

(** Lower-casing of the ASCII letters, a stand-in for [toLowerCase] on
    ASCII text. *)
Definition asciiLower (s : jstring) : jstring :=
  List.map (fun c => if ((65 <=? c) && (c <=? 90))%N then (c + 32)%N else c) s.

(** Three entries, the middle one saved. *)
Definition three : list HistoryItem.t :=
  [ HistoryItem.Build (lit "c") 30 None (lit "in c") (lit "out c") [] false;
    HistoryItem.Build (lit "b") 20 (Some business) (lit "in b") (lit "out b")
                      [lit "Q?"] true;
    HistoryItem.Build (lit "a") 10 None (lit "in a") (lit "out a") [] false ].

End MoreSamples.

(* ------------------------------------------------------------------ *)
(** ** Facts about the built-ins                                       *)
(* ------------------------------------------------------------------ *)

Lemma str_eqb_refl (s : jstring) : str_eqb s s = true.
Proof.
  induction s as [|c s IH]; simpl; [reflexivity|].
  now rewrite N.eqb_refl, IH.
Qed.

Lemma str_eqb_eq (a b : jstring) : str_eqb a b = true <-> a = b.
Proof.
  split.
  - revert b; induction a as [|x a IH]; intros [|y b] H; simpl in H;
      try discriminate; [reflexivity|].
    apply andb_true_iff in H as [Hx Hab].
    apply N.eqb_eq in Hx. apply IH in Hab. now subst.
  - intros ->. apply str_eqb_refl.
Qed.

Lemma str_eqb_neq (a b : jstring) : str_eqb a b = false <-> a <> b.
Proof.
  split.
  - intros H E. apply str_eqb_eq in E. congruence.
  - intros H. destruct (str_eqb a b) eqn:E; [|reflexivity].
    apply str_eqb_eq in E. contradiction.
Qed.

Lemma nonempty_true (s : jstring) : nonempty s = true <-> s <> [].
Proof. destruct s; simpl; split; intros; congruence. Qed.

Lemma nonempty_false (s : jstring) : nonempty s = false <-> s = [].
Proof. destruct s; simpl; split; intros; congruence. Qed.

Lemma digits_nonempty (d : Decimal.uint) :
  d <> Decimal.Nil -> digits d <> [].
Proof. destruct d; simpl; intros H; congruence. Qed.

Lemma number_to_string_nonempty (n : Z) : number_to_string n <> [].
Proof.
  unfold number_to_string.
  destruct n as [|p|p]; simpl; try discriminate.
  apply digits_nonempty.
  pose proof (DecimalPos.Unsigned.to_uint_nonnil p) as H. exact H.
Qed.

Lemma quote_nonempty (s : jstring) : quote s <> [].
Proof. unfold quote; simpl; discriminate. Qed.

Lemma stringify_nonempty (indent : jstring) (v : json) :
  stringify indent v <> [].
Proof.
  destruct v as [|[|]|n|s|[|x items]|[|kv props]]; simpl;
    try discriminate.
  - apply number_to_string_nonempty.
Qed.

Lemma mapM_total {A B} (f : A -> outcome B) (l : list A) :
  Forall (fun x => exists y, f x = Returns y) l ->
  exists ys, mapM f l = Returns ys.
Proof.
  induction 1 as [|x l [y Hy] _ [ys Hys]]; simpl.
  - now exists [].
  - rewrite Hy; simpl. rewrite Hys; simpl. now exists (y :: ys).
Qed.

Lemma to_String_plain (v : json) :
  plain v = true -> exists s, to_String v = Returns s.
Proof.
  induction v as [|b|n|s|items IH|props IH] using json_nested_ind;
    intros Hp; simpl in *.
  - eauto.
  - destruct b; eauto.
  - eauto.
  - eauto.
  - assert (Hall : Forall (fun e => exists s,
                     match e with JNull => Returns [] | _ => to_String e end
                     = Returns s) items).
    { rewrite forallb_forall in Hp. rewrite Forall_forall in IH |- *.
      intros e He. destruct e; eauto; apply IH; auto. }
    destruct (mapM_total _ _ Hall) as [parts ->]. simpl. eauto.
  - destruct (own props (lit "toString")); [discriminate|eauto].
Qed.

Lemma own_plain props k v :
  plain (JObj props) = true -> own props k = Some v -> plain v = true.
Proof.
  simpl. destruct (own props (lit "toString")); [discriminate|].
  intros Hall. induction props as [|[k' x] props IH]; simpl in *;
    [discriminate|].
  apply andb_true_iff in Hall as [Hx Hrest].
  destruct (str_eqb k' k).
  - now intros [= <-].
  - auto.
Qed.

Lemma prop_plain data k v :
  plain data = true -> prop data k = Some v -> plain v = true.
Proof.
  destruct data; simpl; try discriminate. apply own_plain.
Qed.

Lemma nullish_or_plain a b v :
  (forall x, a = Some x -> plain x = true) ->
  (forall x, b = Some x -> plain x = true) ->
  nullish_or a b = Some v -> plain v = true.
Proof.
  intros Ha Hb. destruct a as [[]|]; simpl; auto.
Qed.

Lemma section_total header v :
  (forall x, v = Some x -> plain x = true) ->
  exists lines, section header v = Returns lines.
Proof.
  intros Hv. unfold section. destruct v as [x|]; [|eauto].
  specialize (Hv x eq_refl).
  destruct (negb (truthy x)); [eauto|].
  destruct x as [|b|n|t|items|props];
    try (destruct (to_String_plain _ Hv) as [s ->]; simpl; eauto; fail).
  simpl in Hv.
  assert (Hall : Forall (fun c => exists y,
            (s <- to_String c ;; Returns (lit "- " ++ s)) = Returns y) items).
  { rewrite forallb_forall in Hv. rewrite Forall_forall. intros c Hc.
    destruct (to_String_plain c (Hv c Hc)) as [s ->]. simpl. eauto. }
  destruct (mapM_total _ _ Hall) as [bullets ->]. simpl. eauto.
Qed.

Lemma structuredPrompt_nonempty data s :
  structuredPrompt data = Returns s -> s <> [].
Proof.
  unfold structuredPrompt.
  destruct (section _ _) as [l1|]; simpl; [|discriminate].
  destruct (section _ _) as [l2|]; simpl; [|discriminate].
  destruct (section _ _) as [l3|]; simpl; [|discriminate].
  intros [= <-].
  destruct (nonempty _) eqn:E.
  - now apply nonempty_true.
  - apply stringify_nonempty.
Qed.

Lemma structuredPrompt_total data :
  plain data = true -> exists s, structuredPrompt data = Returns s.
Proof.
  intros Hp. unfold structuredPrompt.
  assert (Hprop : forall k x, prop data k = Some x -> plain x = true)
    by (intros k x; now apply prop_plain).
  destruct (section_total (newline ++ lit "Constraints:")
              (nullish_or (prop data (lit "Constraints"))
                               (prop data (lit "constraints"))))
    as [l1 ->].
  { intros x. apply nullish_or_plain; apply Hprop. }
  destruct (section_total (newline ++ lit "Output Format:")
              (nullish_or (nullish_or (prop data (lit "Output Format"))
                                           (prop data (lit "output_format")))
                               (prop data (lit "outputFormat"))))
    as [l2 ->].
  { intros x. apply nullish_or_plain; [|apply Hprop].
    intros y. apply nullish_or_plain; apply Hprop. }
  destruct (section_total (newline ++ lit "Follow-up Questions (max 2):")
              (nullish_or
                      (nullish_or (prop data (lit "Follow-up Questions"))
                                  (prop data (lit "follow_up_questions")))
                      (prop data (lit "followUps"))))
    as [l3 ->].
  { intros x. apply nullish_or_plain; [|apply Hprop].
    intros y. apply nullish_or_plain; apply Hprop. }
  simpl. eauto.
Qed.

(** Whenever the normalizer returns, the prompt is not empty. *)
Lemma toCopyReadyPrompt_nonempty data s :
  toCopyReadyPrompt data = Returns s -> s <> [].
Proof.
  unfold toCopyReadyPrompt.
  destruct (negb (truthy data)).
  - intros [= <-]. discriminate.
  - destruct (prop data (lit "prompt")) as [[| | |p| |]|];
      try apply structuredPrompt_nonempty.
    destruct (nonempty (trim p)) eqn:E.
    + intros [= <-]. now apply nonempty_true.
    + apply structuredPrompt_nonempty.
Qed.

(** The normalizer returns on every value in which no object has an own
    [toString] property. *)
Lemma toCopyReadyPrompt_total_plain data :
  plain data = true ->
  exists s, toCopyReadyPrompt data = Returns s /\ s <> [].
Proof.
  intros Hp.
  assert (H : exists s, toCopyReadyPrompt data = Returns s).
  { unfold toCopyReadyPrompt.
    destruct (negb (truthy data)); [eauto|].
    destruct (prop data (lit "prompt")) as [[| | |p| |]|];
      try (now apply structuredPrompt_total).
    destruct (nonempty (trim p)); [eauto|now apply structuredPrompt_total]. }
  destruct H as [s Hs]. exists s. split; [exact Hs|].
  now apply toCopyReadyPrompt_nonempty with data.
Qed.

(** The five payloads the specification lists. *)
Lemma toCopyReadyPrompt_listed_payloads :
  toCopyReadyPrompt JNull = Returns (lit "No prompt generated.")
  /\ toCopyReadyPrompt Samples.emptyObject = Returns (lit "{}")
  /\ toCopyReadyPrompt Samples.flatPayload = Returns (lit "x")
  /\ toCopyReadyPrompt Samples.rolePayload
     = Returns (lit "AI Role:" ++ newline ++ lit "r" ++ newline ++ newline
                ++ lit "Task:" ++ newline ++ lit "t")
  /\ toCopyReadyPrompt Samples.numbersPayload
     = Returns (lit "[" ++ newline ++ lit "  1," ++ newline ++ lit "  2,"
                ++ newline ++ lit "  3" ++ newline ++ lit "]").
Proof. repeat split; vm_compute; reflexivity. Qed.

(* ------------------------------------------------------------------ *)
(** ** Response normalizer                                             *)
(* ------------------------------------------------------------------ *)

(** C1. The normalizer is claimed to return a non-empty prompt on every
    JSON value and never to throw. On [{constraints: {toString: 1}}] it
    throws: [String(constraints)] finds the own, non-callable [toString]
    and raises a [TypeError]. *)
Theorem C1_toCopyReadyPrompt_throws_on_shadowed_toString :
  toCopyReadyPrompt Samples.shadowingPayload = Throws cannot_convert.
Proof. vm_compute. reflexivity. Qed.

(** C5. When the payload's [prompt] is a string whose trim is not empty,
    the normalizer returns exactly that trimmed string, whatever the other
    fields hold. *)
Theorem C5_flat_prompt_wins (data : json) (p : jstring) :
  prop data (lit "prompt") = Some (JStr p) ->
  trim p <> [] ->
  toCopyReadyPrompt data = Returns (trim p).
Proof.
  intros Hprompt Htrim.
  unfold toCopyReadyPrompt.
  assert (Ht : truthy data = true)
    by (destruct data; simpl in Hprompt; try discriminate; reflexivity).
  rewrite Ht, Hprompt. simpl.
  apply nonempty_true in Htrim. now rewrite Htrim.
Qed.

Lemma C5_flat_prompt_wins_witness :
  prop Samples.bothShapesPayload (lit "prompt")
    = Some (JStr (lit "  Role: X  "))
  /\ trim (lit "  Role: X  ") <> []
  /\ toCopyReadyPrompt Samples.bothShapesPayload = Returns (lit "Role: X").
Proof.
  split; [reflexivity|]. split; [vm_compute; discriminate|].
  change (lit "Role: X") with (trim (lit "  Role: X  ")).
  apply C5_flat_prompt_wins; [reflexivity|vm_compute; discriminate].
Defined.

(** C6. A payload carrying its follow-ups under [followUpQuestions] is
    claimed to yield them. The extraction probes [follow_up_questions],
    ["Follow-up Questions"] and [followUps] only, and yields none. *)
Theorem C6_followUpQuestions_key_not_probed :
  followUpsFromResult Samples.multiFieldPayload = []
  /\ toCopyReadyPrompt Samples.multiFieldPayload
     = Returns (lit "AI Role:" ++ newline ++ lit "r" ++ newline ++ newline
                ++ lit "Task:" ++ newline ++ lit "t").
Proof. split; vm_compute; reflexivity. Qed.

(* ------------------------------------------------------------------ *)
(** ** Usage meter                                                     *)
(* ------------------------------------------------------------------ *)

Lemma todayKey_nonempty (d : LocalDate) : nonempty (todayKey d) = true.
Proof.
  unfold todayKey.
  destruct (number_to_string (getFullYear d)); reflexivity.
Qed.

Lemma readUsage_other_day (stored : persisted) (today : jstring) :
  (forall parsed, stored = Value parsed ->
                  prop parsed (lit "date") <> Some (JStr today)) ->
  readUsage stored today = 0.
Proof.
  intros Hdate. destruct stored as [| |parsed]; simpl; try reflexivity.
  specialize (Hdate parsed eq_refl).
  destruct (prop parsed (lit "count")) as [[| |count| | |]|]; try reflexivity.
  destruct (prop parsed (lit "date")) as [[| | |date| |]|]; simpl;
    try reflexivity; try (now destruct (negb _)).
  destruct (nonempty date); simpl; [|reflexivity].
  destruct (str_eqb date today) eqn:E; simpl; [|reflexivity].
  apply str_eqb_eq in E. subst. now contradiction Hdate.
Qed.

Lemma readUsage_same_day (d : LocalDate) (parsed : json) (count : Z) :
  prop parsed (lit "date") = Some (JStr (todayKey d)) ->
  prop parsed (lit "count") = Some (JNum count) ->
  readUsage (Value parsed) (todayKey d) = Z.max 0 count.
Proof.
  intros Hd Hc. simpl. rewrite Hc, Hd. simpl.
  now rewrite todayKey_nonempty, str_eqb_refl.
Qed.

Lemma handleArchitect_over_quota (env : Env) (w : World) :
  State.plan (ui w) = free ->
  FREE_DAILY_LIMIT <= State.dailyCount (ui w) ->
  trim (State.idea (ui w)) <> [] ->
  let w' := handleArchitect env w in
  State.error (ui w') = JStr limitMessage
  /\ State.showUpgrade (ui w') = true
  /\ effects w' = effects w
  /\ storage w' = storage w
  /\ State.dailyCount (ui w') = State.dailyCount (ui w)
  /\ State.history (ui w') = State.history (ui w).
Proof.
  intros Hplan Hcount Hidea. unfold handleArchitect.
  apply nonempty_true in Hidea. rewrite Hidea, Hplan. simpl.
  assert (Hlt : (State.dailyCount (ui w) <? FREE_DAILY_LIMIT) = false)
    by (apply Z.ltb_ge; exact Hcount).
  rewrite Hlt. simpl. repeat split.
Qed.

(** C7. A stored record whose date is not today's key reads as count 0, so
    the free plan has its whole daily allowance left, whatever count the
    record holds. *)
Theorem C7_other_day_full_allowance (d : LocalDate) (stored : persisted) :
  (forall parsed, stored = Value parsed ->
                  prop parsed (lit "date") <> Some (JStr (todayKey d))) ->
  remaining free (readUsage stored (todayKey d)) = Finite FREE_DAILY_LIMIT.
Proof.
  intros H. now rewrite (readUsage_other_day _ _ H).
Qed.

Lemma C7_other_day_full_allowance_witness :
  prop Samples.usageJan1 (lit "count") = Some (JNum 3)
  /\ remaining free
       (readUsage (Value Samples.usageJan1) (todayKey Samples.jan2))
     = Finite 3.
Proof.
  split; [reflexivity|].
  apply (C7_other_day_full_allowance Samples.jan2 (Value Samples.usageJan1)).
  intros parsed [= <-]. vm_compute. discriminate.
Defined.

(** C3, as stated: a record with count = DAILY_LIMIT is claimed to be
    rejected whatever its date. A record dated yesterday with count 3 is
    read as 0; the attempt passes the quota check and the request is
    sent. *)
Lemma C3_stale_full_record_is_admitted :
  let env := Samples.envWith Samples.jan2 (Response 500 None) in
  let w0 :=
    {| ui := Samples.stateWith free 0 (lit "idea") [];
       storage := {| pap_usage := Value Samples.usageJan1;
                     pap_history := Missing |};
       effects := [] |} in
  prop Samples.usageJan1 (lit "count") = Some (JNum FREE_DAILY_LIMIT)
  /\ exists w1, mounts env w0 w1
     /\ State.dailyCount (ui w1) = 0
     /\ canGenerate (State.plan (ui w1)) (State.dailyCount (ui w1)) = true
     /\ effects (handleArchitect env w1)
        = [Fetch (lit "/api/transformPrompt")
                 (JObj [(lit "userInput", JStr (lit "idea"))])].
Proof.
  intros env w0. split; [reflexivity|].
  eexists. split.
  - apply (mounts_intro env w0 []). reflexivity.
  - repeat split; vm_compute; reflexivity.
Qed.

(** C3, amended: a free-plan record with count = DAILY_LIMIT whose date is
    today's key is read as DAILY_LIMIT and the generation attempt is
    rejected with the limit message before any request or write; a record
    with another date is read as 0 and passes the check. *)
Theorem C3_quota_check_follows_the_date (d : LocalDate) (parsed : json) :
  prop parsed (lit "count") = Some (JNum FREE_DAILY_LIMIT) ->
  (prop parsed (lit "date") = Some (JStr (todayKey d)) ->
   canGenerate free (readUsage (Value parsed) (todayKey d)) = false
   /\ forall env w,
        State.plan (ui w) = free ->
        State.dailyCount (ui w) = readUsage (Value parsed) (todayKey d) ->
        trim (State.idea (ui w)) <> [] ->
        State.error (ui (handleArchitect env w)) = JStr limitMessage
        /\ State.showUpgrade (ui (handleArchitect env w)) = true
        /\ effects (handleArchitect env w) = effects w
        /\ storage (handleArchitect env w) = storage w)
  /\ (prop parsed (lit "date") <> Some (JStr (todayKey d)) ->
      readUsage (Value parsed) (todayKey d) = 0
      /\ canGenerate free (readUsage (Value parsed) (todayKey d)) = true).
Proof.
  intros Hcount. split.
  - intros Hdate.
    rewrite (readUsage_same_day d parsed _ Hdate Hcount).
    split; [reflexivity|].
    intros env w Hplan Hdaily Hidea.
    assert (Hle : FREE_DAILY_LIMIT <= State.dailyCount (ui w))
      by (rewrite Hdaily; vm_compute; discriminate).
    destruct (handleArchitect_over_quota env w Hplan Hle Hidea)
      as (He & Hs & Hf & Hst & _).
    auto.
  - intros Hdate.
    assert (H0 : readUsage (Value parsed) (todayKey d) = 0).
    { apply readUsage_other_day. now intros p [= <-]. }
    rewrite H0. split; reflexivity.
Qed.

Lemma C3_quota_check_follows_the_date_witness :
  let env := Samples.envWith Samples.jan1 (Response 500 None) in
  let w := Samples.worldWith free 3 (lit "idea") [] in
  canGenerate free
    (readUsage (Value Samples.usageJan1) (todayKey Samples.jan1)) = false
  /\ State.error (ui (handleArchitect env w)) = JStr limitMessage
  /\ effects (handleArchitect env w) = [].
Proof.
  intros env w.
  destruct (C3_quota_check_follows_the_date Samples.jan1 Samples.usageJan1)
    as [Htoday _]; [reflexivity|].
  destruct Htoday as [Hcan Hreject]; [reflexivity|].
  split; [exact Hcan|].
  destruct (Hreject env w) as (He & _ & Hf & _);
    [reflexivity|reflexivity|vm_compute; discriminate|].
  split; [exact He|exact Hf].
Defined.

(* ------------------------------------------------------------------ *)
(** ** Generation handler                                              *)
(* ------------------------------------------------------------------ *)

(** C9. When the trimmed input is empty the handler sets the message
    "Type something first." and stops: no request is sent, nothing is
    written, the usage count and the history are as before. *)
Theorem C9_empty_input_rejected_first (env : Env) (w : World) :
  trim (State.idea (ui w)) = [] ->
  State.error (ui (handleArchitect env w)) = JStr (lit "Type something first.")
  /\ effects (handleArchitect env w) = effects w
  /\ storage (handleArchitect env w) = storage w
  /\ State.dailyCount (ui (handleArchitect env w)) = State.dailyCount (ui w)
  /\ State.history (ui (handleArchitect env w)) = State.history (ui w)
  /\ State.loading (ui (handleArchitect env w)) = State.loading (ui w).
Proof.
  intros Hidea. unfold handleArchitect. rewrite Hidea. simpl.
  repeat split.
Qed.

Lemma C9_empty_input_rejected_first_witness :
  let env := Samples.envWith Samples.jan1 (Response 200 None) in
  let w := Samples.worldWith free 0 (lit "   ") Samples.fifteen in
  trim (State.idea (ui w)) = []
  /\ State.error (ui (handleArchitect env w)) = JStr (lit "Type something first.")
  /\ effects (handleArchitect env w) = [].
Proof.
  intros env w. split; [reflexivity|].
  destruct (C9_empty_input_rejected_first env w) as (He & Hf & _);
    [reflexivity|].
  split; [exact He|exact Hf].
Defined.

(** C4. When the request is answered with a non-success status and a body
    whose [error] is "quota exceeded", that text is the message shown, the
    usage count and the history are as before, and nothing is written: the
    request is the only effect. *)
Theorem C4_remote_error_shown_without_commit
    (env : Env) (w : World) (status : Z) (data : json) :
  trim (State.idea (ui w)) <> [] ->
  canGenerate (State.plan (ui w)) (State.dailyCount (ui w)) = true ->
  fetch env (JObj [(lit "userInput", JStr (trim (State.idea (ui w))))])
    = Response status (Some data) ->
  ok status = false ->
  prop data (lit "error") = Some (JStr (lit "quota exceeded")) ->
  State.error (ui (handleArchitect env w)) = JStr (lit "quota exceeded")
  /\ State.dailyCount (ui (handleArchitect env w)) = State.dailyCount (ui w)
  /\ State.history (ui (handleArchitect env w)) = State.history (ui w)
  /\ storage (handleArchitect env w) = storage w
  /\ effects (handleArchitect env w)
     = Fetch (lit "/api/transformPrompt")
             (JObj [(lit "userInput", JStr (trim (State.idea (ui w))))])
       :: effects w.
Proof.
  intros Hidea Hcan Hfetch Hok Herr. unfold handleArchitect.
  apply nonempty_true in Hidea. rewrite Hidea, Hcan. simpl.
  rewrite Hfetch, Hok. simpl. rewrite Herr. simpl.
  repeat split.
Qed.

Lemma C4_remote_error_shown_without_commit_witness :
  let env := Samples.envWith Samples.jan1
               (Response 429 (Some Samples.quotaError)) in
  let w := Samples.worldWith free 1 (lit " build me a plan ") Samples.fifteen in
  ok 429 = false
  /\ State.error (ui (handleArchitect env w)) = JStr (lit "quota exceeded")
  /\ State.dailyCount (ui (handleArchitect env w)) = 1
  /\ State.history (ui (handleArchitect env w)) = Samples.fifteen.
Proof.
  intros env w. split; [reflexivity|].
  destruct (C4_remote_error_shown_without_commit env w
              429 Samples.quotaError)
    as (He & Hc & Hh & _);
    [vm_compute; discriminate|reflexivity|reflexivity|reflexivity
    |reflexivity|].
  split; [exact He|]. split; [exact Hc|exact Hh].
Defined.

(* ------------------------------------------------------------------ *)
(** ** History store                                                   *)
(* ------------------------------------------------------------------ *)

Section SortFacts.
Local Notation "'ins'" := (sort_insert newestFirst).
Local Notation "'srt'" := (sort newestFirst).

Lemma newestFirst_spec a b :
  (newestFirst a b <=? 0) = true <-> notOlder a b.
Proof. unfold newestFirst, notOlder. rewrite Z.leb_le. lia. Qed.

Lemma sort_insert_perm x l : Permutation (ins x l) (x :: l).
Proof.
  induction l as [|y l IH]; simpl; [reflexivity|].
  destruct (newestFirst x y <=? 0); [reflexivity|].
  rewrite IH. apply perm_swap.
Qed.

Lemma sort_perm l : Permutation (srt l) l.
Proof.
  induction l as [|x l IH]; simpl; [reflexivity|].
  rewrite sort_insert_perm. now constructor.
Qed.

Lemma sort_insert_sorted x l :
  newestFirstOrder l -> newestFirstOrder (ins x l).
Proof.
  unfold newestFirstOrder.
  induction l as [|y l IH]; simpl; intros Hs.
  - repeat constructor.
  - apply StronglySorted_inv in Hs as [Hl Hy].
    destruct (newestFirst x y <=? 0) eqn:E.
    + apply newestFirst_spec in E.
      constructor; [now constructor|].
      constructor; [exact E|].
      eapply Forall_impl; [|exact Hy].
      unfold notOlder in *. intros z Hz. lia.
    + assert (Hyx : notOlder y x).
      { unfold notOlder, newestFirst in *. apply Z.leb_gt in E. lia. }
      constructor; [now apply IH|].
      eapply Permutation_Forall.
      * symmetry. apply sort_insert_perm.
      * now constructor.
Qed.

Lemma sort_sorted l : newestFirstOrder (srt l).
Proof.
  induction l as [|x l IH]; simpl.
  - constructor.
  - now apply sort_insert_sorted.
Qed.

(** An element not older than any other goes to the front. *)
Lemma sort_insert_front x l :
  Forall (notOlder x) l -> ins x l = x :: l.
Proof.
  destruct l as [|y l]; simpl; [reflexivity|].
  intros H. apply Forall_inv in H. apply newestFirst_spec in H.
  now rewrite H.
Qed.

Lemma sort_of_sorted l : newestFirstOrder l -> srt l = l.
Proof.
  induction 1 as [|x l Hl IH Hx]; simpl; [reflexivity|].
  rewrite IH. now apply sort_insert_front.
Qed.

Lemma filter_sort_insert (keep : HistoryItem.t -> bool) x l :
  newestFirstOrder l ->
  filter keep (ins x l)
  = if keep x then ins x (filter keep l) else filter keep l.
Proof.
  unfold newestFirstOrder.
  induction l as [|y l IH]; simpl; intros Hs.
  - reflexivity.
  - apply StronglySorted_inv in Hs as [Hl Hy].
    destruct (newestFirst x y <=? 0) eqn:E; simpl.
    + destruct (keep x); [|reflexivity].
      apply newestFirst_spec in E.
      symmetry. apply sort_insert_front.
      assert (Hall : Forall (notOlder x) (y :: l)).
      { constructor; [exact E|].
        eapply Forall_impl; [|exact Hy].
        unfold notOlder in *. intros z Hz. lia. }
      rewrite Forall_forall in Hall |- *.
      intros z Hz. apply Hall.
      change (In z (filter keep (y :: l))) in Hz.
      now apply filter_In in Hz.
    + rewrite (IH Hl).
      destruct (keep y), (keep x); simpl; try rewrite E; reflexivity.
Qed.

(** Filtering commutes with the stable sort. *)
Lemma filter_sort (keep : HistoryItem.t -> bool) l :
  filter keep (srt l) = srt (filter keep l).
Proof.
  induction l as [|x l IH]; simpl; [reflexivity|].
  rewrite filter_sort_insert by apply sort_sorted.
  rewrite IH. now destruct (keep x).
Qed.

Lemma sorted_filter (keep : HistoryItem.t -> bool) l :
  newestFirstOrder l -> newestFirstOrder (filter keep l).
Proof.
  induction 1 as [|x l Hl IH Hx]; simpl; [constructor|].
  destruct (keep x); [|exact IH].
  constructor; [exact IH|].
  rewrite Forall_forall in Hx |- *.
  intros z Hz. apply Hx. now apply filter_In in Hz.
Qed.

Lemma sorted_firstn n l :
  newestFirstOrder l -> newestFirstOrder (firstn n l).
Proof.
  intros Hs. revert n.
  induction Hs as [|x l Hl IH Hx]; intros [|n]; simpl; try constructor.
  - apply IH.
  - rewrite Forall_forall in Hx |- *.
    intros z Hz. apply Hx.
    rewrite <- (firstn_skipn n l). apply in_or_app. now left.
Qed.

(** In a list ordered newest first, the first [n] are not older than any
    of the others. *)
Lemma firstn_not_older n l x y :
  newestFirstOrder l ->
  In x (firstn n l) -> In y (skipn n l) -> notOlder x y.
Proof.
  intros Hs. revert n.
  induction Hs as [|z l Hl IH Hz]; intros [|n]; simpl; try tauto.
  intros [<-|Hx] Hy.
  - rewrite Forall_forall in Hz. apply Hz.
    rewrite <- (firstn_skipn n l). apply in_or_app. now right.
  - now apply (IH n).
Qed.
End SortFacts.

Lemma filter_all {A} (f : A -> bool) (l : list A) :
  (forall x, In x l -> f x = true) -> filter f l = l.
Proof.
  induction l as [|x l IH]; simpl; intros H; [reflexivity|].
  rewrite (H x) by now left. f_equal. apply IH. intros; apply H; now right.
Qed.

Lemma filter_none {A} (f : A -> bool) (l : list A) :
  (forall x, In x l -> f x = false) -> filter f l = [].
Proof.
  induction l as [|x l IH]; simpl; intros H; [reflexivity|].
  rewrite (H x) by now left. apply IH. intros; apply H; now right.
Qed.

Lemma saved_nonSaved_perm (l : list HistoryItem.t) :
  Permutation (savedOf l ++ nonSavedOf l) l.
Proof.
  unfold savedOf, nonSavedOf.
  induction l as [|x l IH]; simpl; [reflexivity|].
  destruct (HistoryItem.saved x); simpl.
  - now constructor.
  - rewrite <- Permutation_middle. now constructor.
Qed.

Lemma nonSavedOf_savedOf l : nonSavedOf (savedOf l) = [].
Proof.
  apply filter_none. intros x Hx. apply filter_In in Hx as [_ ->].
  reflexivity.
Qed.

Lemma savedOf_nonSavedOf l : savedOf (nonSavedOf l) = [].
Proof.
  apply filter_none. intros x Hx. apply filter_In in Hx as [_ Hx].
  now apply negb_true_iff in Hx.
Qed.

Lemma nonSavedOf_firstn n l :
  nonSavedOf (firstn n (nonSavedOf l)) = firstn n (nonSavedOf l).
Proof.
  apply filter_all. intros x Hx.
  assert (Hin : In x (nonSavedOf l)).
  { rewrite <- (firstn_skipn n (nonSavedOf l)). apply in_or_app. now left. }
  now apply filter_In in Hin.
Qed.

Lemma savedOf_firstn n l : savedOf (firstn n (nonSavedOf l)) = [].
Proof.
  apply filter_none. intros x Hx.
  assert (Hin : In x (nonSavedOf l)).
  { rewrite <- (firstn_skipn n (nonSavedOf l)). apply in_or_app. now left. }
  apply filter_In in Hin as [_ Hs]. now apply negb_true_iff in Hs.
Qed.

(** The entries [enforceHistoryLimit] merges have distinct ids when the
    input has. *)
Lemma merged_ids_distinct n l :
  NoDup (ids l) -> NoDup (ids (savedOf l ++ firstn n (nonSavedOf l))).
Proof.
  intros Hnd.
  assert (Hall : NoDup (ids (savedOf l ++ nonSavedOf l))).
  { eapply Permutation_NoDup; [|exact Hnd].
    symmetry. apply Permutation_map. apply saved_nonSaved_perm. }
  rewrite <- (firstn_skipn n (nonSavedOf l)) in Hall.
  unfold ids in *. rewrite app_assoc, map_app in Hall.
  now apply NoDup_app_remove_r in Hall.
Qed.

Lemma map_set_absent acc x :
  ~ In (HistoryItem.id x) (ids acc) ->
  map_set (List.map keyed acc) (HistoryItem.id x) x
  = List.map keyed (acc ++ [x]).
Proof.
  induction acc as [|y acc IH]; simpl; intros Hn; [reflexivity|].
  destruct (str_eqb (HistoryItem.id y) (HistoryItem.id x)) eqn:E.
  - apply str_eqb_eq in E. exfalso. apply Hn. now left.
  - unfold keyed at 1. f_equal. apply IH. intros H. apply Hn. now right.
Qed.

(** With distinct ids the [Map] built by [byId.set] holds the entries as
    they came. *)
Lemma byId_distinct l acc :
  NoDup (ids (acc ++ l)) ->
  fold_left (fun m item => map_set m (HistoryItem.id item) item)
            l (List.map keyed acc)
  = List.map keyed (acc ++ l).
Proof.
  revert acc. induction l as [|x l IH]; intros acc Hnd; simpl.
  - now rewrite app_nil_r.
  - rewrite map_set_absent.
    + rewrite IH; rewrite <- app_assoc; [reflexivity|exact Hnd].
    + unfold ids in Hnd. rewrite map_app in Hnd. simpl in Hnd.
      apply NoDup_remove_2 in Hnd. intros H. apply Hnd.
      apply in_or_app. now left.
Qed.

Lemma map_values_keyed l : map_values (List.map keyed l) = l.
Proof.
  unfold map_values. rewrite map_map. simpl. apply map_id.
Qed.

Lemma enforce_free_distinct items :
  NoDup (ids items) ->
  enforceHistoryLimit free items
  = sort newestFirst
      (savedOf items ++ firstn FREE_HISTORY_LIMIT (nonSavedOf items)).
Proof.
  intros Hnd. unfold enforceHistoryLimit.
  change (@nil (jstring * HistoryItem.t)) with (List.map keyed []).
  rewrite byId_distinct.
  - now rewrite map_values_keyed.
  - change (NoDup (ids (savedOf items
                        ++ firstn FREE_HISTORY_LIMIT (nonSavedOf items)))).
    now apply merged_ids_distinct.
Qed.

Lemma enforce_free_nonSaved items :
  NoDup (ids items) ->
  nonSavedOf (enforceHistoryLimit free items)
  = sort newestFirst (firstn FREE_HISTORY_LIMIT (nonSavedOf items)).
Proof.
  intros Hnd. rewrite enforce_free_distinct by exact Hnd.
  unfold nonSavedOf at 1. rewrite filter_sort. f_equal.
  rewrite filter_app.
  change (nonSavedOf (savedOf items)
          ++ nonSavedOf (firstn FREE_HISTORY_LIMIT (nonSavedOf items))
          = firstn FREE_HISTORY_LIMIT (nonSavedOf items)).
  now rewrite nonSavedOf_savedOf, nonSavedOf_firstn.
Qed.

Lemma enforce_free_saved items :
  NoDup (ids items) ->
  savedOf (enforceHistoryLimit free items)
  = sort newestFirst (savedOf items).
Proof.
  intros Hnd. rewrite enforce_free_distinct by exact Hnd.
  unfold savedOf at 1. rewrite filter_sort. f_equal.
  rewrite filter_app.
  change (savedOf (savedOf items)
          ++ savedOf (firstn FREE_HISTORY_LIMIT (nonSavedOf items))
          = savedOf items).
  rewrite savedOf_firstn, app_nil_r.
  apply filter_all. intros x Hx. now apply filter_In in Hx.
Qed.

(** On a history ordered newest first, with distinct ids, retention under
    the free plan keeps every saved entry and the first ten unsaved. *)
Lemma enforce_free_sorted items :
  NoDup (ids items) -> newestFirstOrder items ->
  nonSavedOf (enforceHistoryLimit free items)
    = firstn FREE_HISTORY_LIMIT (nonSavedOf items)
  /\ savedOf (enforceHistoryLimit free items) = savedOf items.
Proof.
  intros Hnd Hs. split.
  - rewrite enforce_free_nonSaved by exact Hnd.
    apply sort_of_sorted. apply sorted_firstn. now apply sorted_filter.
  - rewrite enforce_free_saved by exact Hnd.
    apply sort_of_sorted. now apply sorted_filter.
Qed.

Lemma in_firstn_or_skipn {A} n (l : list A) x :
  In x l -> In x (firstn n l) \/ In x (skipn n l).
Proof.
  intros H. rewrite <- (firstn_skipn n l) in H. now apply in_app_or in H.
Qed.

Lemma enforce_after_sort_keepsTenNewest before :
  NoDup (ids before) ->
  (10 <= List.length (nonSavedOf before))%nat ->
  keepsTenNewest before
    (enforceHistoryLimit free (sort newestFirst before)).
Proof.
  intros Hnd Hlen.
  assert (Hnd' : NoDup (ids (sort newestFirst before))).
  { eapply Permutation_NoDup; [|exact Hnd].
    symmetry. apply Permutation_map. apply sort_perm. }
  destruct (enforce_free_sorted _ Hnd' (sort_sorted before)) as [Hns _].
  assert (Heq : nonSavedOf (enforceHistoryLimit free (sort newestFirst before))
                = firstn 10 (sort newestFirst (nonSavedOf before))).
  { rewrite Hns. unfold nonSavedOf. now rewrite filter_sort. }
  assert (Hperm : Permutation (sort newestFirst (nonSavedOf before))
                              (nonSavedOf before)) by apply sort_perm.
  unfold keepsTenNewest. rewrite Heq. repeat split.
  - rewrite length_firstn, (Permutation_length Hperm). lia.
  - intros x Hx. eapply Permutation_in; [exact Hperm|].
    rewrite <- (firstn_skipn 10 (sort _ _)). apply in_or_app. now left.
  - intros x y Hx Hy Hny.
    apply (firstn_not_older 10 (sort newestFirst (nonSavedOf before)));
      [apply sort_sorted|exact Hx|].
    apply (Permutation_in _ (Permutation_sym Hperm)) in Hy.
    destruct (in_firstn_or_skipn 10 _ _ Hy); [contradiction|assumption].
Qed.

Lemma flipSaved_id id h : HistoryItem.id (flipSaved id h) = HistoryItem.id h.
Proof. unfold flipSaved. now destruct (str_eqb _ _). Qed.

Lemma ids_flipSaved id l : ids (List.map (flipSaved id) l) = ids l.
Proof.
  unfold ids. rewrite map_map. apply map_ext. apply flipSaved_id.
Qed.

(** With distinct ids, removing an id removes at most one entry. *)
Lemma remove_id_length id l :
  NoDup (ids l) ->
  (List.length l
   <= S (List.length
           (filter (fun h => negb (str_eqb (HistoryItem.id h) id)) l)))%nat.
Proof.
  induction l as [|x l IH]; simpl; intros Hnd; [lia|].
  apply NoDup_cons_iff in Hnd as [Hx Hnd].
  destruct (str_eqb (HistoryItem.id x) id) eqn:E; simpl.
  - apply str_eqb_eq in E. subst id.
    rewrite filter_all; [lia|].
    intros y Hy. apply negb_true_iff. apply str_eqb_neq.
    intros Heq. apply Hx. rewrite <- Heq. now apply in_map.
  - specialize (IH Hnd). lia.
Qed.

Lemma nonSavedOf_flipSaved id l :
  Forall (fun x => HistoryItem.saved x = false) l ->
  List.length (nonSavedOf (List.map (flipSaved id) l))
  = List.length (filter (fun h => negb (str_eqb (HistoryItem.id h) id)) l).
Proof.
  induction 1 as [|x l Hx _ IH]; simpl; [reflexivity|].
  unfold flipSaved at 1.
  destruct (str_eqb (HistoryItem.id x) id); simpl; rewrite Hx; simpl;
    now rewrite IH.
Qed.

(** C2, as stated: ten unsaved entries are claimed to remain after any of
    the four operations. From fifteen unsaved entries under the free plan,
    deleting one leaves fourteen and clearing leaves none. *)
Lemma C2_delete_and_clear_do_not_leave_ten :
  let env := Samples.envWith Samples.jan1 (Response 200 None) in
  let w := Samples.worldWith free 0 [] Samples.fifteen in
  List.length (nonSavedOf Samples.fifteen) = 15%nat
  /\ savedOf Samples.fifteen = []
  /\ List.length
       (nonSavedOf (State.history (ui (deleteHistoryItem env (lit "e3") w))))
     = 14%nat
  /\ List.length (nonSavedOf (State.history (ui (clearAllHistory env w))))
     = 0%nat
  /\ List.length
       (nonSavedOf (State.history (ui (deleteHistoryItem env (lit "e3") w))))
     <> 10%nat.
Proof. repeat split; vm_compute; try reflexivity; discriminate. Qed.

(** C2, amended: under the free plan, from fifteen unsaved entries with
    distinct ids and no saved one, appending an entry with a fresh id, or
    toggling the saved flag of an id, leaves exactly ten unsaved entries,
    the ten most recent unsaved entries of the list the operation produced
    (a toggled entry becomes saved and is kept besides them); deleting
    applies no retention and removes only the matching entry; clearing
    removes every unsaved entry. *)
Theorem C2_retention_by_operation (env : Env) (w : World) :
  State.plan (ui w) = free ->
  List.length (State.history (ui w)) = 15%nat ->
  Forall (fun x => HistoryItem.saved x = false) (State.history (ui w)) ->
  NoDup (ids (State.history (ui w))) ->
  (forall input output fups,
      ~ In (uid env) (ids (State.history (ui w))) ->
      keepsTenNewest
        (HistoryItem.Build (uid env) (now env) (State.preset (ui w))
                           input output fups false
         :: State.history (ui w))
        (State.history (ui (saveToHistory env (ui w) input output fups w))))
  /\ (forall id,
        keepsTenNewest
          (List.map (flipSaved id) (State.history (ui w)))
          (State.history (ui (toggleSaved env id w)))
        /\ savedOf (State.history (ui (toggleSaved env id w)))
           = savedOf (List.map (flipSaved id) (State.history (ui w))))
  /\ (forall id,
        State.history (ui (deleteHistoryItem env id w))
        = filter (fun h => negb (str_eqb (HistoryItem.id h) id))
                 (State.history (ui w))
        /\ (14 <= List.length
                    (nonSavedOf
                       (State.history (ui (deleteHistoryItem env id w)))))%nat)
  /\ State.history (ui (clearAllHistory env w)) = [].
Proof.
  intros Hplan Hlen Hunsaved Hnd.
  set (h := State.history (ui w)) in *.
  assert (Hall : forall x, In x h ->
                   negb (HistoryItem.saved x) = true).
  { rewrite Forall_forall in Hunsaved. intros x Hx.
    now rewrite (Hunsaved x Hx). }
  split; [|split; [|split]].
  - intros input output fups Hfresh.
    unfold saveToHistory. simpl. rewrite Hplan. fold h.
    apply enforce_after_sort_keepsTenNewest.
    + simpl. constructor; assumption.
    + unfold nonSavedOf. simpl.
      rewrite (filter_all _ h Hall). simpl. lia.
  - intros id. unfold toggleSaved. simpl. rewrite Hplan. fold h.
    assert (Hnd' : NoDup (ids (List.map (flipSaved id) h)))
      by now rewrite ids_flipSaved.
    split.
    + apply enforce_after_sort_keepsTenNewest; [exact Hnd'|].
      rewrite nonSavedOf_flipSaved by exact Hunsaved.
      pose proof (remove_id_length id h Hnd). lia.
    + assert (Hs : NoDup (ids (sort newestFirst (List.map (flipSaved id) h)))).
      { eapply Permutation_NoDup; [|exact Hnd'].
        symmetry. apply Permutation_map. apply sort_perm. }
      destruct (enforce_free_sorted _ Hs (sort_sorted _)) as [_ Hsaved].
      rewrite Hsaved. unfold savedOf. rewrite filter_sort.
      (* the saved entries of the toggled list are at most one *)
      apply sort_of_sorted.
      assert (Hle : (List.length (savedOf (List.map (flipSaved id) h)) <= 1)%nat).
      { pose proof (Permutation_length
                      (saved_nonSaved_perm (List.map (flipSaved id) h))) as Hp.
        rewrite length_app, length_map in Hp.
        rewrite nonSavedOf_flipSaved in Hp by exact Hunsaved.
        pose proof (remove_id_length id h Hnd). lia. }
      unfold savedOf in Hle.
      destruct (filter _ (List.map (flipSaved id) h)) as [|a [|b rest]];
        simpl in Hle; try lia; repeat constructor.
  - intros id.
    assert (Heq : State.history (ui (deleteHistoryItem env id w))
                  = filter (fun x => negb (str_eqb (HistoryItem.id x) id)) h).
    { unfold deleteHistoryItem. fold h.
      destruct (same_id _ _); reflexivity. }
    split; [exact Heq|].
    rewrite Heq. unfold nonSavedOf.
    rewrite filter_all.
    + pose proof (remove_id_length id h Hnd). lia.
    + intros x Hx. apply filter_In in Hx as [Hx _]. now apply Hall.
  - unfold clearAllHistory. simpl. rewrite Hplan. fold h.
    rewrite (filter_none _ h).
    + reflexivity.
    + intros x Hx. apply negb_true_iff. now apply Hall.
Qed.

Lemma distinct_NoDup (l : list jstring) : distinct l = true -> NoDup l.
Proof.
  induction l as [|x l IH]; simpl; intros H; constructor.
  - apply andb_true_iff in H as [H _]. apply negb_true_iff in H.
    intros Hin. assert (Hex : existsb (str_eqb x) l = true).
    { apply existsb_exists. exists x. split; [exact Hin|apply str_eqb_refl]. }
    congruence.
  - apply andb_true_iff in H as [_ H]. now apply IH.
Qed.

Lemma C2_retention_by_operation_witness :
  let env := Samples.envWith Samples.jan1 (Response 200 None) in
  let w := Samples.worldWith free 0 [] Samples.fifteen in
  List.length (State.history (ui w)) = 15%nat
  /\ keepsTenNewest
       (Samples.appended :: Samples.fifteen)
       (State.history
          (ui (saveToHistory env (ui w) (lit "in") (lit "out") [] w)))
  /\ State.history (ui (clearAllHistory env w)) = [].
Proof.
  intros env w.
  destruct (C2_retention_by_operation env w) as (Happend & _ & _ & Hclear).
  - reflexivity.
  - reflexivity.
  - repeat constructor.
  - apply distinct_NoDup. vm_compute. reflexivity.
  - split; [reflexivity|]. split; [|exact Hclear].
    apply (Happend (lit "in") (lit "out") []).
    intros Hin. vm_compute in Hin.
    repeat (destruct Hin as [Hin|Hin]; [discriminate Hin|]). exact Hin.
Defined.

Lemma ids_filter_distinct (keep : HistoryItem.t -> bool) l :
  NoDup (ids l) -> NoDup (ids (filter keep l)).
Proof.
  unfold ids. induction l as [|x l IH]; simpl; intros Hnd; [constructor|].
  apply NoDup_cons_iff in Hnd as [Hx Hnd].
  destruct (keep x); simpl; [|now apply IH].
  constructor; [|now apply IH].
  intros Hin. apply Hx. apply in_map_iff in Hin as (y & Hy & Hin).
  apply filter_In in Hin as [Hin _]. rewrite <- Hy. now apply in_map.
Qed.

Lemma ids_sort_distinct l :
  NoDup (ids l) -> NoDup (ids (sort newestFirst l)).
Proof.
  intros Hnd. eapply Permutation_NoDup; [|exact Hnd].
  symmetry. apply Permutation_map. apply sort_perm.
Qed.

Lemma enforce_wellKept p l :
  wellKept l -> wellKept (enforceHistoryLimit p l).
Proof.
  intros [Hnd Hs]. destruct p; [|now split].
  rewrite enforce_free_distinct by exact Hnd. split.
  - apply ids_sort_distinct. now apply merged_ids_distinct.
  - apply sort_sorted.
Qed.

(** Every history operation keeps the history with distinct ids and
    ordered newest first; appending needs a fresh id. *)
Lemma history_operations_wellKept (env : Env) (w : World) :
  wellKept (State.history (ui w)) ->
  (forall input output fups,
      ~ In (uid env) (ids (State.history (ui w))) ->
      wellKept
        (State.history (ui (saveToHistory env (ui w) input output fups w))))
  /\ (forall id, wellKept (State.history (ui (toggleSaved env id w))))
  /\ (forall id, wellKept (State.history (ui (deleteHistoryItem env id w))))
  /\ wellKept (State.history (ui (clearAllHistory env w)))
  /\ wellKept (State.history (ui (togglePlan env w))).
Proof.
  intros [Hnd Hs]. split; [|split; [|split; [|split]]].
  - intros input output fups Hfresh.
    change (wellKept
              (enforceHistoryLimit (State.plan (ui w))
                 (sort newestFirst
                    (HistoryItem.Build (uid env) (now env)
                       (State.preset (ui w)) input output fups false
                     :: State.history (ui w))))).
    apply enforce_wellKept. split; [|apply sort_sorted].
    apply ids_sort_distinct. simpl. now constructor.
  - intros id.
    change (wellKept
              (enforceHistoryLimit (State.plan (ui w))
                 (sort newestFirst
                    (List.map (flipSaved id) (State.history (ui w)))))).
    apply enforce_wellKept. split; [|apply sort_sorted].
    apply ids_sort_distinct. now rewrite ids_flipSaved.
  - intros id.
    assert (Heq : State.history (ui (deleteHistoryItem env id w))
                  = filter (fun x => negb (str_eqb (HistoryItem.id x) id))
                           (State.history (ui w))).
    { unfold deleteHistoryItem. destruct (same_id _ _); reflexivity. }
    rewrite Heq. split; [now apply ids_filter_distinct|now apply sorted_filter].
  - change (wellKept
              (enforceHistoryLimit (State.plan (ui w))
                 (sort newestFirst (savedOf (State.history (ui w)))))).
    apply enforce_wellKept. split; [|apply sort_sorted].
    apply ids_sort_distinct. now apply ids_filter_distinct.
  - change (wellKept (enforceHistoryLimit (State.plan (ui w))
                                          (State.history (ui w)))).
    now apply enforce_wellKept.
Qed.

(** C10. The plan button flips the plan and applies retention under the
    plan that was in effect before the click, for every plan and history.
    Leaving pro, the history is kept whole, however many unsaved entries it
    has. Leaving free, the history is cut once more: kept as the history
    operations leave it (distinct ids, newest first), it is cut to its
    saved entries and its ten most recent unsaved ones. *)
Theorem C10_toggle_enforces_previous_plan (env : Env) (w : World) :
  State.plan (ui (togglePlan env w))
    = match State.plan (ui w) with free => pro | pro => free end
  /\ State.history (ui (togglePlan env w))
     = enforceHistoryLimit (State.plan (ui w)) (State.history (ui w))
  /\ (State.plan (ui w) = pro ->
      State.plan (ui (togglePlan env w)) = free
      /\ State.history (ui (togglePlan env w)) = State.history (ui w))
  /\ (State.plan (ui w) = free ->
      wellKept (State.history (ui w)) ->
      State.plan (ui (togglePlan env w)) = pro
      /\ nonSavedOf (State.history (ui (togglePlan env w)))
         = firstn 10 (nonSavedOf (State.history (ui w)))
      /\ savedOf (State.history (ui (togglePlan env w)))
         = savedOf (State.history (ui w))
      /\ forall x y,
           In x (nonSavedOf (State.history (ui (togglePlan env w)))) ->
           In y (nonSavedOf (State.history (ui w))) ->
           ~ In y (nonSavedOf (State.history (ui (togglePlan env w)))) ->
           notOlder x y).
Proof.
  assert (Hh : State.history (ui (togglePlan env w))
               = enforceHistoryLimit (State.plan (ui w)) (State.history (ui w)))
    by reflexivity.
  assert (Hp : State.plan (ui (togglePlan env w))
               = match State.plan (ui w) with free => pro | pro => free end)
    by reflexivity.
  split; [exact Hp|]. split; [exact Hh|]. split.
  - intros Hpro. rewrite Hp, Hh, Hpro. split; reflexivity.
  - intros Hfree [Hnd Hs]. rewrite Hp, Hh, Hfree.
    destruct (enforce_free_sorted _ Hnd Hs) as [Hns Hsv].
    split; [reflexivity|]. split; [exact Hns|]. split; [exact Hsv|].
    rewrite Hns. intros x y Hx Hy Hny.
    apply (firstn_not_older 10 (nonSavedOf (State.history (ui w))));
      [now apply sorted_filter|exact Hx|].
    destruct (in_firstn_or_skipn 10 _ _ Hy); [contradiction|assumption].
Qed.

Lemma C10_toggle_enforces_previous_plan_witness :
  let env := Samples.envWith Samples.jan1 (Response 200 None) in
  let wf := Samples.worldWith free 0 [] Samples.fifteen in
  let wp := Samples.worldWith pro 0 [] Samples.fifteen in
  State.history (ui (togglePlan env wp)) = Samples.fifteen
  /\ State.plan (ui (togglePlan env wp)) = free
  /\ State.plan (ui (togglePlan env wf)) = pro
  /\ nonSavedOf (State.history (ui (togglePlan env wf)))
     = firstn 10 Samples.fifteen.
Proof.
  intros env wf wp.
  destruct (C10_toggle_enforces_previous_plan env wp) as (_ & _ & Hpro & _).
  destruct (C10_toggle_enforces_previous_plan env wf) as (_ & _ & _ & Hfree).
  destruct (Hpro eq_refl) as [Hp Hh].
  destruct Hfree as (Hq & Hns & _).
  - reflexivity.
  - split.
    + apply distinct_NoDup. vm_compute. reflexivity.
    + unfold newestFirstOrder, notOlder.
      repeat (constructor;
              [|repeat (constructor; [vm_compute; discriminate|])]);
        constructor.
  - split; [exact Hh|]. split; [exact Hp|]. split; [exact Hq|exact Hns].
Defined.

(** What [readHistory] does, case by case: a stored value that is absent,
    unparsable or not an array reads as the empty history; a stored array
    reads as its truthy elements in their order ([null], [0], [""] and
    [false] are dropped, anything else is kept, object or not). *)
Lemma readHistory_keeps_truthy_elements (stored : persisted) :
  ((forall items, stored <> Value (JArr items)) -> readHistory stored = [])
  /\ (forall items, stored = Value (JArr items) ->
        readHistory stored = filter truthy items
        /\ (forall x, In x (readHistory stored)
                      <-> In x items /\ truthy x = true)
        /\ (Forall (fun x => truthy x = false) items ->
            readHistory stored = [])).
Proof.
  split.
  - intros Hna. destruct stored as [| |[| | | |items|]]; try reflexivity.
    now contradiction (Hna items).
  - intros items ->. simpl. split; [reflexivity|]. split.
    + intros x. apply filter_In.
    + intros Hall. apply filter_none. now apply Forall_forall.
Qed.

(** The rows of a history that [writeHistory] wrote all render: the test
    of each row reads the length of the entry's input. *)
Lemma renderHistoryRows_written (items : list HistoryItem.t) :
  Ui.renderHistoryRows (List.map itemJson items)
  = Returns
      (List.map
         (fun h => Some (JNum (Z.of_nat (List.length (HistoryItem.input h)))))
         items).
Proof.
  unfold Ui.renderHistoryRows.
  induction items as [|h items IH]; [reflexivity|].
  cbn [List.map mapM]. rewrite IH. reflexivity.
Qed.

(** C8. A stored history that is an array with elements that are not
    objects is claimed to read as an empty history, without an error. The
    stored array [[1, "x"]] passes [Array.isArray] and [filter(Boolean)]
    untouched, the mount effect hands it to [setHistory], and the first
    render of the list throws on [h.input.length] of its first row. *)
Theorem C8_non_object_elements_survive_the_read :
  readHistory (Value (JArr [JNum 1; JStr (lit "x")]))
  = [JNum 1; JStr (lit "x")]
  /\ readHistory (Value (JArr [JNum 1; JStr (lit "x")])) <> []
  /\ Ui.mountedHistory
       {| pap_usage := Missing;
          pap_history := Value (JArr [JNum 1; JStr (lit "x")]) |}
     = [JNum 1; JStr (lit "x")]
  /\ Ui.renderHistoryRows
       (Ui.mountedHistory
          {| pap_usage := Missing;
             pap_history := Value (JArr [JNum 1; JStr (lit "x")]) |})
     = Throws Ui.cannot_read_length_of_undefined.
Proof.
  split; [reflexivity|]. split; [discriminate|].
  split; [reflexivity|]. vm_compute. reflexivity.
Qed.

(* ------------------------------------------------------------------ *)
(** ** More facts about the built-ins                                  *)
(* ------------------------------------------------------------------ *)

Lemma trimStart_nil (s : jstring) :
  trimStart s = [] <-> forallb is_whitespace s = true.
Proof.
  induction s as [|c s IH]; simpl; [tauto|].
  destruct (is_whitespace c); simpl; [exact IH|].
  split; discriminate.
Qed.

(** [trimStart] removes a prefix of white space. *)
Lemma trimStart_split (s : jstring) :
  exists p, s = p ++ trimStart s /\ forallb is_whitespace p = true.
Proof.
  induction s as [|c s (p & Hp & Hws)]; simpl.
  - now exists [].
  - destruct (is_whitespace c) eqn:E.
    + exists (c :: p). simpl. rewrite E. split; [now f_equal|exact Hws].
    + now exists [].
Qed.

Lemma trimStart_head (s : jstring) (c : N) (r : jstring) :
  trimStart s = c :: r -> is_whitespace c = false.
Proof.
  induction s as [|d s IH]; simpl; [discriminate|].
  destruct (is_whitespace d) eqn:E; [exact IH|].
  now intros [= <- _].
Qed.

Lemma forallb_rev {A} (f : A -> bool) (l : list A) :
  forallb f (rev l) = forallb f l.
Proof.
  induction l as [|x l IH]; simpl; [reflexivity|].
  rewrite forallb_app, IH. simpl. rewrite andb_true_r. apply andb_comm.
Qed.

(** The trim of a string is empty exactly when the string is blank. *)
Lemma trim_nil (s : jstring) :
  trim s = [] <-> forallb is_whitespace s = true.
Proof.
  unfold trim, trimEnd. split.
  - intros H. apply (f_equal (@rev N)) in H. rewrite rev_involutive in H.
    simpl in H. apply trimStart_nil in H. rewrite forallb_rev in H.
    destruct (trimStart s) as [|c r] eqn:E; [now apply trimStart_nil|].
    apply trimStart_head in E. simpl in H. now rewrite E in H.
  - intros H. apply trimStart_nil in H. now rewrite H.
Qed.

Lemma trim_nonblank (s : jstring) (c : N) :
  In c s -> is_whitespace c = false -> trim s <> [].
Proof.
  intros Hin Hc H. apply trim_nil in H. rewrite forallb_forall in H.
  specialize (H c Hin). congruence.
Qed.

Lemma digits_inj (a b : Decimal.uint) : digits a = digits b -> a = b.
Proof.
  revert b. induction a as [|a IH|a IH|a IH|a IH|a IH|a IH|a IH|a IH|a IH|a IH];
    intros [|b|b|b|b|b|b|b|b|b|b] H; simpl in H;
    try discriminate; try reflexivity;
    injection H as H; f_equal; now apply IH.
Qed.

Lemma digits_head (d : Decimal.uint) (c : N) (r : jstring) :
  digits d = c :: r -> c <> 45%N.
Proof.
  destruct d; simpl; intros [= <- _]; discriminate.
Qed.

Lemma number_to_string_inj (a b : Z) :
  number_to_string a = number_to_string b -> a = b.
Proof.
  unfold number_to_string. intros H.
  apply DecimalZ.to_int_inj.
  destruct (Z.to_int a) as [x|x], (Z.to_int b) as [y|y].
  - apply digits_inj in H. now subst.
  - exfalso. apply digits_head in H. congruence.
  - exfalso. symmetry in H. apply digits_head in H. congruence.
  - injection H as H. apply digits_inj in H. now subst.
Qed.

Lemma app_inj_length {A} (a b x y : list A) :
  List.length a = List.length b -> a ++ x = b ++ y -> a = b /\ x = y.
Proof.
  revert b. induction a as [|c a IH]; intros [|d b] Hlen H; simpl in *;
    try discriminate.
  - now split.
  - injection H as -> H. injection Hlen as Hlen.
    destruct (IH b Hlen H) as [-> ->]. now split.
Qed.

Lemma twoDigits_spec (a b : Z) :
  0 <= a < 32 -> 0 <= b < 32 ->
  List.length (padStart2 (number_to_string a)) = 2%nat
  /\ (padStart2 (number_to_string a) = padStart2 (number_to_string b) ->
      a = b).
Proof.
  intros Ha Hb.
  assert (Hok : twoDigitsOk 32 = true) by (vm_compute; reflexivity).
  unfold twoDigitsOk in Hok. rewrite forallb_forall in Hok.
  assert (Hina : In (Z.to_nat a) (seq 0 32)) by (apply in_seq; lia).
  assert (Hinb : In (Z.to_nat b) (seq 0 32)) by (apply in_seq; lia).
  specialize (Hok _ Hina). apply andb_true_iff in Hok as [Hlen Hall].
  rewrite Z2Nat.id in Hlen, Hall by lia.
  split; [now apply Nat.eqb_eq in Hlen|].
  intros Heq. rewrite forallb_forall in Hall. specialize (Hall _ Hinb).
  rewrite Z2Nat.id in Hall by lia.
  apply str_eqb_eq in Heq. rewrite Heq in Hall. simpl in Hall.
  apply Nat.eqb_eq in Hall. lia.
Qed.

(* ------------------------------------------------------------------ *)
(** ** Reloading: the usage record and the history                     *)
(* ------------------------------------------------------------------ *)

Lemma todayKey_inj (d1 d2 : LocalDate) :
  validDate d1 -> validDate d2 ->
  todayKey d1 = todayKey d2 -> d1 = d2.
Proof.
  intros [Hm1 Hd1] [Hm2 Hd2] H. unfold todayKey in H.
  destruct (twoDigits_spec (getMonth d1 + 1) (getMonth d2 + 1))
    as [Lm1 Im]; [lia|lia|].
  destruct (twoDigits_spec (getMonth d2 + 1) (getMonth d1 + 1))
    as [Lm2 _]; [lia|lia|].
  destruct (twoDigits_spec (getDate d1) (getDate d2))
    as [Ld1 Id]; [lia|lia|].
  destruct (twoDigits_spec (getDate d2) (getDate d1))
    as [Ld2 _]; [lia|lia|].
  assert (Hy : List.length (number_to_string (getFullYear d1))
               = List.length (number_to_string (getFullYear d2))).
  { apply (f_equal (@List.length N)) in H.
    rewrite !length_app in H. simpl in H. lia. }
  apply app_inj_length in H as [Hyear Hrest]; [|exact Hy].
  simpl in Hrest. injection Hrest as Hrest.
  apply app_inj_length in Hrest as [Hmonth Hday]; [|congruence].
  simpl in Hday. injection Hday as Hday.
  apply number_to_string_inj in Hyear. apply Im in Hmonth. apply Id in Hday.
  destruct d1, d2; simpl in *. f_equal; lia.
Qed.

(** X1. Two calendar dates with months 0 to 11 and days 1 to 31 have the
    same key only when they are the same date, whatever the year. *)
Theorem X1_todayKey_one_to_one (d1 d2 : LocalDate) :
  validDate d1 -> validDate d2 ->
  todayKey d1 = todayKey d2 -> d1 = d2.
Proof. apply todayKey_inj. Qed.

Lemma X1_todayKey_one_to_one_witness :
  validDate Samples.jan1 /\ validDate Samples.jan2
  /\ (todayKey Samples.jan1 = todayKey Samples.jan2 ->
      Samples.jan1 = Samples.jan2).
Proof.
  assert (H1 : validDate Samples.jan1) by (unfold validDate; simpl; lia).
  assert (H2 : validDate Samples.jan2) by (unfold validDate; simpl; lia).
  split; [exact H1|]. split; [exact H2|].
  exact (X1_todayKey_one_to_one Samples.jan1 Samples.jan2 H1 H2).
Defined.

(** X2. Under the free plan, the count [bumpUsage] writes is the one a
    reload on the same calendar date reads back; a reload on any other
    date reads 0. *)
Theorem X2_usage_count_survives_reload_same_day
    (env env' : Env) (w w' : World) :
  State.plan (ui w) = free ->
  0 <= State.dailyCount (ui w) ->
  setItem_succeeds env = true ->
  mounts env' (bumpUsage env (ui w) w) w' ->
  (clock env' = clock env ->
   State.dailyCount (ui w') = State.dailyCount (ui w) + 1)
  /\ (validDate (clock env) -> validDate (clock env') ->
      clock env' <> clock env ->
      State.dailyCount (ui w') = 0).
Proof.
  intros Hplan Hcount Hset Hm.
  assert (Hread : State.dailyCount (ui w')
                  = readUsage
                      (Value (usageJson (todayKey (clock env))
                                        (State.dailyCount (ui w) + 1)))
                      (todayKey (clock env'))).
  { inversion Hm as [items Hitems Hw']. subst w'.
    unfold bumpUsage. rewrite Hplan. simpl. now rewrite Hset. }
  rewrite Hread. split.
  - intros ->. rewrite (readUsage_same_day _ _ (State.dailyCount (ui w) + 1));
      [lia|reflexivity|reflexivity].
  - intros Hv Hv' Hneq. apply readUsage_other_day.
    intros parsed [= <-]. simpl.
    intros [= Heq]. apply Hneq. symmetry.
    now apply todayKey_inj.
Qed.

Lemma X2_usage_count_survives_reload_same_day_witness :
  let env := Samples.envWith Samples.jan1 (Response 200 None) in
  let w := Samples.worldWith free 1 [] [] in
  let w1 := bumpUsage env (ui w) w in
  let w' :=
    setHistory []
      (setDailyCount
         (readUsage (pap_usage (storage w1)) (todayKey (clock env))) w1) in
  mounts env w1 w' /\ State.dailyCount (ui w') = 2.
Proof.
  intros env w w1 w'.
  assert (Hm : mounts env w1 w') by (apply (mounts_intro env w1 []); reflexivity).
  split; [exact Hm|].
  destruct (X2_usage_count_survives_reload_same_day env env w w')
    as [Hsame _];
    [reflexivity|vm_compute; discriminate|reflexivity|exact Hm|].
  exact (Hsame eq_refl).
Defined.

Lemma presetName_inj (p q : PresetId) : presetName p = presetName q -> p = q.
Proof.
  destruct p, q; intros H; try reflexivity; vm_compute in H; discriminate.
Qed.

Lemma map_JStr_inj (a b : list jstring) :
  List.map JStr a = List.map JStr b -> a = b.
Proof.
  revert b. induction a as [|x a IH]; intros [|y b] H; simpl in H;
    try discriminate; [reflexivity|].
  injection H as -> H. f_equal. now apply IH.
Qed.

Lemma itemJson_inj (a b : HistoryItem.t) : itemJson a = itemJson b -> a = b.
Proof.
  destruct a as [i1 c1 p1 n1 o1 f1 s1], b as [i2 c2 p2 n2 o2 f2 s2].
  unfold itemJson. simpl. intros H.
  injection H as Hi Hc Hp Hn Ho Hf Hs.
  apply map_JStr_inj in Hf. subst.
  assert (p1 = p2).
  { destruct p1 as [x|], p2 as [y|]; try discriminate; [|reflexivity].
    injection Hp as Hp. apply presetName_inj in Hp. now subst. }
  now subst.
Qed.

Lemma cons_eq_inv {A} (x y : A) (a b : list A) :
  x :: a = y :: b -> x = y /\ a = b.
Proof. intros H. injection H as -> ->. now split. Qed.

Lemma map_itemJson_inj (a b : list HistoryItem.t) :
  List.map itemJson a = List.map itemJson b -> a = b.
Proof.
  revert b. induction a as [|x a IH]; intros [|y b] H;
    cbn [List.map] in H; try discriminate; [reflexivity|].
  apply cons_eq_inv in H as [Hx H]. apply itemJson_inj in Hx. subst.
  f_equal. now apply IH.
Qed.

Lemma readHistory_written (items : list HistoryItem.t) :
  readHistory (Value (JArr (List.map itemJson items)))
  = List.map itemJson items.
Proof.
  simpl. apply filter_all. intros x Hx.
  apply in_map_iff in Hx as (h & <- & _). reflexivity.
Qed.

Lemma mounts_inSync (env : Env) (w w' : World) :
  inSync w -> mounts env w w' ->
  State.history (ui w') = State.history (ui w).
Proof.
  unfold inSync. intros Hs Hm.
  inversion Hm as [items Hitems Hw']. subst w'. simpl.
  rewrite Hs, readHistory_written in Hitems.
  symmetry. now apply map_itemJson_inj.
Qed.

(** X3. A history written to storage and read back at the next start is
    the same list of entries, in the same order. *)
Theorem X3_history_survives_reload
    (env env' : Env) (items : list HistoryItem.t) (w : World) :
  setItem_succeeds env = true ->
  (exists w', mounts env' (writeHistory env items w) w')
  /\ (forall w', mounts env' (writeHistory env items w) w' ->
                 State.history (ui w') = items).
Proof.
  intros Hset.
  assert (Hstored : pap_history (storage (writeHistory env items w))
                    = Value (JArr (List.map itemJson items)))
    by (simpl; now rewrite Hset).
  split.
  - eexists. apply (mounts_intro env' _ items).
    rewrite Hstored. apply readHistory_written.
  - intros w' Hm. inversion Hm as [items' Hitems Hw']. subst w'. simpl.
    rewrite Hstored, readHistory_written in Hitems.
    symmetry. now apply map_itemJson_inj.
Qed.

Lemma X3_history_survives_reload_witness :
  let env := Samples.envWith Samples.jan1 (Response 200 None) in
  let w := Samples.worldWith free 0 [] [] in
  exists w', mounts env (writeHistory env MoreSamples.three w) w'
             /\ State.history (ui w') = MoreSamples.three.
Proof.
  intros env w.
  destruct (X3_history_survives_reload env env MoreSamples.three w eq_refl)
    as [[w' Hm] Hall].
  exists w'. split; [exact Hm|]. now apply Hall.
Defined.

(* ------------------------------------------------------------------ *)
(** ** The generation handler, path by path                            *)
(* ------------------------------------------------------------------ *)

(** Splits [handleArchitect env w] along its tests: blank input, quota,
    the reply, its status, the normalizer, the plan. *)
Ltac architect_paths env w :=
  unfold handleArchitect;
  destruct (nonempty (trim (State.idea (ui w)))) eqn:Hinput;
    cbn [negb];
    [ destruct (canGenerate (State.plan (ui w)) (State.dailyCount (ui w)))
        eqn:Hquota; cbn [negb];
      [ destruct (fetch env
                    (JObj [(lit "userInput",
                            JStr (trim (State.idea (ui w))))]))
          as [message|status body] eqn:Hreply;
        [ | destruct (ok status) eqn:Hok; cbn [negb];
            [ destruct (toCopyReadyPrompt
                          match body with Some j => j | None => JNull end)
                as [promptText|e] eqn:Hnorm | ] ]
      | ]
    | ].

(** X4. Whenever [setItem] succeeds, the stored history is the history of
    the state after each history operation, and the generation handler
    keeps the two equal on every one of its paths. *)
Theorem X4_stored_history_mirrors_state (env : Env) (w : World) :
  setItem_succeeds env = true ->
  (forall input output fups,
      inSync (saveToHistory env (ui w) input output fups w))
  /\ (forall id, inSync (toggleSaved env id w))
  /\ (forall id, inSync (deleteHistoryItem env id w))
  /\ inSync (clearAllHistory env w)
  /\ inSync (togglePlan env w)
  /\ (inSync w -> inSync (handleArchitect env w)).
Proof.
  intros Hset. unfold inSync.
  split; [|split; [|split; [|split; [|split]]]].
  - intros. unfold saveToHistory. cbn. now rewrite Hset.
  - intros. unfold toggleSaved. cbn. now rewrite Hset.
  - intros. unfold deleteHistoryItem.
    destruct (same_id _ _); cbn; now rewrite Hset.
  - unfold clearAllHistory. cbn. now rewrite Hset.
  - unfold togglePlan. cbn. now rewrite Hset.
  - intros Hsync. architect_paths env w; try exact Hsync.
    + unfold saveToHistory, bumpUsage.
      destruct (State.plan (ui w)); cbn; now rewrite Hset.
    + unfold bumpUsage.
      destruct (State.plan (ui w)); cbn; [rewrite Hset|]; exact Hsync.
Qed.

Lemma X4_stored_history_mirrors_state_witness :
  let env := Samples.envWith Samples.jan1
               (Response 200 (Some MoreSamples.flatAnswer)) in
  let w := Samples.worldWith free 0 (lit "idea") [] in
  inSync (toggleSaved env (lit "b") w)
  /\ inSync (handleArchitect env (toggleSaved env (lit "b") w)).
Proof.
  intros env w.
  destruct (X4_stored_history_mirrors_state env w eq_refl)
    as (_ & Htoggle & _).
  split; [apply Htoggle|].
  destruct (X4_stored_history_mirrors_state env
              (toggleSaved env (lit "b") w) eq_refl)
    as (_ & _ & _ & _ & _ & Hgen).
  apply Hgen. apply Htoggle.
Defined.

(** X5. Under the free plan one call of the generation handler never
    lowers the daily count and raises it by at most one; it leaves the
    count as it is when the count is already at or above the daily limit,
    and a raise, when there is one, starts strictly below the limit and
    is exactly one. *)
Theorem X5_daily_count_rises_only_below_the_limit (env : Env) (w : World) :
  State.plan (ui w) = free ->
  State.dailyCount (ui w) <= State.dailyCount (ui (handleArchitect env w))
  /\ State.dailyCount (ui (handleArchitect env w))
     <= State.dailyCount (ui w) + 1
  /\ (FREE_DAILY_LIMIT <= State.dailyCount (ui w) ->
      State.dailyCount (ui (handleArchitect env w))
      = State.dailyCount (ui w))
  /\ (State.dailyCount (ui (handleArchitect env w))
      <> State.dailyCount (ui w) ->
      State.dailyCount (ui w) < FREE_DAILY_LIMIT
      /\ State.dailyCount (ui (handleArchitect env w))
         = State.dailyCount (ui w) + 1).
Proof.
  intros Hplan.
  architect_paths env w;
    try (cbn; repeat split; try lia; intros H; now contradiction H);
    rewrite Hplan in *; cbn in Hquota; apply Z.ltb_lt in Hquota;
    unfold saveToHistory, bumpUsage; rewrite Hplan; cbn;
    repeat split; lia.
Qed.

Lemma X5_daily_count_rises_only_below_the_limit_witness :
  let env := Samples.envWith Samples.jan1
               (Response 200 (Some MoreSamples.flatAnswer)) in
  let w := Samples.worldWith free 3 (lit "idea") [] in
  FREE_DAILY_LIMIT <= State.dailyCount (ui w)
  /\ State.dailyCount (ui (handleArchitect env w)) = 3.
Proof.
  intros env w.
  assert (Hle : FREE_DAILY_LIMIT <= State.dailyCount (ui w))
    by (vm_compute; discriminate).
  split; [exact Hle|].
  destruct (X5_daily_count_rises_only_below_the_limit env w)
    as (_ & _ & Hfull & _); [reflexivity|].
  exact (Hfull Hle).
Defined.

Lemma handleArchitect_failed_request (env : Env) (w : World) :
  trim (State.idea (ui w)) <> [] ->
  canGenerate (State.plan (ui w)) (State.dailyCount (ui w)) = true ->
  ((exists message,
       fetch env (JObj [(lit "userInput", JStr (trim (State.idea (ui w))))])
       = Rejected message)
   \/ (exists status body,
         fetch env (JObj [(lit "userInput", JStr (trim (State.idea (ui w))))])
         = Response status body
         /\ ok status = false)) ->
  State.dailyCount (ui (handleArchitect env w)) = State.dailyCount (ui w)
  /\ State.history (ui (handleArchitect env w)) = State.history (ui w)
  /\ storage (handleArchitect env w) = storage w
  /\ State.loading (ui (handleArchitect env w)) = false
  /\ State.result (ui (handleArchitect env w)) = None
  /\ effects (handleArchitect env w)
     = Fetch (lit "/api/transformPrompt")
             (JObj [(lit "userInput", JStr (trim (State.idea (ui w))))])
       :: effects w
  /\ State.error (ui (handleArchitect env w))
     = match fetch env
               (JObj [(lit "userInput", JStr (trim (State.idea (ui w))))])
       with
       | Rejected message =>
           or_else message (JStr (lit "Something went wrong."))
       | Response status body =>
           or_else
             (prop match body with Some j => j | None => JNull end
                   (lit "error"))
             (JStr (lit "Request failed (" ++ number_to_string status
                    ++ lit ")"))
       end.
Proof.
  intros Hidea Hcan Hfail.
  apply nonempty_true in Hidea.
  architect_paths env w; try congruence.
  - repeat split.
  - destruct Hfail as [[m H]|(s & b & H & Hs)]; try discriminate.
    injection H as Hst _. subst s. congruence.
  - destruct Hfail as [[m H]|(s & b & H & Hs)]; try discriminate.
    injection H as Hst _. subst s. congruence.
  - repeat split.
Qed.



(** The entry a successful generation appends. *)
Lemma saveToHistory_history env c input output fups w :
  State.history (ui (saveToHistory env c input output fups w))
  = enforceHistoryLimit (State.plan c)
      (sort newestFirst
         (HistoryItem.Build (uid env) (now env) (State.preset c)
                            input output fups false
          :: State.history c)).
Proof. reflexivity. Qed.

Lemma handleArchitect_success_commit
    (env : Env) (w : World) (status : Z) (body : option json)
    (promptText : jstring) :
  trim (State.idea (ui w)) <> [] ->
  canGenerate (State.plan (ui w)) (State.dailyCount (ui w)) = true ->
  fetch env (JObj [(lit "userInput", JStr (trim (State.idea (ui w))))])
    = Response status body ->
  ok status = true ->
  toCopyReadyPrompt match body with Some j => j | None => JNull end
    = Returns promptText ->
  State.dailyCount (ui (handleArchitect env w))
    = match State.plan (ui w) with
      | free => State.dailyCount (ui w) + 1
      | pro => State.dailyCount (ui w)
      end
  /\ State.history (ui (handleArchitect env w))
     = enforceHistoryLimit (State.plan (ui w))
         (sort newestFirst
            (HistoryItem.Build (uid env) (now env) (State.preset (ui w))
               (trim (State.idea (ui w))) promptText
               (followUpsFromResult
                  match body with Some j => j | None => JNull end)
               false
             :: State.history (ui w)))
  /\ State.activeHistoryId (ui (handleArchitect env w)) = Some (uid env)
  /\ State.error (ui (handleArchitect env w)) = JStr []
  /\ State.loading (ui (handleArchitect env w)) = false
  /\ effects (handleArchitect env w)
     = SetItem (lit "pap_history")
         (JArr (List.map itemJson
                  (State.history (ui (handleArchitect env w)))))
       :: match State.plan (ui w) with
          | free =>
              [SetItem (lit "pap_usage")
                 (usageJson (todayKey (clock env))
                            (State.dailyCount (ui w) + 1))]
          | pro => []
          end
       ++ Fetch (lit "/api/transformPrompt")
            (JObj [(lit "userInput", JStr (trim (State.idea (ui w))))])
       :: effects w.
Proof.
  intros Hidea Hcan Hfetch Hok Hnorm.
  apply nonempty_true in Hidea.
  unfold handleArchitect.
  rewrite Hidea, Hcan. cbn [negb]. rewrite Hfetch, Hok. cbn [negb].
  rewrite Hnorm.
  unfold saveToHistory, bumpUsage.
  destruct (State.plan (ui w)); cbn; repeat split.
Qed.

(** X7. A success response whose body the normalizer accepts costs one
    unit of the daily count under the free plan and none under pro; the
    history becomes the retained, newest-first list with the new unsaved
    entry (trimmed input, normalized prompt, extracted follow-ups) added,
    that entry becomes the active one, no error is shown and [loading] is
    false. The effects are the request, then the usage write (free plan
    only), then the history write. *)
Theorem X7_successful_generation_commits_once
    (env : Env) (w : World) (status : Z) (body : option json)
    (promptText : jstring) :
  trim (State.idea (ui w)) <> [] ->
  canGenerate (State.plan (ui w)) (State.dailyCount (ui w)) = true ->
  fetch env (JObj [(lit "userInput", JStr (trim (State.idea (ui w))))])
    = Response status body ->
  ok status = true ->
  toCopyReadyPrompt match body with Some j => j | None => JNull end
    = Returns promptText ->
  State.dailyCount (ui (handleArchitect env w))
    = match State.plan (ui w) with
      | free => State.dailyCount (ui w) + 1
      | pro => State.dailyCount (ui w)
      end
  /\ State.history (ui (handleArchitect env w))
     = enforceHistoryLimit (State.plan (ui w))
         (sort newestFirst
            (HistoryItem.Build (uid env) (now env) (State.preset (ui w))
               (trim (State.idea (ui w))) promptText
               (followUpsFromResult
                  match body with Some j => j | None => JNull end)
               false
             :: State.history (ui w)))
  /\ State.activeHistoryId (ui (handleArchitect env w)) = Some (uid env)
  /\ State.error (ui (handleArchitect env w)) = JStr []
  /\ State.loading (ui (handleArchitect env w)) = false
  /\ effects (handleArchitect env w)
     = SetItem (lit "pap_history")
         (JArr (List.map itemJson
                  (State.history (ui (handleArchitect env w)))))
       :: match State.plan (ui w) with
          | free =>
              [SetItem (lit "pap_usage")
                 (usageJson (todayKey (clock env))
                            (State.dailyCount (ui w) + 1))]
          | pro => []
          end
       ++ Fetch (lit "/api/transformPrompt")
            (JObj [(lit "userInput", JStr (trim (State.idea (ui w))))])
       :: effects w.
Proof. apply handleArchitect_success_commit. Qed.

Lemma X7_successful_generation_commits_once_witness :
  let env := Samples.envWith Samples.jan1
               (Response 200 (Some MoreSamples.flatAnswer)) in
  let w := Samples.worldWith free 0 (lit "  build me a plan  ") [] in
  State.dailyCount (ui (handleArchitect env w)) = 1
  /\ State.history (ui (handleArchitect env w))
     = [HistoryItem.Build (lit "2000_abc") 2000 None (lit "build me a plan")
          (lit "Role: X" ++ newline ++ lit "Task: Y")
          [lit "Q1?"; lit "Q2?"] false].
Proof.
  intros env w.
  destruct (X7_successful_generation_commits_once env w 200
              (Some MoreSamples.flatAnswer)
              (lit "Role: X" ++ newline ++ lit "Task: Y"))
    as (Hc & Hh & _);
    [vm_compute; discriminate|reflexivity|reflexivity|reflexivity
    |reflexivity|].
  split; [exact Hc|]. rewrite Hh. vm_compute. reflexivity.
Defined.

(** X8. When the normalizer throws on the body of a success response, the
    free plan's daily count has already been raised and written, while
    the history and the stored history are as before and the thrown
    message is shown. *)
Theorem X8_normalizer_failure_still_counts
    (env : Env) (w : World) (status : Z) (body : option json) (e : exn) :
  trim (State.idea (ui w)) <> [] ->
  canGenerate (State.plan (ui w)) (State.dailyCount (ui w)) = true ->
  fetch env (JObj [(lit "userInput", JStr (trim (State.idea (ui w))))])
    = Response status body ->
  ok status = true ->
  toCopyReadyPrompt match body with Some j => j | None => JNull end
    = Throws e ->
  State.dailyCount (ui (handleArchitect env w))
    = match State.plan (ui w) with
      | free => State.dailyCount (ui w) + 1
      | pro => State.dailyCount (ui w)
      end
  /\ State.history (ui (handleArchitect env w)) = State.history (ui w)
  /\ pap_history (storage (handleArchitect env w)) = pap_history (storage w)
  /\ State.result (ui (handleArchitect env w)) = None
  /\ State.error (ui (handleArchitect env w))
     = or_else (exn_message e) (JStr (lit "Something went wrong.")).
Proof.
  intros Hidea Hcan Hfetch Hok Hnorm.
  apply nonempty_true in Hidea.
  unfold handleArchitect.
  rewrite Hidea, Hcan. cbn [negb]. rewrite Hfetch, Hok. cbn [negb].
  rewrite Hnorm. unfold bumpUsage.
  destruct (State.plan (ui w)); cbn; repeat split.
  now destruct (setItem_succeeds env).
Qed.

Lemma X8_normalizer_failure_still_counts_witness :
  let env := Samples.envWith Samples.jan1
               (Response 200 (Some Samples.shadowingPayload)) in
  let w := Samples.worldWith free 0 (lit "idea") [] in
  State.dailyCount (ui (handleArchitect env w)) = 1
  /\ State.history (ui (handleArchitect env w)) = []
  /\ State.error (ui (handleArchitect env w))
     = JStr (lit "Cannot convert object to primitive value").
Proof.
  intros env w.
  destruct (X8_normalizer_failure_still_counts env w 200
              (Some Samples.shadowingPayload) cannot_convert)
    as (Hc & Hh & _ & _ & He);
    [vm_compute; discriminate|reflexivity|reflexivity|reflexivity
    |reflexivity|].
  split; [exact Hc|]. split; [exact Hh|exact He].
Defined.

(* ------------------------------------------------------------------ *)
(** ** What is shown                                                   *)
(* ------------------------------------------------------------------ *)

Lemma own_map_set_same (m : list (jstring * json)) k v :
  own (map_set m k v) k = Some v.
Proof.
  induction m as [|[k' v'] m IH]; simpl.
  - now rewrite str_eqb_refl.
  - destruct (str_eqb k' k) eqn:E; simpl; now rewrite E.
Qed.

Lemma own_map_set_other (m : list (jstring * json)) k v k' :
  k' <> k -> own (map_set m k v) k' = own m k'.
Proof.
  intros Hneq. induction m as [|[k0 v0] m IH]; simpl.
  - assert (E : str_eqb k k' = false)
      by (apply str_eqb_neq; congruence).
    now rewrite E.
  - destruct (str_eqb k0 k) eqn:E; simpl.
    + apply str_eqb_eq in E. subst k0.
      assert (E' : str_eqb k k' = false)
        by (apply str_eqb_neq; congruence).
      now rewrite E'.
    + destruct (str_eqb k0 k'); [reflexivity|exact IH].
Qed.

Lemma strings_of_strings (qs : list jstring) :
  flat_map (fun q => match q with JStr s => [s] | _ => [] end)
           (List.map JStr qs)
  = qs.
Proof.
  induction qs as [|q qs IH]; simpl; [reflexivity|]. now rewrite IH.
Qed.

(** Follow-ups stored under [follow_up_questions] as strings are read back
    as they are. *)
Lemma followUps_read_back (r : json) (qs : list jstring) :
  prop r (lit "follow_up_questions") = Some (JArr (List.map JStr qs)) ->
  followUpsFromResult r = qs.
Proof.
  intros H. unfold followUpsFromResult. rewrite H. simpl.
  apply strings_of_strings.
Qed.

Lemma handleArchitect_success_shown
    (env : Env) (w : World) (status : Z) (body : option json)
    (promptText : jstring) :
  trim (State.idea (ui w)) <> [] ->
  canGenerate (State.plan (ui w)) (State.dailyCount (ui w)) = true ->
  fetch env (JObj [(lit "userInput", JStr (trim (State.idea (ui w))))])
    = Response status body ->
  ok status = true ->
  toCopyReadyPrompt match body with Some j => j | None => JNull end
    = Returns promptText ->
  Ui.shownOutput (ui (handleArchitect env w)) = Some (JStr promptText)
  /\ Ui.followUps (ui (handleArchitect env w))
     = followUpsFromResult match body with Some j => j | None => JNull end.
Proof.
  intros Hidea Hcan Hfetch Hok Hnorm.
  pose proof (toCopyReadyPrompt_nonempty _ _ Hnorm) as Hne.
  apply nonempty_true in Hne. apply nonempty_true in Hidea.
  set (data := match body with Some j => j | None => JNull end) in *.
  set (shown :=
         map_set
           (map_set (if truthy data then spread data else [])
                    (lit "prompt") (JStr promptText))
           (lit "follow_up_questions")
           (JArr (List.map JStr (followUpsFromResult data)))).
  assert (Hres : State.result (ui (handleArchitect env w))
                 = Some (JObj shown)).
  { unfold handleArchitect.
    rewrite Hidea, Hcan. cbn [negb]. rewrite Hfetch, Hok. cbn [negb].
    fold data. rewrite Hnorm. reflexivity. }
  unfold Ui.shownOutput, Ui.followUps, Ui.resultValue. rewrite Hres.
  split.
  - cbn [truthy prop]. unfold shown.
    rewrite own_map_set_other by (vm_compute; discriminate).
    rewrite own_map_set_same. cbn [or_else truthy]. now rewrite Hne.
  - apply followUps_read_back. cbn [prop]. unfold shown.
    apply own_map_set_same.
Qed.

(** X9. After a successful generation the output card shows exactly the
    normalized prompt, never the "No output generated." fallback, and the
    follow-up buttons are exactly the follow-ups extracted from the
    response: the same two values the new history entry stores. *)
Theorem X9_shown_result_is_what_is_stored
    (env : Env) (w : World) (status : Z) (body : option json)
    (promptText : jstring) :
  trim (State.idea (ui w)) <> [] ->
  canGenerate (State.plan (ui w)) (State.dailyCount (ui w)) = true ->
  fetch env (JObj [(lit "userInput", JStr (trim (State.idea (ui w))))])
    = Response status body ->
  ok status = true ->
  toCopyReadyPrompt match body with Some j => j | None => JNull end
    = Returns promptText ->
  Ui.shownOutput (ui (handleArchitect env w)) = Some (JStr promptText)
  /\ Ui.followUps (ui (handleArchitect env w))
     = followUpsFromResult match body with Some j => j | None => JNull end.
Proof. apply handleArchitect_success_shown. Qed.

Lemma X9_shown_result_is_what_is_stored_witness :
  let env := Samples.envWith Samples.jan1
               (Response 200 (Some Samples.multiFieldPayload)) in
  let w := Samples.worldWith pro 0 (lit "idea") [] in
  Ui.shownOutput (ui (handleArchitect env w))
  = Some (JStr (lit "AI Role:" ++ newline ++ lit "r" ++ newline ++ newline
                ++ lit "Task:" ++ newline ++ lit "t"))
  /\ Ui.followUps (ui (handleArchitect env w)) = [].
Proof.
  intros env w.
  destruct (X9_shown_result_is_what_is_stored env w 200
              (Some Samples.multiFieldPayload)
              (lit "AI Role:" ++ newline ++ lit "r" ++ newline ++ newline
               ++ lit "Task:" ++ newline ++ lit "t"))
    as [Ho Hf];
    [vm_compute; discriminate|reflexivity|reflexivity|reflexivity
    |vm_compute; reflexivity|].
  split; [exact Ho|exact Hf].
Defined.

(** X10. Opening a history entry fills the input with the entry's input,
    shows the entry's output (the fallback only for an empty output) and
    offers exactly the entry's follow-ups, without touching the count, the
    history, the storage or the network. *)
Theorem X10_loadHistoryItem_shows_the_entry
    (item : HistoryItem.t) (w : World) :
  State.idea (ui (Ui.loadHistoryItem item w)) = HistoryItem.input item
  /\ Ui.followUps (ui (Ui.loadHistoryItem item w))
     = HistoryItem.followUps item
  /\ Ui.shownOutput (ui (Ui.loadHistoryItem item w))
     = Some (JStr (if nonempty (HistoryItem.output item)
                   then HistoryItem.output item
                   else lit "No output generated."))
  /\ State.activeHistoryId (ui (Ui.loadHistoryItem item w))
     = Some (HistoryItem.id item)
  /\ State.history (ui (Ui.loadHistoryItem item w)) = State.history (ui w)
  /\ State.dailyCount (ui (Ui.loadHistoryItem item w))
     = State.dailyCount (ui w)
  /\ storage (Ui.loadHistoryItem item w) = storage w
  /\ effects (Ui.loadHistoryItem item w) = effects w.
Proof.
  repeat split.
  - unfold Ui.followUps, Ui.resultValue, Ui.loadHistoryItem. cbn.
    apply strings_of_strings.
  - unfold Ui.shownOutput, Ui.resultValue, Ui.loadHistoryItem. cbn.
    now destruct (nonempty (HistoryItem.output item)).
Qed.

(** X11. The generate button is disabled exactly when a request is in
    flight or the handler's own quota test would refuse: the button's
    [remaining === 0] and the handler's [dailyCount < FREE_DAILY_LIMIT]
    never disagree. *)
Theorem X11_button_and_quota_gate_agree (s : State.t) :
  Ui.generateDisabled s
  = State.loading s
    || negb (canGenerate (State.plan s) (State.dailyCount s)).
Proof.
  unfold Ui.generateDisabled, remaining, canGenerate, FREE_DAILY_LIMIT.
  destruct (State.plan s); cbn [Ui.isPro negb andb]; [|reflexivity].
  f_equal.
  destruct (Z.ltb_spec (State.dailyCount s) 3);
    destruct (Z.eqb_spec (Z.max 0 (3 - State.dailyCount s)) 0);
    cbn [negb]; try reflexivity; lia.
Qed.

(* ------------------------------------------------------------------ *)
(** ** Filling the input                                               *)
(* ------------------------------------------------------------------ *)

(** A request is sent whenever the input is not blank and the quota test
    passes. *)
Lemma handleArchitect_sends (env : Env) (w : World) :
  trim (State.idea (ui w)) <> [] ->
  canGenerate (State.plan (ui w)) (State.dailyCount (ui w)) = true ->
  In (Fetch (lit "/api/transformPrompt")
            (JObj [(lit "userInput", JStr (trim (State.idea (ui w))))]))
     (effects (handleArchitect env w)).
Proof.
  intros Hidea Hcan. apply nonempty_true in Hidea.
  architect_paths env w; try congruence;
    try (cbn; now left).
  - unfold saveToHistory, bumpUsage.
    destruct (State.plan (ui w)); cbn; auto.
  - unfold bumpUsage. destruct (State.plan (ui w)); cbn; auto.
Qed.

Lemma followUpBlock_nonblank (q : jstring) (s : jstring) :
  trim (s ++ Ui.followUpBlock q) <> [].
Proof.
  apply (trim_nonblank _ 70%N); [|reflexivity].
  apply in_or_app. right. unfold Ui.followUpBlock. simpl. now left.
Qed.

(** X12. Clicking a follow-up question always leaves an input that is not
    blank, whatever the question and the previous input; with quota left,
    the next generation therefore sends a request for that input and
    changes nothing but the input. *)
Theorem X12_follow_up_click_prepares_a_valid_input
    (env : Env) (q : jstring) (w : World) :
  trim (State.idea (ui (Ui.handleFollowUpClick q w))) <> []
  /\ State.history (ui (Ui.handleFollowUpClick q w)) = State.history (ui w)
  /\ State.dailyCount (ui (Ui.handleFollowUpClick q w))
     = State.dailyCount (ui w)
  /\ storage (Ui.handleFollowUpClick q w) = storage w
  /\ effects (Ui.handleFollowUpClick q w) = effects w
  /\ (canGenerate (State.plan (ui w)) (State.dailyCount (ui w)) = true ->
      In (Fetch (lit "/api/transformPrompt")
            (JObj [(lit "userInput",
                    JStr (trim (State.idea
                                  (ui (Ui.handleFollowUpClick q w)))))]))
         (effects (handleArchitect env (Ui.handleFollowUpClick q w)))).
Proof.
  assert (Hne : trim (State.idea (ui (Ui.handleFollowUpClick q w))) <> []).
  { change (State.idea (ui (Ui.handleFollowUpClick q w)))
      with (if nonempty (trim (State.idea (ui w)))
            then trim (State.idea (ui w))
                 ++ (newline ++ newline ++ lit "---" ++ newline
                     ++ Ui.followUpBlock q)
            else Ui.followUpBlock q).
    destruct (nonempty (trim (State.idea (ui w)))).
    - replace (trim (State.idea (ui w))
               ++ (newline ++ newline ++ lit "---" ++ newline
                   ++ Ui.followUpBlock q))
        with ((trim (State.idea (ui w))
               ++ newline ++ newline ++ lit "---" ++ newline)
              ++ Ui.followUpBlock q)
        by (now rewrite <- !app_assoc).
      apply followUpBlock_nonblank.
    - apply (followUpBlock_nonblank q []). }
  split; [exact Hne|]. repeat split.
  intros Hcan. apply handleArchitect_sends; [exact Hne|exact Hcan].
Qed.

Lemma X12_follow_up_click_prepares_a_valid_input_witness :
  let env := Samples.envWith Samples.jan1 (Response 500 None) in
  let w := Samples.worldWith free 0 (lit "   ") [] in
  State.idea (ui (Ui.handleFollowUpClick (lit "Why?") w))
  = Ui.followUpBlock (lit "Why?")
  /\ In (Fetch (lit "/api/transformPrompt")
           (JObj [(lit "userInput",
                   JStr (trim (Ui.followUpBlock (lit "Why?"))))]))
        (effects (handleArchitect env (Ui.handleFollowUpClick (lit "Why?") w))).
Proof.
  intros env w. split; [reflexivity|].
  destruct (X12_follow_up_click_prepares_a_valid_input env (lit "Why?") w)
    as (_ & _ & _ & _ & _ & Hsend).
  apply Hsend. reflexivity.
Defined.

(** X13. A preset of the table is refused exactly when the plan is free
    and the preset is [digitalProduct]: the input and the selected preset
    stay as they were, the upgrade banner is raised and the Pro-only
    message is shown. Every other choice selects the preset, clears the
    error and fills the input with the preset's text, which is never
    blank. The button's [locked] flag and the handler's test agree. *)
Theorem X13_presets_gate (p : Ui.Preset.t) (w : World) :
  In p Ui.presets ->
  (Ui.locked (State.plan (ui w)) p = true
   <-> State.plan (ui w) = free /\ Ui.Preset.id p = digitalProduct)
  /\ (Ui.locked (State.plan (ui w)) p = true ->
      State.idea (ui (Ui.applyPreset p w)) = State.idea (ui w)
      /\ State.preset (ui (Ui.applyPreset p w)) = State.preset (ui w)
      /\ State.showUpgrade (ui (Ui.applyPreset p w)) = true
      /\ State.error (ui (Ui.applyPreset p w))
         = JStr (lit "That preset is Pro-only. Upgrade to unlock it."))
  /\ (Ui.locked (State.plan (ui w)) p = false ->
      State.idea (ui (Ui.applyPreset p w)) = Ui.Preset.text p
      /\ State.preset (ui (Ui.applyPreset p w)) = Some (Ui.Preset.id p)
      /\ State.error (ui (Ui.applyPreset p w)) = JStr []
      /\ trim (State.idea (ui (Ui.applyPreset p w))) <> []).
Proof.
  intros Hin.
  assert (Htable : (Ui.isProOnly p = true <-> Ui.Preset.id p = digitalProduct)
                   /\ trim (Ui.Preset.text p) <> []).
  { unfold Ui.presets in Hin.
    repeat (destruct Hin as [<-|Hin];
            [split; [split; [intros H; first [reflexivity|discriminate H]
                            |intros H; first [reflexivity|discriminate H]]
                    |vm_compute; discriminate]|]).
    destruct Hin. }
  destruct Htable as [Hpro Htext].
  unfold Ui.locked, Ui.applyPreset.
  destruct (Ui.isProOnly p) eqn:Ep, (State.plan (ui w)) eqn:Epl;
    cbn [Ui.isPro negb andb]; (split; [|split]);
    try (intros H; discriminate H);
    try (intros _; cbn; repeat split; try exact Htext; fail).
  - split; [intros _; split; [reflexivity|now apply Hpro]|reflexivity].
  - split; [discriminate|intros [H _]; discriminate H].
  - split; [discriminate|].
    intros [_ H]. apply Hpro in H. discriminate H.
  - split; [discriminate|intros [H _]; discriminate H].
Qed.

Lemma X13_presets_gate_witness :
  let w := Samples.worldWith free 0 (lit "mine") [] in
  Forall (fun p =>
            State.idea (ui (Ui.applyPreset p w))
            = if Ui.locked free p then lit "mine" else Ui.Preset.text p)
         Ui.presets.
Proof.
  intros w. apply Forall_forall. intros p Hin.
  destruct (X13_presets_gate p w Hin) as (_ & Hlocked & Hfree).
  change (State.plan (ui w)) with free in *.
  destruct (Ui.locked free p).
  - now destruct (Hlocked eq_refl) as (Hi & _).
  - now destruct (Hfree eq_refl) as (Hi & _).
Defined.

(* ------------------------------------------------------------------ *)
(** ** Retention on any history                                        *)
(* ------------------------------------------------------------------ *)

Lemma map_set_values_in (m : list (jstring * HistoryItem.t)) k v x :
  In x (map_values (map_set m k v)) -> x = v \/ In x (map_values m).
Proof.
  unfold map_values. induction m as [|[k' v'] m IH]; simpl.
  - intros [<-|[]]. now left.
  - destruct (str_eqb k' k); simpl.
    + intros [<-|H]; auto.
    + intros [<-|H]; auto. destruct (IH H); auto.
Qed.

Lemma byId_values_in l (m : list (jstring * HistoryItem.t)) x :
  In x (map_values
          (fold_left (fun m item => map_set m (HistoryItem.id item) item)
                     l m)) ->
  In x l \/ In x (map_values m).
Proof.
  revert m. induction l as [|y l IH]; intros m; simpl; [auto|].
  intros H. destruct (IH _ H) as [Hl|Hm]; [auto|].
  apply map_set_values_in in Hm as [->|Hm]; auto.
Qed.

Lemma map_set_unsaved_count (m : list (jstring * HistoryItem.t)) k v :
  (List.length (nonSavedOf (map_values (map_set m k v)))
   <= List.length (nonSavedOf (map_values m))
      + List.length (nonSavedOf [v]))%nat.
Proof.
  unfold map_values, nonSavedOf.
  induction m as [|[k' v'] m IH]; simpl.
  - destruct (negb (HistoryItem.saved v)); simpl; lia.
  - destruct (str_eqb k' k); simpl.
    + destruct (negb (HistoryItem.saved v)),
               (negb (HistoryItem.saved v')); simpl; lia.
    + simpl in IH.
      destruct (negb (HistoryItem.saved v')); simpl; lia.
Qed.

Lemma byId_unsaved_count l (m : list (jstring * HistoryItem.t)) :
  (List.length
     (nonSavedOf
        (map_values
           (fold_left (fun m item => map_set m (HistoryItem.id item) item)
                      l m)))
   <= List.length (nonSavedOf (map_values m))
      + List.length (nonSavedOf l))%nat.
Proof.
  revert m. induction l as [|y l IH]; intros m; simpl; [lia|].
  specialize (IH (map_set m (HistoryItem.id y) y)).
  pose proof (map_set_unsaved_count m (HistoryItem.id y) y) as Hy.
  unfold nonSavedOf in *. simpl in *.
  destruct (negb (HistoryItem.saved y)); simpl in *; lia.
Qed.

Lemma map_set_keys (m : list (jstring * HistoryItem.t)) k v :
  List.map fst (map_set m k v)
  = if existsb (fun kv => str_eqb (fst kv) k) m
    then List.map fst m else List.map fst m ++ [k].
Proof.
  induction m as [|[k' v'] m IH]; simpl; [reflexivity|].
  destruct (str_eqb k' k); simpl; [reflexivity|].
  rewrite IH. now destruct (existsb _ m).
Qed.

Lemma map_set_keyedById (m : list (jstring * HistoryItem.t)) v :
  keyedById m -> keyedById (map_set m (HistoryItem.id v) v).
Proof.
  unfold keyedById, ids, map_values. intros [Hk Hnd]. split.
  - clear Hnd. induction m as [|[k' v'] m IH]; simpl in *; [reflexivity|].
    injection Hk as Hk' Hk.
    destruct (str_eqb k' (HistoryItem.id v)) eqn:E; simpl.
    + apply str_eqb_eq in E. now rewrite E, Hk.
    + now rewrite Hk', (IH Hk).
  - rewrite map_set_keys.
    destruct (existsb _ m) eqn:E; [exact Hnd|].
    apply NoDup_app; [exact Hnd|repeat constructor; intros []|].
    intros x Hx [<-|[]].
    apply in_map_iff in Hx as (kv & Hkv & Hin).
    assert (Hex : existsb (fun kv => str_eqb (fst kv) (HistoryItem.id v)) m
                  = true).
    { apply existsb_exists. exists kv. split; [exact Hin|].
      rewrite Hkv. apply str_eqb_refl. }
    congruence.
Qed.

Lemma byId_keyedById l (m : list (jstring * HistoryItem.t)) :
  keyedById m ->
  keyedById
    (fold_left (fun m item => map_set m (HistoryItem.id item) item) l m).
Proof.
  revert m. induction l as [|y l IH]; intros m Hm; simpl; [exact Hm|].
  apply IH. now apply map_set_keyedById.
Qed.

Lemma enforce_free_unfold items :
  enforceHistoryLimit free items
  = sort newestFirst
      (map_values
         (fold_left (fun m item => map_set m (HistoryItem.id item) item)
                    (savedOf items
                     ++ firstn FREE_HISTORY_LIMIT (nonSavedOf items))
                    [])).
Proof. reflexivity. Qed.

Lemma enforce_incl p items : incl (enforceHistoryLimit p items) items.
Proof.
  destruct p; [|apply incl_refl].
  rewrite enforce_free_unfold. intros x Hx.
  apply (Permutation_in _ (sort_perm _)) in Hx.
  apply byId_values_in in Hx as [Hx|[]].
  apply in_app_or in Hx as [Hx|Hx].
  - now apply filter_In in Hx.
  - assert (Hin : In x (nonSavedOf items)).
    { rewrite <- (firstn_skipn FREE_HISTORY_LIMIT (nonSavedOf items)).
      apply in_or_app. now left. }
    now apply filter_In in Hin.
Qed.

Lemma enforce_free_unsaved_bound items :
  (List.length (nonSavedOf (enforceHistoryLimit free items)) <= 10)%nat.
Proof.
  rewrite enforce_free_unfold.
  unfold nonSavedOf at 1. rewrite filter_sort.
  rewrite (Permutation_length (sort_perm _)).
  eapply Nat.le_trans; [apply byId_unsaved_count|].
  change (nonSavedOf (map_values [])) with (@nil HistoryItem.t).
  unfold nonSavedOf at 1. rewrite filter_app.
  change (List.length (@nil HistoryItem.t)
          + List.length
              (nonSavedOf (savedOf items)
               ++ nonSavedOf (firstn FREE_HISTORY_LIMIT (nonSavedOf items)))
          <= 10)%nat.
  rewrite nonSavedOf_savedOf, nonSavedOf_firstn.
  rewrite length_app, length_firstn. unfold FREE_HISTORY_LIMIT.
  cbn [List.length]. lia.
Qed.

Lemma enforce_free_ids_distinct items :
  NoDup (ids (enforceHistoryLimit free items)).
Proof.
  rewrite enforce_free_unfold. apply ids_sort_distinct.
  destruct (byId_keyedById
              (savedOf items ++ firstn FREE_HISTORY_LIMIT (nonSavedOf items))
              []) as [Hk Hnd].
  - split; [reflexivity|constructor].
  - now rewrite <- Hk.
Qed.

(** X14. Under the free plan the retention step, on any list whatever
    (unordered, with repeated ids), returns only entries of the list, at
    most ten of them unsaved, with pairwise different ids, newest first;
    under pro it returns the list as it is. *)
Theorem X14_retention_on_any_history (items : list HistoryItem.t) :
  incl (enforceHistoryLimit free items) items
  /\ (List.length (nonSavedOf (enforceHistoryLimit free items)) <= 10)%nat
  /\ NoDup (ids (enforceHistoryLimit free items))
  /\ newestFirstOrder (enforceHistoryLimit free items)
  /\ enforceHistoryLimit pro items = items.
Proof.
  split; [apply enforce_incl|].
  split; [apply enforce_free_unsaved_bound|].
  split; [apply enforce_free_ids_distinct|].
  split; [rewrite enforce_free_unfold; apply sort_sorted|reflexivity].
Qed.

Lemma saved_entry_kept p items x :
  NoDup (ids items) -> In x items -> HistoryItem.saved x = true ->
  In x (enforceHistoryLimit p items).
Proof.
  intros Hnd Hin Hs. destruct p; [|exact Hin].
  assert (Hx : In x (savedOf (enforceHistoryLimit free items))).
  { rewrite enforce_free_saved by exact Hnd.
    apply (Permutation_in _ (Permutation_sym (sort_perm _))).
    apply filter_In. now split. }
  now apply filter_In in Hx.
Qed.

(** X15. With pairwise different ids, marking an unsaved entry as saved
    keeps it in the history under either plan, and every entry that was
    already saved stays as well. *)
Theorem X15_saving_protects_an_entry
    (env : Env) (w : World) (x : HistoryItem.t) :
  NoDup (ids (State.history (ui w))) ->
  In x (State.history (ui w)) ->
  HistoryItem.saved x = false ->
  In (flipSaved (HistoryItem.id x) x)
     (State.history (ui (toggleSaved env (HistoryItem.id x) w)))
  /\ HistoryItem.saved (flipSaved (HistoryItem.id x) x) = true
  /\ (forall y, In y (State.history (ui w)) ->
                HistoryItem.saved y = true ->
                In y (State.history
                        (ui (toggleSaved env (HistoryItem.id x) w)))).
Proof.
  intros Hnd Hin Hs.
  set (h := State.history (ui w)) in *.
  set (i := HistoryItem.id x).
  assert (Hflip : HistoryItem.saved (flipSaved i x) = true).
  { unfold flipSaved, i. rewrite str_eqb_refl. simpl. now rewrite Hs. }
  assert (Hh : State.history (ui (toggleSaved env i w))
               = enforceHistoryLimit (State.plan (ui w))
                   (sort newestFirst (List.map (flipSaved i) h)))
    by reflexivity.
  assert (Hnd' : NoDup (ids (sort newestFirst (List.map (flipSaved i) h)))).
  { apply ids_sort_distinct. now rewrite ids_flipSaved. }
  rewrite Hh. split; [|split; [exact Hflip|]].
  - apply saved_entry_kept; [exact Hnd'| |exact Hflip].
    apply (Permutation_in _ (Permutation_sym (sort_perm _))).
    now apply in_map.
  - intros y Hy Hsy.
    apply saved_entry_kept; [exact Hnd'| |exact Hsy].
    apply (Permutation_in _ (Permutation_sym (sort_perm _))).
    assert (Hyx : flipSaved i y = y).
    { unfold flipSaved. destruct (str_eqb (HistoryItem.id y) i) eqn:E;
        [|reflexivity].
      apply str_eqb_eq in E. exfalso.
      (* two entries with the id of [x]: they are the same entry *)
      assert (Heq : y = x).
      { clear - Hnd Hin Hy E. unfold ids in Hnd. subst i.
        induction h as [|z h IH]; [destruct Hin|].
        simpl in Hnd. apply NoDup_cons_iff in Hnd as [Hz Hnd].
        destruct Hin as [->|Hin], Hy as [->|Hy]; auto.
        - exfalso. apply Hz. rewrite <- E. now apply in_map.
        - exfalso. apply Hz. rewrite E. now apply in_map. }
      subst y. congruence. }
    rewrite <- Hyx. now apply in_map.
Qed.

Lemma X15_saving_protects_an_entry_witness :
  let env := Samples.envWith Samples.jan1 (Response 200 None) in
  let w := Samples.worldWith free 0 [] Samples.fifteen in
  In (flipSaved (lit "e1") (Samples.entry 1))
     (State.history (ui (toggleSaved env (lit "e1") w))).
Proof.
  intros env w.
  destruct (X15_saving_protects_an_entry env w (Samples.entry 1))
    as (Hin & _).
  - apply distinct_NoDup. vm_compute. reflexivity.
  - vm_compute. tauto.
  - reflexivity.
  - exact Hin.
Defined.

(* ------------------------------------------------------------------ *)
(** ** History operations, composed                                    *)
(* ------------------------------------------------------------------ *)

Lemma flipSaved_twice id x : flipSaved id (flipSaved id x) = x.
Proof.
  unfold flipSaved. destruct (str_eqb (HistoryItem.id x) id) eqn:E.
  - simpl. rewrite E. destruct x. simpl. now rewrite negb_involutive.
  - now rewrite E.
Qed.

Lemma flipSaved_createdAt id x :
  HistoryItem.createdAt (flipSaved id x) = HistoryItem.createdAt x.
Proof. unfold flipSaved. now destruct (str_eqb _ _). Qed.

Lemma sorted_map_flipSaved id l :
  newestFirstOrder l -> newestFirstOrder (List.map (flipSaved id) l).
Proof.
  induction 1 as [|x l Hl IH Hx]; simpl; constructor; [exact IH|].
  rewrite Forall_forall in Hx |- *. intros y Hy.
  apply in_map_iff in Hy as (z & <- & Hz).
  unfold notOlder. rewrite !flipSaved_createdAt. now apply Hx.
Qed.

(** X16. Under the pro plan, on a history ordered newest first, toggling
    the saved flag of the same id twice gives the history back. *)
Theorem X16_toggle_twice_restores_under_pro
    (env : Env) (id : jstring) (w : World) :
  State.plan (ui w) = pro ->
  newestFirstOrder (State.history (ui w)) ->
  State.history (ui (toggleSaved env id (toggleSaved env id w)))
  = State.history (ui w).
Proof.
  intros Hplan Hs.
  assert (H1 : State.history (ui (toggleSaved env id w))
               = List.map (flipSaved id) (State.history (ui w))).
  { change (enforceHistoryLimit (State.plan (ui w))
              (sort newestFirst (List.map (flipSaved id) (State.history (ui w))))
            = List.map (flipSaved id) (State.history (ui w))).
    rewrite Hplan. cbn [enforceHistoryLimit].
    apply sort_of_sorted. now apply sorted_map_flipSaved. }
  change (enforceHistoryLimit (State.plan (ui w))
            (sort newestFirst
               (List.map (flipSaved id)
                  (State.history (ui (toggleSaved env id w)))))
          = State.history (ui w)).
  rewrite Hplan, H1. cbn [enforceHistoryLimit].
  rewrite map_map.
  rewrite (map_ext _ (fun x => x)) by (intros; apply flipSaved_twice).
  rewrite map_id. now apply sort_of_sorted.
Qed.

Lemma X16_toggle_twice_restores_under_pro_witness :
  let env := Samples.envWith Samples.jan1 (Response 200 None) in
  let w := Samples.worldWith pro 0 [] MoreSamples.three in
  State.history (ui (toggleSaved env (lit "b") (toggleSaved env (lit "b") w)))
  = MoreSamples.three.
Proof.
  intros env w.
  apply (X16_toggle_twice_restores_under_pro env (lit "b") w).
  - reflexivity.
  - unfold newestFirstOrder, notOlder.
    repeat (constructor;
            [|repeat (constructor; [vm_compute; discriminate|])]);
      constructor.
Defined.

(** X17. Deleting removes exactly the entries with the given id and leaves
    every other entry, flags and order included; deleting an id that is not
    there, or deleting twice, changes nothing more; the active entry is
    deselected only when it is the deleted one. *)
Theorem X17_delete_removes_only_that_id
    (env : Env) (id : jstring) (w : World) :
  (forall x, In x (State.history (ui (deleteHistoryItem env id w)))
             <-> In x (State.history (ui w)) /\ HistoryItem.id x <> id)
  /\ (~ In id (ids (State.history (ui w))) ->
      State.history (ui (deleteHistoryItem env id w))
      = State.history (ui w))
  /\ State.history
       (ui (deleteHistoryItem env id (deleteHistoryItem env id w)))
     = State.history (ui (deleteHistoryItem env id w))
  /\ State.activeHistoryId (ui (deleteHistoryItem env id w))
     = (if same_id (State.activeHistoryId (ui w)) id
        then None else State.activeHistoryId (ui w))
  /\ State.dailyCount (ui (deleteHistoryItem env id w))
     = State.dailyCount (ui w).
Proof.
  assert (Heq : forall w0,
             State.history (ui (deleteHistoryItem env id w0))
             = filter (fun x => negb (str_eqb (HistoryItem.id x) id))
                      (State.history (ui w0))).
  { intros w0. unfold deleteHistoryItem.
    destruct (same_id _ _); reflexivity. }
  split; [|split; [|split; [|split]]].
  - intros x. rewrite Heq, filter_In, negb_true_iff, str_eqb_neq. tauto.
  - intros Hn. rewrite Heq. apply filter_all. intros x Hx.
    apply negb_true_iff, str_eqb_neq. intros E. apply Hn.
    rewrite <- E. now apply in_map.
  - rewrite (Heq (deleteHistoryItem env id w)), Heq.
    apply filter_all. intros x Hx. now apply filter_In in Hx.
  - unfold deleteHistoryItem. destruct (same_id _ _); reflexivity.
  - unfold deleteHistoryItem. destruct (same_id _ _); reflexivity.
Qed.

(** X18. Clearing the history leaves no unsaved entry and nothing that
    was not a saved entry before, under either plan and on any history;
    when the ids are pairwise different every saved entry survives, and
    on a history ordered newest first they survive in their order. No
    entry stays selected. *)
Theorem X18_clear_keeps_the_saved_entries (env : Env) (w : World) :
  nonSavedOf (State.history (ui (clearAllHistory env w))) = []
  /\ incl (State.history (ui (clearAllHistory env w)))
          (savedOf (State.history (ui w)))
  /\ State.activeHistoryId (ui (clearAllHistory env w)) = None
  /\ (NoDup (ids (State.history (ui w))) ->
      Permutation (State.history (ui (clearAllHistory env w)))
                  (savedOf (State.history (ui w))))
  /\ (wellKept (State.history (ui w)) ->
      State.history (ui (clearAllHistory env w))
      = savedOf (State.history (ui w))).
Proof.
  set (h := State.history (ui w)).
  assert (Hh : State.history (ui (clearAllHistory env w))
               = enforceHistoryLimit (State.plan (ui w))
                   (sort newestFirst (savedOf h)))
    by reflexivity.
  assert (Hincl : incl (State.history (ui (clearAllHistory env w)))
                       (savedOf h)).
  { rewrite Hh. intros x Hx. apply enforce_incl in Hx.
    now apply (Permutation_in _ (sort_perm _)) in Hx. }
  assert (Hperm : NoDup (ids h) ->
                  Permutation (State.history (ui (clearAllHistory env w)))
                              (savedOf h)).
  { intros Hnd. rewrite Hh.
    assert (Hnd' : NoDup (ids (sort newestFirst (savedOf h))))
      by (apply ids_sort_distinct; now apply ids_filter_distinct).
    destruct (State.plan (ui w)); [|apply sort_perm].
    rewrite enforce_free_distinct by exact Hnd'.
    rewrite sort_perm.
    change (Permutation
              (savedOf (sort newestFirst (savedOf h))
               ++ firstn FREE_HISTORY_LIMIT
                    (nonSavedOf (sort newestFirst (savedOf h))))
              (savedOf h)).
    unfold nonSavedOf at 1, savedOf at 1. rewrite !filter_sort.
    fold (nonSavedOf (savedOf h)). rewrite nonSavedOf_savedOf.
    cbn [sort firstn]. rewrite app_nil_r.
    fold (savedOf (savedOf h)).
    replace (savedOf (savedOf h)) with (savedOf h).
    - apply sort_perm.
    - symmetry. apply filter_all. intros x Hx. now apply filter_In in Hx. }
  split; [|split; [exact Hincl|split; [reflexivity|split; [exact Hperm|]]]].
  - apply filter_none. intros x Hx. apply Hincl in Hx.
    apply filter_In in Hx as [_ Hs]. now rewrite Hs.
  - intros [Hnd Hs]. rewrite Hh.
    assert (Hsorted : sort newestFirst (savedOf h) = savedOf h)
      by (apply sort_of_sorted; now apply sorted_filter).
    rewrite Hsorted.
    destruct (State.plan (ui w)); [|reflexivity].
    assert (Hnd' : NoDup (ids (savedOf h)))
      by now apply ids_filter_distinct.
    rewrite enforce_free_distinct by exact Hnd'.
    fold (nonSavedOf (savedOf h)). rewrite nonSavedOf_savedOf.
    cbn [firstn]. rewrite app_nil_r.
    replace (savedOf (savedOf h)) with (savedOf h)
      by (symmetry; apply filter_all; intros x Hx;
          now apply filter_In in Hx).
    exact Hsorted.
Qed.

Lemma X18_clear_keeps_the_saved_entries_witness :
  let env := Samples.envWith Samples.jan1 (Response 200 None) in
  let w := Samples.worldWith free 0 [] MoreSamples.three in
  State.history (ui (clearAllHistory env w)) = savedOf MoreSamples.three.
Proof.
  intros env w.
  destruct (X18_clear_keeps_the_saved_entries env w) as (_ & _ & _ & _ & H).
  apply H. split.
  - apply distinct_NoDup. vm_compute. reflexivity.
  - unfold newestFirstOrder, notOlder.
    repeat (constructor;
            [|repeat (constructor; [vm_compute; discriminate|])]);
      constructor.
Defined.

(** X19. Two clicks on the plan button give the plan back, and whichever
    plan one starts from the history has then been through the free
    plan's retention once: at most ten unsaved entries are left. *)
Theorem X19_two_plan_clicks_trim_once (env : Env) (w : World) :
  State.plan (ui (togglePlan env (togglePlan env w))) = State.plan (ui w)
  /\ State.history (ui (togglePlan env (togglePlan env w)))
     = enforceHistoryLimit free (State.history (ui w))
  /\ (List.length
        (nonSavedOf (State.history (ui (togglePlan env (togglePlan env w)))))
      <= 10)%nat.
Proof.
  assert (Hp : forall w0,
             State.plan (ui (togglePlan env w0))
             = match State.plan (ui w0) with free => pro | pro => free end)
    by reflexivity.
  assert (Hh : forall w0,
             State.history (ui (togglePlan env w0))
             = enforceHistoryLimit (State.plan (ui w0))
                                   (State.history (ui w0)))
    by reflexivity.
  assert (Heq : State.history (ui (togglePlan env (togglePlan env w)))
                = enforceHistoryLimit free (State.history (ui w))).
  { rewrite (Hh (togglePlan env w)), Hp, Hh.
    now destruct (State.plan (ui w)). }
  split; [|split; [exact Heq|]].
  - rewrite (Hp (togglePlan env w)), Hp. now destruct (State.plan (ui w)).
  - rewrite Heq. apply enforce_free_unsaved_bound.
Qed.

(** X20. A history with pairwise different ids, ordered newest first,
    stays so through every history operation (appending needs a fresh
    id), the plan button included. *)
Theorem X20_history_stays_well_kept (env : Env) (w : World) :
  wellKept (State.history (ui w)) ->
  (forall input output fups,
      ~ In (uid env) (ids (State.history (ui w))) ->
      wellKept
        (State.history (ui (saveToHistory env (ui w) input output fups w))))
  /\ (forall id, wellKept (State.history (ui (toggleSaved env id w))))
  /\ (forall id, wellKept (State.history (ui (deleteHistoryItem env id w))))
  /\ wellKept (State.history (ui (clearAllHistory env w)))
  /\ wellKept (State.history (ui (togglePlan env w))).
Proof. apply history_operations_wellKept. Qed.

Lemma X20_history_stays_well_kept_witness :
  let env := Samples.envWith Samples.jan1 (Response 200 None) in
  let w := Samples.worldWith free 0 [] Samples.fifteen in
  wellKept Samples.fifteen
  /\ wellKept (State.history (ui (toggleSaved env (lit "e7") w)))
  /\ wellKept (State.history (ui (togglePlan env w))).
Proof.
  intros env w.
  assert (Hk : wellKept Samples.fifteen).
  { split.
    - apply distinct_NoDup. vm_compute. reflexivity.
    - unfold newestFirstOrder, notOlder.
      repeat (constructor;
              [|repeat (constructor; [vm_compute; discriminate|])]);
        constructor. }
  split; [exact Hk|].
  destruct (X20_history_stays_well_kept env w Hk) as (_ & Ht & _ & _ & Hp).
  split; [apply Ht|exact Hp].
Defined.

(* ------------------------------------------------------------------ *)
(** ** The history list as displayed                                   *)
(* ------------------------------------------------------------------ *)

Lemma startsWith_spec (s q : jstring) :
  Ui.startsWith s q = true <-> exists b, s = q ++ b.
Proof.
  revert s. induction q as [|c q IH]; intros [|d s]; simpl; split;
    try (intros _; eauto; fail); try discriminate.
  - intros [b Hb]. discriminate.
  - intros H. apply andb_true_iff in H as [Hc Hs].
    apply N.eqb_eq in Hc. apply IH in Hs as [b ->]. subst. now exists b.
  - intros [b Hb]. injection Hb as <- ->.
    rewrite N.eqb_refl. simpl. apply IH. now exists b.
Qed.

(** [includes] is the substring test. *)
Lemma includes_spec (s q : jstring) :
  Ui.includes s q = true <-> exists a b, s = a ++ q ++ b.
Proof.
  induction s as [|d s IH]; cbn [Ui.includes].
  - rewrite orb_false_r. rewrite startsWith_spec. split.
    + intros [b Hb]. now exists [], b.
    + intros (a & b & H). destruct a; [now exists b|discriminate].
  - rewrite orb_true_iff, startsWith_spec, IH. split.
    + intros [[b Hb]|(a & b & ->)].
      * now exists [], b.
      * now exists (d :: a), b.
    + intros ([|e a] & b & H).
      * left. now exists b.
      * right. injection H as -> ->. now exists a, b.
Qed.

(** X21. The list on display never shows an entry that is not in the
    history and keeps the history's order; the Saved tab shows saved
    entries only; a query that is blank shows the whole tab; otherwise an
    entry of the tab is shown exactly when its lower-cased input, newline
    and output contain the lower-cased, trimmed query. *)
Theorem X21_filtered_history_view
    (toLowerCase : jstring -> jstring) (history : list HistoryItem.t)
    (historyTab : Ui.Tab) (query : jstring) :
  let base := match historyTab with
              | Ui.tabSaved => savedOf history
              | Ui.tabAll => history
              end in
  let shown := Ui.filteredHistory toLowerCase history historyTab query in
  incl shown base
  /\ incl shown history
  /\ (historyTab = Ui.tabSaved ->
      Forall (fun h => HistoryItem.saved h = true) shown)
  /\ (newestFirstOrder history -> newestFirstOrder shown)
  /\ (toLowerCase (trim query) = [] -> shown = base)
  /\ (toLowerCase (trim query) <> [] ->
      forall h, In h shown
                <-> In h base
                    /\ exists a b,
                         toLowerCase (HistoryItem.input h ++ newline
                                      ++ HistoryItem.output h)
                         = a ++ toLowerCase (trim query) ++ b).
Proof.
  intros base shown.
  assert (Hbase : incl base history).
  { unfold base. destruct historyTab; [apply incl_refl|].
    intros x Hx. now apply filter_In in Hx. }
  assert (Hshown :
            shown
            = if negb (nonempty (toLowerCase (trim query))) then base
              else filter
                     (fun h =>
                        Ui.includes
                          (toLowerCase (HistoryItem.input h ++ newline
                                        ++ HistoryItem.output h))
                          (toLowerCase (trim query)))
                     base).
  { unfold shown, base, Ui.filteredHistory, savedOf.
    now destruct historyTab. }
  assert (Hincl : incl shown base).
  { rewrite Hshown. destruct (negb _); [apply incl_refl|].
    intros x Hx. now apply filter_In in Hx. }
  split; [exact Hincl|].
  split; [intros x Hx; apply Hbase; now apply Hincl|].
  split; [|split; [|split]].
  - intros ->. apply Forall_forall. intros x Hx. apply Hincl in Hx.
    now apply filter_In in Hx.
  - intros Hs.
    assert (Hb : newestFirstOrder base)
      by (unfold base; destruct historyTab;
          [exact Hs|now apply sorted_filter]).
    rewrite Hshown. destruct (negb _); [exact Hb|now apply sorted_filter].
  - intros Hq. rewrite Hshown, Hq. reflexivity.
  - intros Hq h. apply nonempty_true in Hq.
    rewrite Hshown, Hq. cbn [negb]. rewrite filter_In, includes_spec.
    tauto.
Qed.

Lemma X21_filtered_history_view_witness :
  Ui.filteredHistory MoreSamples.asciiLower MoreSamples.three Ui.tabSaved
                     (lit "   ")
  = savedOf MoreSamples.three
  /\ Forall (fun h => HistoryItem.saved h = true)
            (Ui.filteredHistory MoreSamples.asciiLower MoreSamples.three
                                Ui.tabSaved (lit " OUT "))
  /\ (In (nth 1 MoreSamples.three (Samples.entry 0))
         (Ui.filteredHistory MoreSamples.asciiLower MoreSamples.three
                             Ui.tabAll (lit " OUT B "))).
Proof.
  destruct (X21_filtered_history_view MoreSamples.asciiLower
              MoreSamples.three Ui.tabSaved (lit "   "))
    as (_ & _ & _ & _ & Hblank & _).
  destruct (X21_filtered_history_view MoreSamples.asciiLower
              MoreSamples.three Ui.tabSaved (lit " OUT "))
    as (_ & _ & Hsaved & _).
  destruct (X21_filtered_history_view MoreSamples.asciiLower
              MoreSamples.three Ui.tabAll (lit " OUT B "))
    as (_ & _ & _ & _ & _ & Hfind).
  split; [apply Hblank; reflexivity|].
  split; [apply Hsaved; reflexivity|].
  apply Hfind; [vm_compute; discriminate|].
  split; [vm_compute; tauto|].
  exists (lit "in b" ++ newline), []. vm_compute. reflexivity.
Defined.

(* ------------------------------------------------------------------ *)
(** ** The normalized prompt is tidy                                   *)
(* ------------------------------------------------------------------ *)

Lemma rev_cons_last (s : jstring) :
  s <> [] -> rev s = last s 0%N :: rev (removelast s).
Proof.
  intros Hne.
  rewrite (app_removelast_last 0%N Hne) at 1.
  now rewrite rev_app_distr.
Qed.

Lemma trimStart_id (s : jstring) :
  match s with [] => True | c :: _ => is_whitespace c = false end ->
  trimStart s = s.
Proof. destruct s as [|c s]; simpl; [reflexivity|]. now intros ->. Qed.

(** A tidy string is left alone by [trim]. *)
Lemma trim_of_tidy (s : jstring) : tidy s -> trim s = s.
Proof.
  destruct s as [|c r]; [reflexivity|].
  intros [Hc Hl]. unfold trim, trimEnd.
  rewrite (trimStart_id (c :: r)) by exact Hc.
  rewrite (rev_cons_last (c :: r)) by discriminate.
  rewrite trimStart_id by exact Hl.
  rewrite <- (rev_cons_last (c :: r)) by discriminate.
  apply rev_involutive.
Qed.

(** [trim] gives a tidy string. *)
Lemma trim_tidy (s : jstring) : tidy (trim s).
Proof.
  unfold trim, trimEnd.
  destruct (trimStart_split (rev (trimStart s))) as (p & Hp & Hws).
  destruct (trimStart (rev (trimStart s))) as [|c u] eqn:Eu;
    [exact I|].
  pose proof (trimStart_head _ _ _ Eu) as Hc.
  assert (Ht : trimStart s = (rev u ++ [c]) ++ rev p).
  { rewrite <- (rev_involutive (trimStart s)), Hp.
    rewrite rev_app_distr. simpl. reflexivity. }
  simpl rev.
  assert (Hlast : last (rev u ++ [c]) 0%N = c) by apply last_last.
  destruct (rev u ++ [c]) as [|d v] eqn:Ev.
  - destruct (rev u); discriminate.
  - split; [|now rewrite Hlast].
    simpl in Ht. now apply trimStart_head in Ht.
Qed.

Lemma tidy_wrapped (a z : N) (body : jstring) :
  is_whitespace a = false -> is_whitespace z = false ->
  tidy (a :: body ++ [z]).
Proof.
  intros Ha Hz. split; [exact Ha|].
  change (a :: body ++ [z]) with ((a :: body) ++ [z]).
  now rewrite last_last.
Qed.

Lemma last_in_cons (c : N) (r : jstring) : In (last (c :: r) 0%N) (c :: r).
Proof.
  revert c. induction r as [|d r IH]; intros c; [now left|].
  right. apply (IH d).
Qed.

Lemma tidy_all (s : jstring) :
  Forall (fun c => is_whitespace c = false) s -> tidy s.
Proof.
  destruct s as [|c r]; [exact (fun _ => I)|].
  intros H. rewrite Forall_forall in H.
  split; apply H; [now left|apply last_in_cons].
Qed.

Lemma digits_no_whitespace (d : Decimal.uint) :
  Forall (fun c => is_whitespace c = false) (digits d).
Proof.
  induction d; simpl; constructor; auto.
Qed.

Lemma number_to_string_tidy (n : Z) : tidy (number_to_string n).
Proof.
  apply tidy_all. unfold number_to_string.
  destruct (Z.to_int n); [|constructor; [reflexivity|]];
    apply digits_no_whitespace.
Qed.

Lemma tidy_snoc (pre : jstring) (z : N) :
  is_whitespace (hd 32%N pre) = false -> is_whitespace z = false ->
  tidy (pre ++ [z]).
Proof.
  destruct pre as [|a body]; [discriminate|].
  intros Ha Hz. now apply tidy_wrapped.
Qed.

Lemma stringify_tidy (indent : jstring) (v : json) :
  tidy (stringify indent v).
Proof.
  destruct v as [|[|]|n|s|[|x items]|[|kv props]];
    try (split; reflexivity).
  - apply number_to_string_tidy.
  - unfold stringify, quote. apply tidy_wrapped; reflexivity.
  - cbn [stringify]. change (lit "]") with [93%N].
    rewrite !app_assoc. apply tidy_snoc; reflexivity.
  - cbn [stringify]. change (lit "}") with [125%N].
    rewrite !app_assoc. apply tidy_snoc; reflexivity.
Qed.

Lemma structuredPrompt_tidy data s :
  structuredPrompt data = Returns s -> tidy s.
Proof.
  unfold structuredPrompt.
  destruct (section _ _) as [l1|]; simpl; [|discriminate].
  destruct (section _ _) as [l2|]; simpl; [|discriminate].
  destruct (section _ _) as [l3|]; simpl; [|discriminate].
  intros [= <-].
  destruct (nonempty _).
  - apply trim_tidy.
  - apply stringify_tidy.
Qed.

Lemma toCopyReadyPrompt_tidy data s :
  toCopyReadyPrompt data = Returns s -> tidy s.
Proof.
  unfold toCopyReadyPrompt.
  destruct (negb (truthy data)).
  - intros [= <-]. split; reflexivity.
  - destruct (prop data (lit "prompt")) as [[| | |p| |]|];
      try apply structuredPrompt_tidy.
    destruct (nonempty (trim p)).
    + intros [= <-]. apply trim_tidy.
    + apply structuredPrompt_tidy.
Qed.

Lemma flat_prompt_returned (data : json) (p : jstring) :
  prop data (lit "prompt") = Some (JStr p) ->
  trim p <> [] ->
  toCopyReadyPrompt data = Returns (trim p).
Proof.
  intros Hprompt Htrim. unfold toCopyReadyPrompt.
  assert (Ht : truthy data = true)
    by (destruct data; simpl in Hprompt; try discriminate; reflexivity).
  rewrite Ht, Hprompt. simpl.
  apply nonempty_true in Htrim. now rewrite Htrim.
Qed.

(** X22. Whatever the normalizer returns neither starts nor ends with
    white space and is not empty, so trimming it changes nothing; and an
    object that carries a returned prompt under [prompt], like the result
    the handler shows, normalizes to that same prompt again. *)
Theorem X22_normalized_prompt_is_stable (data : json) (s : jstring) :
  toCopyReadyPrompt data = Returns s ->
  s <> []
  /\ tidy s
  /\ trim s = s
  /\ forall props,
       toCopyReadyPrompt (JObj (map_set props (lit "prompt") (JStr s)))
       = Returns s.
Proof.
  intros H.
  pose proof (toCopyReadyPrompt_nonempty _ _ H) as Hne.
  pose proof (toCopyReadyPrompt_tidy _ _ H) as Ht.
  pose proof (trim_of_tidy _ Ht) as Htrim.
  split; [exact Hne|]. split; [exact Ht|]. split; [exact Htrim|].
  intros props. rewrite <- Htrim at 2.
  apply flat_prompt_returned.
  - cbn [prop]. apply own_map_set_same.
  - now rewrite Htrim.
Qed.

Lemma X22_normalized_prompt_is_stable_witness :
  toCopyReadyPrompt Samples.numbersPayload
  = Returns (JSON_stringify_2 Samples.numbersPayload)
  /\ trim (JSON_stringify_2 Samples.numbersPayload)
     = JSON_stringify_2 Samples.numbersPayload.
Proof.
  assert (H : toCopyReadyPrompt Samples.numbersPayload
              = Returns (JSON_stringify_2 Samples.numbersPayload))
    by (vm_compute; reflexivity).
  split; [exact H|].
  now destruct (X22_normalized_prompt_is_stable _ _ H) as (_ & _ & Ht & _).
Defined.

(* ------------------------------------------------------------------ *)
(** ** The server handler and the exchange                             *)
(* ------------------------------------------------------------------ *)

Lemma or_else_truthy (a : option json) (b : json) :
  truthy b = true -> truthy (or_else a b) = true.
Proof.
  intros Hb. destruct a as [j|]; simpl; [|exact Hb].
  destruct (truthy j) eqn:E; [exact E|exact Hb].
Qed.

Lemma prop_of_body (body : option json) (k : jstring) (v : json) :
  prop match body with
       | Some j => if truthy j then j else JObj []
       | None => JObj []
       end k = Some v ->
  exists b, body = Some b /\ prop b k = Some v.
Proof.
  destruct body as [b|]; [|discriminate].
  destruct (truthy b); [|discriminate]. eauto.
Qed.

Lemma handler_answers (srv : Api.Server) (req : Api.Request) :
  (Api.status (Api.handler srv req) = 200
   \/ Api.status (Api.handler srv req) = 400
   \/ Api.status (Api.handler srv req) = 405
   \/ Api.status (Api.handler srv req) = 500)
  /\ (Api.status (Api.handler srv req) <> 200 ->
      exists message,
        Api.payload (Api.handler srv req) = Api.errorBody message
        /\ truthy message = true)
  /\ (Api.status (Api.handler srv req) = 200 ->
      Api.method req = lit "POST"
      /\ exists b userInput key model text,
           Api.body req = Some b
           /\ prop b (lit "userInput") = Some (JStr userInput)
           /\ userInput <> []
           /\ Api.GEMINI_API_KEY srv = Some key /\ key <> []
           /\ Api.generateContent srv model userInput
              = Api.Answered (Some text)
           /\ text <> []
           /\ Api.JSON_parse srv text
              = Api.Decoded_value (Api.payload (Api.handler srv req)))
  /\ (Api.method req <> lit "POST" ->
      Api.status (Api.handler srv req) = 405).
Proof.
  unfold Api.handler.
  destruct (str_eqb (Api.method req) (lit "POST")) eqn:Em; cbn [negb].
  2:{ apply str_eqb_neq in Em.
      split; [auto|]. split; [|split; [discriminate|reflexivity]].
      intros _. eexists. split; reflexivity. }
  apply str_eqb_eq in Em.
  destruct (prop _ (lit "userInput")) as [[| | |u| |]|] eqn:Eu;
    try (split; [auto|]; split; [|split; [discriminate|congruence]];
         intros _; eexists; split; reflexivity).
  apply prop_of_body in Eu as (b & Eb & Eu).
  destruct (nonempty u) eqn:Enu; cbn [negb];
    [|split; [auto|]; split; [|split; [discriminate|congruence]];
      intros _; eexists; split; reflexivity].
  apply nonempty_true in Enu.
  destruct (Api.GEMINI_API_KEY srv) as [[|k key]|] eqn:Ek;
    try (split; [auto|]; split; [|split; [discriminate|congruence]];
         intros _; eexists; split; reflexivity).
  match goal with
  | |- context [Api.generateContent srv ?m u] => set (model := m)
  end.
  destruct (Api.generateContent srv model u) as [m|[[|c text]|]] eqn:Eg;
    try (split; [auto|]; split; [|split; [discriminate|congruence]];
         intros _; eexists; split; reflexivity).
  - split; [auto|]. split; [|split; [discriminate|congruence]].
    intros _. eexists. split; [reflexivity|].
    now apply or_else_truthy.
  - destruct (Api.JSON_parse srv (c :: text)) as [m|v] eqn:Ep.
    + split; [auto|]. split; [|split; [discriminate|congruence]].
      intros _. eexists. split; [reflexivity|].
      now apply or_else_truthy.
    + split; [auto|].
      split; [intros H; exfalso; apply H; reflexivity|].
      split; [|congruence].
      intros _. split; [exact Em|].
      exists b, u, (k :: key), model, (c :: text).
      repeat split; try assumption; discriminate.
Qed.

(** X23. The server handler answers 200, 400, 405 or 500. It answers 200
    only to a POST whose body carries a non-empty string [userInput], with
    the API key set, when the model returned a non-empty text that parses,
    and then sends the parsed value. Every other answer is an object whose
    [error] is truthy; a method other than POST is answered 405. *)
Theorem X23_server_answers (srv : Api.Server) (req : Api.Request) :
  (Api.status (Api.handler srv req) = 200
   \/ Api.status (Api.handler srv req) = 400
   \/ Api.status (Api.handler srv req) = 405
   \/ Api.status (Api.handler srv req) = 500)
  /\ (Api.status (Api.handler srv req) <> 200 ->
      exists message,
        Api.payload (Api.handler srv req) = Api.errorBody message
        /\ truthy message = true)
  /\ (Api.status (Api.handler srv req) = 200 ->
      Api.method req = lit "POST"
      /\ exists b userInput key model text,
           Api.body req = Some b
           /\ prop b (lit "userInput") = Some (JStr userInput)
           /\ userInput <> []
           /\ Api.GEMINI_API_KEY srv = Some key /\ key <> []
           /\ Api.generateContent srv model userInput
              = Api.Answered (Some text)
           /\ text <> []
           /\ Api.JSON_parse srv text
              = Api.Decoded_value (Api.payload (Api.handler srv req)))
  /\ (Api.method req <> lit "POST" ->
      Api.status (Api.handler srv req) = 405).
Proof. apply handler_answers. Qed.

Lemma X23_server_answers_witness :
  Api.status
    (Api.handler MoreSamples.serverWithoutKey
       {| Api.method := lit "GET"; Api.body := None |}) = 405
  /\ exists message,
       Api.payload
         (Api.handler MoreSamples.serverWithoutKey
            {| Api.method := lit "POST";
               Api.body := Some (JObj [(lit "userInput", JStr (lit "x"))]) |})
       = Api.errorBody message
       /\ truthy message = true.
Proof.
  destruct (X23_server_answers MoreSamples.serverWithoutKey
              {| Api.method := lit "GET"; Api.body := None |})
    as (_ & _ & _ & H405).
  destruct (X23_server_answers MoreSamples.serverWithoutKey
              {| Api.method := lit "POST";
                 Api.body := Some (JObj [(lit "userInput", JStr (lit "x"))]) |})
    as (_ & Herr & _).
  split; [apply H405; vm_compute; discriminate|].
  apply Herr. vm_compute. discriminate.
Defined.

Lemma handler_accepts_client_request (srv : Api.Server) (t : jstring) :
  t <> [] ->
  Api.status
    (Api.handler srv
       {| Api.method := lit "POST";
          Api.body := Some (JObj [(lit "userInput", JStr t)]) |}) = 200
  \/ Api.status
       (Api.handler srv
          {| Api.method := lit "POST";
             Api.body := Some (JObj [(lit "userInput", JStr t)]) |}) = 500.
Proof.
  intros Ht. destruct t as [|c t]; [congruence|].
  unfold Api.handler. simpl.
  destruct (Api.GEMINI_API_KEY srv) as [[|k key]|]; simpl; auto.
  destruct (Api.generateContent srv _ _) as [m|[[|d text]|]]; simpl; auto.
  destruct (Api.JSON_parse srv (d :: text)); simpl; auto.
Qed.

(** X24. When the client's request reaches the server handler, it always
    passes the handler's validation: the answer is 200 or 500, never 400
    or 405. On 500 the client shows the handler's error value and leaves
    the count, the history and the storage as they were. On 200 with a
    body the normalizer accepts, the client shows the normalized prompt. *)
Theorem X24_client_meets_server
    (srv : Api.Server) (env : Env) (w : World) :
  (forall request, fetch env request = Api.serve srv request) ->
  trim (State.idea (ui w)) <> [] ->
  canGenerate (State.plan (ui w)) (State.dailyCount (ui w)) = true ->
  let sent :=
    Api.handler srv
      {| Api.method := lit "POST";
         Api.body :=
           Some (JObj [(lit "userInput",
                        JStr (trim (State.idea (ui w))))]) |} in
  (Api.status sent = 200 \/ Api.status sent = 500)
  /\ (Api.status sent = 500 ->
      prop (Api.payload sent) (lit "error")
        = Some (State.error (ui (handleArchitect env w)))
      /\ truthy (State.error (ui (handleArchitect env w))) = true
      /\ State.dailyCount (ui (handleArchitect env w))
         = State.dailyCount (ui w)
      /\ State.history (ui (handleArchitect env w)) = State.history (ui w)
      /\ storage (handleArchitect env w) = storage w)
  /\ (Api.status sent = 200 ->
      forall promptText,
        toCopyReadyPrompt (Api.payload sent) = Returns promptText ->
        Ui.shownOutput (ui (handleArchitect env w)) = Some (JStr promptText)
        /\ Ui.followUps (ui (handleArchitect env w))
           = followUpsFromResult (Api.payload sent)).
Proof.
  intros Hserve Hidea Hcan sent.
  set (request := JObj [(lit "userInput", JStr (trim (State.idea (ui w))))]).
  assert (Hreply : fetch env request
                   = Response (Api.status sent) (Some (Api.payload sent)))
    by (rewrite Hserve; reflexivity).
  destruct (handler_answers srv
              {| Api.method := lit "POST"; Api.body := Some request |})
    as (Hstatus & Herr & _ & _).
  fold sent in Hstatus, Herr.
  assert (Hvalid : Api.status sent = 200 \/ Api.status sent = 500)
    by (apply handler_accepts_client_request; exact Hidea).
  split; [exact Hvalid|]. split.
  - intros H500.
    destruct Herr as (message & Hpayload & Htruthy);
      [change (Api.status sent <> 200); rewrite H500; discriminate|].
    change (Api.payload sent = Api.errorBody message) in Hpayload.
    destruct (handleArchitect_failed_request env w Hidea Hcan)
      as (Hc & Hh & Hst & _ & _ & _ & He).
    { right. exists (Api.status sent), (Some (Api.payload sent)).
      split; [exact Hreply|]. rewrite H500. reflexivity. }
    fold request in He. rewrite Hreply in He.
    rewrite Hpayload in He |- *. cbn [prop Api.errorBody own] in He |- *.
    change (str_eqb (lit "error") (lit "error")) with true in He |- *.
    cbn iota in He |- *. cbn [or_else] in He. rewrite Htruthy in He.
    rewrite He. auto.
  - intros H200 promptText Hnorm.
    apply (handleArchitect_success_shown env w (Api.status sent)
             (Some (Api.payload sent)) promptText);
      try assumption.
    rewrite H200. reflexivity.
Qed.

Lemma X24_client_meets_server_witness :
  let envOk := MoreSamples.envServed Samples.jan1
                 (MoreSamples.serverAnswering MoreSamples.flatAnswer) in
  let envNoKey := MoreSamples.envServed Samples.jan1
                    MoreSamples.serverWithoutKey in
  let w := Samples.worldWith free 0 (lit " build me a plan ") [] in
  Ui.shownOutput (ui (handleArchitect envOk w))
  = Some (JStr (lit "Role: X" ++ newline ++ lit "Task: Y"))
  /\ State.error (ui (handleArchitect envNoKey w))
     = JStr (lit "GEMINI_API_KEY not set on server")
  /\ State.dailyCount (ui (handleArchitect envNoKey w)) = 0.
Proof.
  intros envOk envNoKey w.
  destruct (X24_client_meets_server
              (MoreSamples.serverAnswering MoreSamples.flatAnswer) envOk w)
    as (_ & _ & Hok);
    [reflexivity|vm_compute; discriminate|reflexivity|].
  destruct (X24_client_meets_server MoreSamples.serverWithoutKey envNoKey w)
    as (_ & Hfail & _);
    [reflexivity|vm_compute; discriminate|reflexivity|].
  destruct (Hok eq_refl (lit "Role: X" ++ newline ++ lit "Task: Y"))
    as [Hshown _]; [vm_compute; reflexivity|].
  destruct (Hfail eq_refl) as (Hprop & _ & Hc & _).
  split; [exact Hshown|]. split; [|exact Hc].
  apply (f_equal (fun o => match o with Some e => e | None => JNull end))
    in Hprop.
  symmetry. exact Hprop.
Defined.

(* ------------------------------------------------------------------ *)
(** ** Reading a stored usage record, exporting the history            *)
(* ------------------------------------------------------------------ *)



Lemma export_entry_inj (a b : HistoryItem.t) :
  Ui.exportData [a] = Ui.exportData [b] -> a = b.
Proof.
  destruct a as [i1 c1 p1 n1 o1 f1 s1], b as [i2 c2 p2 n2 o2 f2 s2].
  unfold Ui.exportData. simpl. intros H.
  injection H as Hi Hc Hp Hs Hn Ho Hf.
  apply map_JStr_inj in Hf. subst.
  assert (p1 = p2).
  { destruct p1 as [x|], p2 as [y|]; try discriminate; [|reflexivity].
    injection Hp as Hp. apply presetName_inj in Hp. now subst. }
  now subst.
Qed.

(** X26. The exported data has one object per history entry, in the
    history's order, and loses nothing: two histories with the same
    export are the same history. *)
Theorem X26_export_loses_nothing (h1 h2 : list HistoryItem.t) :
  List.length (Ui.exportData h1) = List.length h1
  /\ (Ui.exportData h1 = Ui.exportData h2 -> h1 = h2).
Proof.
  split; [unfold Ui.exportData; apply length_map|].
  revert h2. induction h1 as [|a h1 IH]; intros [|b h2] H;
    try discriminate; [reflexivity|].
  unfold Ui.exportData in H. cbn [List.map] in H.
  apply cons_eq_inv in H as [Hab H].
  f_equal.
  - apply export_entry_inj. unfold Ui.exportData. cbn [List.map].
    now rewrite Hab.
  - now apply IH.
Qed.

Lemma X26_export_loses_nothing_witness :
  List.length (Ui.exportData MoreSamples.three) = 3%nat
  /\ (Ui.exportData MoreSamples.three = Ui.exportData MoreSamples.three ->
      MoreSamples.three = MoreSamples.three).
Proof.
  destruct (X26_export_loses_nothing MoreSamples.three MoreSamples.three)
    as [Hlen Hinj].
  split; [exact Hlen|exact Hinj].
Defined.

Lemma X17_delete_removes_only_that_id_witness :
  let env := Samples.envWith Samples.jan1 (Response 200 None) in
  let w := Samples.worldWith free 0 [] MoreSamples.three in
  State.history (ui (deleteHistoryItem env (lit "zz") w)) = MoreSamples.three
  /\ ~ In (nth 1 MoreSamples.three (Samples.entry 0))
          (State.history (ui (deleteHistoryItem env (lit "b") w))).
Proof.
  intros env w.
  destruct (X17_delete_removes_only_that_id env (lit "zz") w)
    as (_ & Habsent & _).
  destruct (X17_delete_removes_only_that_id env (lit "b") w)
    as (Hiff & _).
  split.
  - apply Habsent. vm_compute. intros H.
    repeat (destruct H as [H|H]; [discriminate H|]). exact H.
  - intros Hin. apply Hiff in Hin as [_ Hneq]. now apply Hneq.
Defined.
